(** * ms-365-mcp-server: request construction, pagination and the
      transcript workflow

    A shallow embedding of [src/graph-tools.ts] ([executeGraphTool],
    [buildToolsRegistry], the [execute-tool] handler) and of
    [src/composite-tools.ts] ([getTranscriptByMeeting]), with the properties
    the specification states about them; then of the rest of
    [src/graph-tools.ts] ([registerGraphTools], the [search-tools] handler),
    of [tool-categories.ts] and of [parseHttpOption] in [src/server.ts],
    with further properties read off the code.

    Conventions of the embedding.
    - JavaScript values that travel through the code are JSON values
      ([value]); a property read that yields [undefined] is [None].
    - The numbers of JSON values are integers.  A number that the code
      computes with outside JSON, the [limit] of a search and the result of
      [parseInt], is a [number]: [NaN], an infinity, or a finite number
      given by its value.
    - Strings are sequences of one-byte code units, the characters U+0000 to
      U+00FF; [toLowerCase] and [toUpperCase] fold the letters among them.
    - A JS object is the list of its entries in insertion order, its keys
      distinct; keys that spell array indices, which JavaScript enumerates
      first, get no special place.
    - [JSON.parse], [JSON.stringify], [encodeURIComponent] and [new URL] are
      services of the JavaScript runtime: they are fields of [Runtime].
    - [GraphClient] is the injected network collaborator: its two methods
      are fields of a record, acting on a client state of their own.  A
      [graphRequest] answers with a response whose blocks carry a [text], or
      throws; a [makeRequest] answers with a JSON value, or throws.
    - [await] is sequencing; the code runs in the monad [M] of state
      (client state, event trace) and exceptions.
    - [logger.warn] and [logger.error] are recorded in the trace;
      [logger.info] lines carry no control flow and are left out.
    - [McpServer] and [new RegExp] are collaborators of the registration: a
      record with the [tool] method, and a function from a pattern to its
      test, either of which may throw. *)

From Stdlib Require Import String Ascii List ZArith Lia Bool DecimalString
  DecimalFacts DecimalPos QArith Qround.
From stdpp Require Import base option gmap strings.
Import ListNotations.

Local Close Scope Q_scope.

Set Warnings "-register-all".

Local Open Scope string_scope.
Local Open Scope list_scope.

(** ** JavaScript values and primitive operations *)

Module JS.

Inductive value : Type :=
| JNull
| JBool (b : bool)
| JNum (n : Z)
| JStr (s : string)
| JArr (items : list value)
| JObj (fields : list (string * value)).

(** Thrown values: an [Error] with its [name] and [message]. *)
Record exn : Type := Exn { exn_name : string; exn_message : string }.

Definition TypeError (msg : string) : exn := Exn "TypeError" msg.

(** [Error.prototype.toString], what a template literal makes of [e]. *)
Definition exn_toString (e : exn) : string :=
  if String.eqb (exn_name e) "" then exn_message e
  else if String.eqb (exn_message e) "" then exn_name e
  else exn_name e +:+ ": " +:+ exn_message e.

(** *** Strings *)

(** The letters among the characters U+0000 to U+00FF: the capitals are A
    to Z (65 to 90) and U+00C0 to U+00DE (192 to 222) without the
    multiplication sign (215); the small letter of each is 32 above it. *)
Definition is_capital (n : nat) : bool :=
  ((65 <=? n) && (n <=? 90) ||
   (192 <=? n) && (n <=? 222) && negb (n =? 215))%nat.

Definition lower_char (c : ascii) : ascii :=
  let n := nat_of_ascii c in
  if is_capital n then ascii_of_nat (n + 32) else c.

Fixpoint map_string (f : ascii -> ascii) (s : string) : string :=
  match s with
  | EmptyString => EmptyString
  | String c s' => String (f c) (map_string f s')
  end.

(** [s.toLowerCase()] *)
Definition toLowerCase (s : string) : string := map_string lower_char s.

(** The capital of a small letter is 32 below it; the sharp s (223) becomes
    two letters.  The micro sign (181) and the y with diaeresis (255) have
    their capitals beyond U+00FF, where these strings do not reach: they
    are left as they are. *)
Definition upper_char (c : ascii) : string :=
  let n := nat_of_ascii c in
  if (n =? 223)%nat then "SS"
  else if is_capital (n - 32)
  then String (ascii_of_nat (n - 32)) EmptyString
  else String c EmptyString.

(** [s.toUpperCase()] *)
Fixpoint toUpperCase (s : string) : string :=
  match s with
  | EmptyString => EmptyString
  | String c s' => upper_char c +:+ toUpperCase s'
  end.

Fixpoint is_prefix (pre s : string) : bool :=
  match pre, s with
  | EmptyString, _ => true
  | String a pre', String b s' => Ascii.eqb a b && is_prefix pre' s'
  | String _ _, EmptyString => false
  end.

Definition startsWith (s pre : string) : bool := is_prefix pre s.

(** [s.includes(t)]: [t] occurs in [s] at some position. *)
Fixpoint includes (s t : string) : bool :=
  is_prefix t s ||
  match s with
  | EmptyString => false
  | String _ s' => includes s' t
  end.

Fixpoint drop_string (n : nat) (s : string) : string :=
  match n, s with
  | O, _ => s
  | S n', String _ s' => drop_string n' s'
  | S _, EmptyString => EmptyString
  end.

(** [s.slice(1)] *)
Definition slice1 (s : string) : string := drop_string 1 s.

Definition endsWith (s suf : string) : bool :=
  (String.length suf <=? String.length s)%nat &&
  String.eqb (drop_string (String.length s - String.length suf) s) suf.

(** [s.replace(pat, rep)] with a string pattern: the first occurrence only.
    The replacement texts of this program are the empty string and outputs
    of [encodeURIComponent], which hold no [$], so the [$]-patterns of
    [String.prototype.replace] play no part. *)
Fixpoint replace (pat rep s : string) : string :=
  if is_prefix pat s then rep +:+ drop_string (String.length pat) s
  else match s with
       | EmptyString => EmptyString
       | String c s' => String c (replace pat rep s')
       end.

(** [s.replace(/suf$/, '')] *)
Fixpoint take_string (n : nat) (s : string) : string :=
  match n, s with
  | S n', String c s' => String c (take_string n' s')
  | _, _ => EmptyString
  end.

Definition strip_suffix (suf s : string) : string :=
  if endsWith s suf then take_string (String.length s - String.length suf) s
  else s.

(** The one-character string holding a double quote. *)
Definition dquote : string := String (ascii_of_nat 34) EmptyString.

Definition string_of_Z (n : Z) : string := NilZero.string_of_int (Z.to_int n).
Definition string_of_nat (n : nat) : string := string_of_Z (Z.of_nat n).

(** *** Coercions *)

Definition truthy (v : value) : bool :=
  match v with
  | JNull => false
  | JBool b => b
  | JNum n => negb (n =? 0)%Z
  | JStr s => negb (String.eqb s "")
  | JArr _ | JObj _ => true
  end.

Definition truthy_opt (o : option value) : bool :=
  match o with Some v => truthy v | None => false end.

(** [a || b] on possibly-undefined operands *)
Definition or_else (o : option value) (d : value) : value :=
  match o with
  | Some v => if truthy v then v else d
  | None => d
  end.

(** [ToString], as a template literal or string concatenation applies it;
    [Array.prototype.join] prints [null] elements as the empty string. *)
Fixpoint ToString (v : value) : string :=
  match v with
  | JNull => "null"
  | JBool true => "true"
  | JBool false => "false"
  | JNum n => string_of_Z n
  | JStr s => s
  | JArr items =>
      String.concat ","
        ((fix each (l : list value) : list string :=
            match l with
            | [] => []
            | JNull :: l' => "" :: each l'
            | x :: l' => ToString x :: each l'
            end) items)
  | JObj _ => "[object Object]"
  end.

Definition ToString_opt (o : option value) : string :=
  match o with Some v => ToString v | None => "undefined" end.

Definition is_true (o : option value) : bool :=
  match o with Some (JBool true) => true | _ => false end.

Definition is_zero (o : option value) : bool :=
  match o with Some (JNum 0%Z) => true | _ => false end.

(** *** Objects as ordered entry lists *)

Section Entries.
Context {A : Type}.

Fixpoint entries_get (k : string) (l : list (string * A)) : option A :=
  match l with
  | [] => None
  | (k', v) :: l' => if String.eqb k k' then Some v else entries_get k l'
  end.

(** [o[k] = v]: an existing key keeps its place, a new one goes last. *)
Fixpoint entries_set (k : string) (v : A) (l : list (string * A))
  : list (string * A) :=
  match l with
  | [] => [(k, v)]
  | (k', v') :: l' =>
      if String.eqb k k' then (k, v) :: l' else (k', v') :: entries_set k v l'
  end.

Definition entries_delete (k : string) (l : list (string * A))
  : list (string * A) :=
  List.filter (fun kv => negb (String.eqb k (fst kv))) l.
End Entries.

(** Canonical array index denoted by a property name, if any. *)
Definition index_of_key (k : string) : option nat :=
  match NilEmpty.uint_of_string k with
  | Some d =>
      let n := Nat.of_uint d in
      if String.eqb (string_of_nat n) k then Some n else None
  | None => None
  end.

Definition char_at (s : string) (i : nat) : option value :=
  match String.get i s with
  | Some c => Some (JStr (String c EmptyString))
  | None => None
  end.

(** [v[k]] for a value that is not nullish.  Arrays and strings answer
    [length] and their indices; members inherited from a prototype are not
    modelled, none of the names this program reads is one. *)
Definition get_prop (v : value) (k : string) : option value :=
  match v with
  | JObj fields => entries_get k fields
  | JArr items =>
      if String.eqb k "length" then Some (JNum (Z.of_nat (length items)))
      else match index_of_key k with
           | Some i => nth_error items i
           | None => None
           end
  | JStr s =>
      if String.eqb k "length" then Some (JNum (Z.of_nat (String.length s)))
      else match index_of_key k with
           | Some i => char_at s i
           | None => None
           end
  | _ => None
  end.

(** [o?.k]: [undefined] when [o] is nullish. *)
Definition get_opt (o : option value) (k : string) : option value :=
  match o with
  | None | Some JNull => None
  | Some v => get_prop v k
  end.

(** *** Numbers outside JSON *)

(** A JavaScript number: [NaN], an infinity, or a finite number given by
    its value.  The value of a double is a rational; the two zeros have the
    same value, and nothing this program does with a number tells them
    apart. *)
Inductive number : Type :=
| NaN
| Finite (q : Q)
| Infinity (negative : bool).

(** [Math.min(a, b)] *)
Definition Math_min (a b : number) : number :=
  match a, b with
  | NaN, _ | _, NaN => NaN
  | Infinity true, _ | _, Infinity true => Infinity true
  | Infinity false, x | x, Infinity false => x
  | Finite p, Finite q => Finite (if Qle_bool p q then p else q)
  end.

(** [n >= m] for a whole number [n], such as the length of an array *)
Definition at_least (n : Z) (m : number) : bool :=
  match m with
  | NaN => false
  | Finite q => Qle_bool q (inject_Z n)
  | Infinity negative => negative
  end.

(** [x || d]: a number is falsy when it is [NaN] or zero. *)
Definition number_or (x d : number) : number :=
  match x with
  | NaN => d
  | Finite q => if Qeq_bool q (inject_Z 0) then d else x
  | Infinity _ => x
  end.

(** The double for a whole number: the nearest number with a significand
    of 53 bits, a tie going to the even significand, and an infinity from
    [2^1024] on. *)
Definition double_of_Z (n : Z) : number :=
  let a := Z.abs n in
  let dropped := (Z.log2 a - 52)%Z in
  let rounded :=
    if (dropped <=? 0)%Z then a
    else
      let significand := Z.shiftr a dropped in
      let rest := Z.land a (Z.ones dropped) in
      let half := Z.shiftl 1 (dropped - 1) in
      Z.shiftl
        (if (half <? rest)%Z || (half =? rest)%Z && Z.odd significand
         then significand + 1 else significand)%Z
        dropped in
  if (Z.shiftl 1 1024 <=? rounded)%Z then Infinity (n <? 0)%Z
  else Finite (inject_Z (Z.sgn n * rounded)).

End JS.

Import JS.

(** ** The runtime, the network collaborator and the effect monad *)

(** A parsed [URL]: the two members the code reads. *)
Record URL : Type := {
  pathname : string;
  searchParams : list (string * string)
}.

(** Services of the JavaScript runtime the code calls.  [JSON_parse] and
    [URL_parse] throw on ill-formed input; [JSON_stringify_pretty] is
    [JSON.stringify(v, null, 2)]; [encodeURIComponent] is total, the lone
    surrogates it rejects do not occur in one-byte strings. *)
Record Runtime : Type := {
  JSON_parse : string -> exn + value;
  JSON_stringify : value -> string;
  JSON_stringify_pretty : value -> string;
  encodeURIComponent : string -> string;
  URL_parse : string -> exn + URL
}.

Record RequestOptions : Type := {
  opt_method : string;
  opt_headers : list (string * string);
  opt_body : option string;
  opt_rawResponse : option bool;
  opt_includeHeaders : option bool;
  opt_excludeResponse : option bool;
  opt_queryParams : option (list (string * string))
}.

(** One block of a [McpResponse]; the code reads its [text]. *)
Record McpContent : Type := { mcp_text : string }.

Record McpResponse : Type := {
  mcp_content : list McpContent;
  mcp_meta : option value;
  mcp_isError : option bool
}.

Inductive ContentItem : Type :=
| TextContent (text : string)
| ImageContent (data mimeType : string)
| AudioContent (data mimeType : string)
| ResourceContent (resource : value).

Record CallToolResult : Type := {
  content : list ContentItem;
  _meta : option value;
  isError : option bool
}.

(** [GraphClient]: both methods may answer or throw, and may depend on
    everything the client has seen so far (its state [St]). *)
Record GraphClient (St : Type) : Type := {
  graphRequest : string -> RequestOptions -> St -> (exn + McpResponse) * St;
  makeRequest :
    string -> option (list (string * string)) -> St -> (exn + value) * St
}.
Arguments graphRequest {St}.
Arguments makeRequest {St}.

Inductive log_level : Type := Warn | Error.

Inductive event : Type :=
| EvGraphRequest (path : string) (options : RequestOptions)
    (answer : exn + McpResponse)
| EvMakeRequest (path : string) (headers : option (list (string * string)))
    (answer : exn + value)
| EvLog (level : log_level) (message : string).

Inductive outcome (A : Type) : Type :=
| Ok (a : A)
| Throw (e : exn)
| OutOfFuel.
Arguments Ok {A}.
Arguments Throw {A}.
Arguments OutOfFuel {A}.

Section Effects.
Context {St : Type}.

Record World : Type := { client_state : St; trace : list event }.

Definition M (A : Type) : Type := World -> outcome A * World.

Definition ret {A} (a : A) : M A := fun w => (Ok a, w).

Definition bind {A B} (c : M A) (k : A -> M B) : M B :=
  fun w =>
    match c w with
    | (Ok a, w') => k a w'
    | (Throw e, w') => (Throw e, w')
    | (OutOfFuel, w') => (OutOfFuel, w')
    end.

Definition throw {A} (e : exn) : M A := fun w => (Throw e, w).

Definition out_of_fuel {A} : M A := fun w => (OutOfFuel, w).

(** [try { body } catch (e) { handler }] *)
Definition try_catch {A} (body : M A) (handler : exn -> M A) : M A :=
  fun w =>
    match body w with
    | (Throw e, w') => handler e w'
    | r => r
    end.

Definition lift {A} (r : exn + A) : M A :=
  match r with
  | inl e => throw e
  | inr a => ret a
  end.

Definition emit (ev : event) : M unit :=
  fun w => (Ok tt, {| client_state := client_state w;
                      trace := trace w ++ [ev] |}).

Definition log (level : log_level) (message : string) : M unit :=
  emit (EvLog level message).

Definition await_graphRequest (client : GraphClient St)
    (path : string) (options : RequestOptions) : M McpResponse :=
  fun w =>
    let (answer, st') := graphRequest client path options (client_state w) in
    let w' := {| client_state := st';
                 trace := trace w ++ [EvGraphRequest path options answer] |} in
    (match answer with inl e => Throw e | inr r => Ok r end, w').

Definition await_makeRequest (client : GraphClient St)
    (path : string) (headers : option (list (string * string))) : M value :=
  fun w =>
    let (answer, st') := makeRequest client path headers (client_state w) in
    let w' := {| client_state := st';
                 trace := trace w ++ [EvMakeRequest path headers answer] |} in
    (match answer with inl e => Throw e | inr v => Ok v end, w').

End Effects.
Arguments World : clear implicits.
Arguments M : clear implicits.

Notation "'let*' x ':=' c 'in' k" := (bind c (fun x => k))
  (at level 10, x pattern, c at level 100, k at level 200).
Notation "c ';;' k" := (bind c (fun _ => k))
  (at level 100, k at level 200, right associativity).

(** ** graph-tools.ts *)

Module GraphTools.

Record EndpointConfig : Type := {
  cfg_pathPattern : string;
  cfg_method : string;
  cfg_toolName : string;
  cfg_scopes : option (list string);
  cfg_workScopes : option (list string);
  cfg_returnDownloadUrl : option bool;
  cfg_supportsTimezone : option bool;
  cfg_llmTip : option string;
  cfg_acceptHeader : option string
}.

Inductive ParamType : Type := Path | Query | Body | Header.

(** A parameter definition of the generated client; [def_schema] is the
    verdict of the zod schema's [safeParse(v).success]. *)
Record ParameterDefinition : Type := {
  def_name : string;
  def_type : ParamType;
  def_schema : option (value -> bool)
}.

Record EndpointError : Type := { err_description : option string }.

(** An element of [api.endpoints]. *)
Record Endpoint : Type := {
  tool_alias : string;
  tool_method : string;
  tool_path : string;
  tool_description : option string;
  tool_parameters : option (list ParameterDefinition);
  tool_errors : option (list EndpointError)
}.

Definition string_in (s : string) (l : list string) : bool :=
  existsb (String.eqb s) l.

(** *** Parameter binding: the [for] loop over [Object.entries(params)] *)

Definition controlParams : list string :=
  ["fetchAllPages"; "includeHeaders"; "excludeResponse"; "timezone"].

Definition odataParams : list string :=
  ["filter"; "select"; "expand"; "orderby"; "skip"; "top"; "count";
   "search"; "format"].

Definition normalizedParamName (paramName : string) : string :=
  if startsWith paramName "$" then slice1 paramName else paramName.

Definition isOdataParam (paramName : string) : bool :=
  string_in (toLowerCase (normalizedParamName paramName)) odataParams.

Definition fixedParamName (paramName : string) : string :=
  if isOdataParam paramName
  then "$" +:+ toLowerCase (normalizedParamName paramName)
  else paramName.

Definition find_paramDef (parameterDefinitions : list ParameterDefinition)
    (paramName : string) : option ParameterDefinition :=
  find (fun p =>
          String.eqb (def_name p) paramName ||
          (isOdataParam paramName &&
           String.eqb (def_name p) (normalizedParamName paramName)))
       parameterDefinitions.

(** The four variables the loop assigns. *)
Record Binding : Type := {
  b_path : string;
  b_queryParams : list (string * string);
  b_headers : list (string * string);
  b_body : value
}.

(** [{ [paramName]: paramValue }] *)
Definition wrapped (paramName : string) (paramValue : value) : value :=
  JObj [(paramName, paramValue)].

Section Binder.
Variable rt : Runtime.

Definition bind_body (paramDef : ParameterDefinition)
    (paramName : string) (paramValue : value) : value :=
  match def_schema paramDef with
  | Some schema =>
      if negb (schema paramValue) then
        if schema (wrapped paramName paramValue)
        then wrapped paramName paramValue
        else paramValue
      else paramValue
  | None => paramValue
  end.

(** One iteration of the loop. *)
Definition bind_param (parameterDefinitions : list ParameterDefinition)
    (b : Binding) (entry : string * value) : Binding :=
  let (paramName, paramValue) := entry in
  if string_in paramName controlParams then b
  else
    match find_paramDef parameterDefinitions paramName with
    | Some paramDef =>
        match def_type paramDef with
        | Path =>
            let enc := encodeURIComponent rt (ToString paramValue) in
            {| b_path :=
                 replace (":" +:+ paramName) enc
                   (replace ("{" +:+ paramName +:+ "}") enc (b_path b));
               b_queryParams := b_queryParams b;
               b_headers := b_headers b;
               b_body := b_body b |}
        | Query =>
            {| b_path := b_path b;
               b_queryParams :=
                 entries_set (fixedParamName paramName) (ToString paramValue)
                   (b_queryParams b);
               b_headers := b_headers b;
               b_body := b_body b |}
        | Body =>
            {| b_path := b_path b;
               b_queryParams := b_queryParams b;
               b_headers := b_headers b;
               b_body := bind_body paramDef paramName paramValue |}
        | Header =>
            {| b_path := b_path b;
               b_queryParams := b_queryParams b;
               b_headers :=
                 entries_set (fixedParamName paramName) (ToString paramValue)
                   (b_headers b);
               b_body := b_body b |}
        end
    | None =>
        if String.eqb paramName "body"
        then {| b_path := b_path b;
                b_queryParams := b_queryParams b;
                b_headers := b_headers b;
                b_body := paramValue |}
        else b
    end.

Definition parameterDefinitions_of (tool : Endpoint)
  : list ParameterDefinition :=
  match tool_parameters tool with Some l => l | None => [] end.

Definition bind_params (tool : Endpoint) (params : list (string * value))
  : Binding :=
  fold_left (bind_param (parameterDefinitions_of tool)) params
    {| b_path := tool_path tool;
       b_queryParams := [];
       b_headers := [];
       b_body := JNull |}.

(** *** From the binding to the first request *)

Definition config_flag (config : option EndpointConfig)
    (flag : EndpointConfig -> option bool) : bool :=
  match config with
  | Some c => match flag c with Some b => b | None => false end
  | None => false
  end.

Definition timezone_headers (config : option EndpointConfig)
    (params : list (string * value)) (headers : list (string * string))
  : list (string * string) :=
  if config_flag config cfg_supportsTimezone &&
     truthy_opt (entries_get "timezone" params)
  then entries_set "Prefer"
         ("outlook.timezone=" +:+ dquote +:+
          ToString_opt (entries_get "timezone" params) +:+ dquote)
         headers
  else headers.

Definition accept_headers (config : option EndpointConfig)
    (headers : list (string * string)) : list (string * string) :=
  match config with
  | Some c =>
      match cfg_acceptHeader c with
      | Some a => if String.eqb a "" then headers
                  else entries_set "Accept" a headers
      | None => headers
      end
  | None => headers
  end.

Definition queryString (queryParams : list (string * string)) : string :=
  String.concat "&"
    (map (fun kv => encodeURIComponent rt (fst kv) +:+ "=" +:+
                    encodeURIComponent rt (snd kv))
         queryParams).

Definition path_with_query (path : string)
    (queryParams : list (string * string)) : string :=
  match queryParams with
  | [] => path
  | _ => path +:+ (if includes path "?" then "&" else "?") +:+
         queryString queryParams
  end.

Definition request_body (method : string) (body : value) : option string :=
  if negb (String.eqb method "GET") && truthy body
  then Some (match body with
             | JStr s => s
             | _ => JSON_stringify rt body
             end)
  else None.

Definition isProbablyMediaContent (tool : Endpoint) (path : string) : bool :=
  match tool_errors tool with
  | Some errs =>
      existsb (fun e => match err_description e with
                        | Some d => String.eqb d "Retrieved media content"
                        | None => false
                        end) errs
  | None => false
  end || endsWith path "/content".

Definition flag_option (b : bool) : option bool :=
  if b then Some true else None.

(** The path and the options of the first [graphRequest]. *)
Definition build_request (tool : Endpoint) (config : option EndpointConfig)
    (params : list (string * value)) : string * RequestOptions :=
  let b := bind_params tool params in
  let headers := accept_headers config
                   (timezone_headers config params (b_headers b)) in
  let path := path_with_query (b_path b) (b_queryParams b) in
  let method := toUpperCase (tool_method tool) in
  let media := isProbablyMediaContent tool path in
  let download :=
    config_flag config cfg_returnDownloadUrl && endsWith path "/content" in
  (if download then strip_suffix "/content" path else path,
   {| opt_method := method;
      opt_headers := headers;
      opt_body := request_body method (b_body b);
      opt_rawResponse := flag_option (negb download && media);
      opt_includeHeaders :=
        flag_option (is_true (entries_get "includeHeaders" params));
      opt_excludeResponse :=
        flag_option (is_true (entries_get "excludeResponse" params));
      opt_queryParams := None |}).

End Binder.

(** *** Pagination: the [fetchAllPages] block *)

Definition first_text (response : McpResponse) : option string :=
  match mcp_content response with
  | item :: _ => Some (mcp_text item)
  | [] => None
  end.

(** [response?.content?.[0]?.text] is truthy *)
Definition has_text (response : McpResponse) : bool :=
  match first_text response with
  | Some t => negb (String.eqb t "")
  | None => false
  end.

(** [response.content[0].text = t] *)
Definition set_first_text (response : McpResponse) (t : string)
  : McpResponse :=
  match mcp_content response with
  | _ :: rest =>
      {| mcp_content := {| mcp_text := t |} :: rest;
         mcp_meta := mcp_meta response;
         mcp_isError := mcp_isError response |}
  | [] => response
  end.

(** [v.k] and [v[k]]: reading a property of [null] throws. *)
Definition read_prop (v : value) (k : string) : exn + option value :=
  match v with
  | JNull =>
      inl (TypeError ("Cannot read properties of null (reading '" +:+ k +:+
                      "')"))
  | _ => inr (get_prop v k)
  end.

(** [v[k] = x] in strict mode, as [JSON.stringify] will see it afterwards:
    a property set to [undefined] is not printed, a named property of an
    array is not printed, and a primitive refuses the assignment. *)
Definition write_prop (v : value) (k : string) (x : option value)
  : exn + value :=
  match v with
  | JObj fields =>
      inr (JObj (match x with
                 | Some x' => entries_set k x' fields
                 | None => entries_delete k fields
                 end))
  | JArr _ => inr v
  | _ => inl (TypeError ("Cannot create property '" +:+ k +:+ "'"))
  end.

(** [delete v[k]] *)
Definition delete_prop (v : value) (k : string) : value :=
  match v with
  | JObj fields => JObj (entries_delete k fields)
  | _ => v
  end.

(** [allItems.concat(more)] for an array [more]: arrays append, a string
    appends the text of [more], anything else has no [concat]. *)
Definition concat_items (allItems : value) (more : list value)
  : exn + value :=
  match allItems with
  | JArr l => inr (JArr (l ++ more))
  | JStr s => inr (JStr (s +:+ ToString (JArr more)))
  | _ => inl (TypeError "allItems.concat is not a function")
  end.

Definition nextQueryParams (url : URL) : list (string * string) :=
  fold_left (fun acc kv => entries_set (fst kv) (snd kv) acc)
    (searchParams url) [].

(** [{ ...options, queryParams: nextQueryParams }] *)
Definition nextOptions (options : RequestOptions) (url : URL)
  : RequestOptions :=
  {| opt_method := opt_method options;
     opt_headers := opt_headers options;
     opt_body := opt_body options;
     opt_rawResponse := opt_rawResponse options;
     opt_includeHeaders := opt_includeHeaders options;
     opt_excludeResponse := opt_excludeResponse options;
     opt_queryParams := Some (nextQueryParams url) |}.

Definition nextPath (url : URL) : string := replace "/v1.0" "" (pathname url).

(** The variables of the [while] loop. *)
Record PageState : Type := {
  allItems : value;
  nextLink : option value;
  pageCount : nat
}.

Definition toResult (response : McpResponse) : CallToolResult :=
  {| content := map (fun item => TextContent (mcp_text item))
                  (mcp_content response);
     _meta := mcp_meta response;
     isError := mcp_isError response |}.

Definition maxPageWarning : string :=
  "Reached maximum page limit (100) for pagination".

Section Executor.
Variable rt : Runtime.
Context {St : Type}.
Variable client : GraphClient St.

(** [while (nextLink && pageCount < 100) { ... }].  [fuel] bounds the
    number of iterations the model unfolds; [pagination_loop_run] shows
    that 100 is always enough. *)
Fixpoint pagination_loop (fuel : nat) (options : RequestOptions)
    (st : PageState) : M St PageState :=
  if truthy_opt (nextLink st) && (pageCount st <? 100)%nat then
    match fuel with
    | O => out_of_fuel
    | S fuel' =>
        let* url := lift (URL_parse rt (ToString_opt (nextLink st))) in
        let* nextResponse :=
          await_graphRequest client (nextPath url) (nextOptions options url) in
        match first_text nextResponse with
        | Some text =>
            if String.eqb text "" then ret st
            else
              let* nextJsonResponse := lift (JSON_parse rt text) in
              let* v := lift (read_prop nextJsonResponse "value") in
              let* items :=
                match v with
                | Some (JArr more) => lift (concat_items (allItems st) more)
                | _ => ret (allItems st)
                end in
              let* link := lift (read_prop nextJsonResponse "@odata.nextLink") in
              pagination_loop fuel' options
                {| allItems := items;
                   nextLink := link;
                   pageCount := S (pageCount st) |}
        | None => ret st
        end
    end
  else ret st.

(** After the loop: the warning at the cap, then the first page rewritten
    with the accumulated items and stored back into the response. *)
Definition finishPagination (response : McpResponse)
    (combinedResponse : value) (st : PageState) : M St McpResponse :=
  (if (100 <=? pageCount st)%nat then log Warn maxPageWarning else ret tt);;
  let* combined := lift (write_prop combinedResponse "value"
                           (Some (allItems st))) in
  let* count := lift (read_prop combined "@odata.count") in
  let* combined :=
    if truthy_opt count
    then lift (write_prop combined "@odata.count"
                 (get_prop (allItems st) "length"))
    else ret combined in
  ret (set_first_text response
         (JSON_stringify rt (delete_prop combined "@odata.nextLink"))).

(** The body of the inner [try]: from the text of the first page to the
    rewritten response. *)
Definition aggregate (options : RequestOptions) (response : McpResponse)
    (text : string) : M St McpResponse :=
  let* combinedResponse := lift (JSON_parse rt text) in
  let* v := lift (read_prop combinedResponse "value") in
  let* link := lift (read_prop combinedResponse "@odata.nextLink") in
  let* st := pagination_loop 100 options
               {| allItems := or_else v (JArr []);
                  nextLink := link;
                  pageCount := 1 |} in
  finishPagination response combinedResponse st.

Definition paginationError (e : exn) : string :=
  "Error during pagination: " +:+ exn_toString e.

Definition paginate (options : RequestOptions) (response : McpResponse)
  : M St McpResponse :=
  match first_text response with
  | Some text =>
      try_catch (aggregate options response text)
        (fun e => log Error (paginationError e);; ret response)
  | None => ret response
  end.

Definition toolError (tool : Endpoint) (error : exn) : string :=
  "Error in tool " +:+ tool_alias tool +:+ ": " +:+ exn_message error.

(** What the outer [catch] returns. *)
Definition errorResult (tool : Endpoint) (error : exn) : CallToolResult :=
  {| content :=
       [TextContent
          (JSON_stringify rt
             (JObj [("error", JStr (toolError tool error))]))];
     _meta := None;
     isError := Some true |}.

Definition executeGraphTool (tool : Endpoint)
    (config : option EndpointConfig) (params : list (string * value))
  : M St CallToolResult :=
  try_catch
    (let (path, options) := build_request rt tool config params in
     let* response := await_graphRequest client path options in
     let* response :=
       if is_true (entries_get "fetchAllPages" params) && has_text response
       then paginate options response
       else ret response in
     ret (toResult response))
    (fun error =>
       log Error (toolError tool error);;
       ret (errorResult tool error)).

(** *** Discovery mode: the registry and the [execute-tool] handler *)

Definition toolNotFound (tool_name : string) : CallToolResult :=
  {| content :=
       [TextContent
          (JSON_stringify rt
             (JObj [("error", JStr ("Tool not found: " +:+ tool_name));
                    ("tip", JStr "Use search-tools to find available tools.")]))];
     _meta := None;
     isError := Some true |}.

(** [parameters] is [None] when the caller left it out ([= {}]). *)
Definition execute_tool
    (toolsRegistry : gmap string (Endpoint * option EndpointConfig))
    (tool_name : string) (parameters : option (list (string * value)))
  : M St CallToolResult :=
  match toolsRegistry !! tool_name with
  | None => ret (toolNotFound tool_name)
  | Some (tool, config) =>
      executeGraphTool tool config
        (match parameters with Some p => p | None => [] end)
  end.

End Executor.

Definition find_endpointConfig (endpointsData : list EndpointConfig)
    (tool : Endpoint) : option EndpointConfig :=
  find (fun e => String.eqb (cfg_toolName e) (tool_alias tool)) endpointsData.

(** [endpointConfig && !endpointConfig.scopes && endpointConfig.workScopes] *)
Definition workAccountOnly (endpointConfig : option EndpointConfig) : bool :=
  match endpointConfig with
  | Some c =>
      match cfg_scopes c, cfg_workScopes c with
      | None, Some _ => true
      | _, _ => false
      end
  | None => false
  end.

(** [api_endpoints] and [endpointsData] are the generated client's endpoint
    list and the contents of [endpoints.json]. *)
Definition buildToolsRegistry (api_endpoints : list Endpoint)
    (endpointsData : list EndpointConfig) (readOnly orgMode : bool)
  : gmap string (Endpoint * option EndpointConfig) :=
  fold_left
    (fun toolsMap tool =>
       let endpointConfig := find_endpointConfig endpointsData tool in
       if negb orgMode && workAccountOnly endpointConfig then toolsMap
       else if readOnly &&
               negb (String.eqb (toUpperCase (tool_method tool)) "GET")
       then toolsMap
       else <[tool_alias tool := (tool, endpointConfig)]> toolsMap)
    api_endpoints ∅.

End GraphTools.

(** ** composite-tools.ts *)

Module CompositeTools.

Record GetTranscriptParams : Type := {
  date : string;
  subjectContains : string;
  startTime : option string;
  endTime : option string;
  timezone : option string
}.

Definition newline : string := String (ascii_of_nat 10) EmptyString.

(** [s ? a : b] for an optional string [s] *)
Definition given (s : option string) : option string :=
  match s with
  | Some t => if String.eqb t "" then None else Some t
  | None => None
  end.

Definition failure (text : string) : CallToolResult :=
  {| content := [TextContent text]; _meta := None; isError := Some true |}.

(** An object literal as [JSON.stringify] prints it: members whose value is
    [undefined] are left out. *)
Definition object_literal (members : list (string * option value)) : value :=
  JObj (omap (fun m => match snd m with
                       | Some v => Some (fst m, v)
                       | None => None
                       end) members).

Definition read_prop := GraphTools.read_prop.

(** The predicate of [events.find]:
    [event.subject?.toLowerCase().includes(subjectContains.toLowerCase())
     && event.isOnlineMeeting === true]. *)
Definition subject_matches (subjectContains : string) (event : value)
  : exn + bool :=
  match read_prop event "subject" with
  | inl e => inl e
  | inr None | inr (Some JNull) => inr false
  | inr (Some (JStr subject)) =>
      inr (includes (toLowerCase subject) (toLowerCase subjectContains) &&
           is_true (get_prop event "isOnlineMeeting"))
  | inr (Some _) =>
      inl (TypeError "event.subject?.toLowerCase is not a function")
  end.

(** [Array.prototype.find] with a predicate that may throw. *)
Fixpoint find_event (subjectContains : string) (events : list value)
  : exn + option value :=
  match events with
  | [] => inr None
  | event :: rest =>
      match subject_matches subjectContains event with
      | inl e => inl e
      | inr true => inr (Some event)
      | inr false => find_event subjectContains rest
      end
  end.

(** [events.filter((e) => e.isOnlineMeeting)] *)
Fixpoint online_meetings (events : list value) : exn + list value :=
  match events with
  | [] => inr []
  | e :: rest =>
      match read_prop e "isOnlineMeeting" with
      | inl err => inl err
      | inr flag =>
          match online_meetings rest with
          | inl err => inl err
          | inr l => inr (if truthy_opt flag then e :: l else l)
          end
      end
  end.

(** [`- ${e.subject} (${e.start?.dateTime})`] *)
Definition meeting_line (e : value) : string :=
  "- " +:+ ToString_opt (get_prop e "subject") +:+ " (" +:+
  ToString_opt (get_opt (get_prop e "start") "dateTime") +:+ ")".

Definition noMatchHeader (subjectContains date : string) : string :=
  "No online meeting found matching " +:+ dquote +:+ subjectContains +:+
  dquote +:+ "." +:+ newline +:+ newline +:+
  "Available online meetings on " +:+ date +:+ ":" +:+ newline.

Definition noMatchText (subjectContains date : string)
    (meetings : list value) : string :=
  let availableMeetings := String.concat newline (map meeting_line meetings) in
  noMatchHeader subjectContains date +:+
  (if String.eqb availableMeetings "" then "(none)" else availableMeetings).

Definition calendarPath (rt : Runtime) (params : GetTranscriptParams)
  : string :=
  let startDateTime :=
    match given (startTime params) with
    | Some t => date params +:+ "T" +:+ t +:+ ":00"
    | None => date params +:+ "T00:00:00"
    end in
  let endDateTime :=
    match given (endTime params) with
    | Some t => date params +:+ "T" +:+ t +:+ ":00"
    | None => date params +:+ "T23:59:59"
    end in
  "/me/calendarView?startDateTime=" +:+ encodeURIComponent rt startDateTime
  +:+ "&endDateTime=" +:+ encodeURIComponent rt endDateTime.

Definition calendarOptions (params : GetTranscriptParams)
  : option (list (string * string)) :=
  Some [("Prefer",
         "outlook.timezone=" +:+ dquote +:+
         match timezone params with Some tz => tz | None => "UTC" end +:+
         dquote)].

Section Workflow.
Variable rt : Runtime.
Context {St : Type}.
Variable client : GraphClient St.

(** [try { x = await makeRequest(..) } catch (error) { return failure }]:
    the answer, or the message of what was thrown. *)
Definition attempt (path : string) (headers : option (list (string * string)))
  : M St (string + value) :=
  try_catch
    (let* v := await_makeRequest client path headers in ret (inr v))
    (fun error => ret (inl (exn_message error))).

Definition quoted_subject (matchingEvent : value) : string :=
  dquote +:+ ToString_opt (get_prop matchingEvent "subject") +:+ dquote.

(** Steps 4 to 7, once a meeting has matched. *)
Definition fetchTranscript (matchingEvent : value) : M St CallToolResult :=
  let eventPath :=
    "/me/events/" +:+ ToString_opt (get_prop matchingEvent "id") +:+
    "?$select=subject,onlineMeeting,onlineMeetingUrl,isOnlineMeeting" in
  let* r := attempt eventPath None in
  match r with
  | inl msg => ret (failure ("Failed to get event details: " +:+ msg))
  | inr eventData =>
  let* om := lift (read_prop eventData "onlineMeeting") in
  let joinUrl := get_opt om "joinUrl" in
  if negb (truthy_opt joinUrl)
  then ret (failure ("Meeting " +:+ quoted_subject matchingEvent +:+
                     " does not have a Teams join URL"))
  else
  let meetingsPath :=
    "/me/onlineMeetings?$filter=JoinWebUrl eq '" +:+
    encodeURIComponent rt (ToString_opt joinUrl) +:+ "'" in
  let* r := attempt meetingsPath None in
  match r with
  | inl msg => ret (failure ("Failed to resolve meeting ID: " +:+ msg))
  | inr meetingsData =>
  let* mv := lift (read_prop meetingsData "value") in
  match get_opt mv "0" with
  | None =>
      ret (failure ("Could not resolve online meeting for " +:+
                    quoted_subject matchingEvent))
  | Some onlineMeeting =>
  if negb (truthy onlineMeeting)
  then ret (failure ("Could not resolve online meeting for " +:+
                     quoted_subject matchingEvent))
  else
  let meetingId := ToString_opt (get_prop onlineMeeting "id") in
  let transcriptsPath :=
    "/me/onlineMeetings/" +:+ meetingId +:+ "/transcripts" in
  let* r := attempt transcriptsPath None in
  match r with
  | inl msg => ret (failure ("Failed to list transcripts: " +:+ msg))
  | inr transcriptsData =>
  let* tv := lift (read_prop transcriptsData "value") in
  let transcripts := or_else tv (JArr []) in
  if is_zero (get_prop transcripts "length")
  then ret (failure ("No transcripts found for meeting " +:+
                     quoted_subject matchingEvent +:+ "." +:+ newline +:+
                     newline +:+
                     "Note: Transcription must be enabled during the meeting to generate transcripts."))
  else
  match get_prop transcripts "0" with
  | None =>
      throw (TypeError "Cannot read properties of undefined (reading 'id')")
  | Some transcript =>
  let* transcriptId := lift (read_prop transcript "id") in
  let contentPath :=
    "/me/onlineMeetings/" +:+ meetingId +:+ "/transcripts/" +:+
    ToString_opt transcriptId +:+ "/content" in
  let* r := attempt contentPath (Some [("Accept", "text/vtt")]) in
  match r with
  | inl msg => ret (failure ("Failed to fetch transcript content: " +:+ msg))
  | inr contentData =>
  let* raw := lift (read_prop contentData "rawResponse") in
  let vttContent :=
    or_else raw (or_else (get_prop contentData "message") (JStr "No content")) in
  let organizer :=
    or_else
      (get_opt (get_opt (get_prop onlineMeeting "participants") "organizer")
         "upn")
      (JStr "unknown") in
  let result :=
    object_literal
      [("meeting",
        Some (object_literal
                [("subject", get_prop matchingEvent "subject");
                 ("start", get_prop matchingEvent "start");
                 ("end", get_prop matchingEvent "end");
                 ("organizer", Some organizer)]));
       ("transcript",
        Some (object_literal
                [("id", transcriptId);
                 ("createdDateTime", get_prop transcript "createdDateTime");
                 ("endDateTime", get_prop transcript "endDateTime")]));
       ("content", Some vttContent)] in
  ret {| content := [TextContent (JSON_stringify_pretty rt result)];
         _meta := None;
         isError := None |}
  end end end end end end.

Definition getTranscriptByMeeting (params : GetTranscriptParams)
  : M St CallToolResult :=
  try_catch
    (let* r := attempt (calendarPath rt params) (calendarOptions params) in
     match r with
     | inl msg => ret (failure ("Failed to query calendar: " +:+ msg))
     | inr calendarData =>
     let* cv := lift (read_prop calendarData "value") in
     let events := or_else cv (JArr []) in
     if is_zero (get_prop events "length")
     then ret (failure ("No meetings found on " +:+ date params))
     else
     match events with
     | JArr evs =>
         let* matchingEvent := lift (find_event (subjectContains params) evs) in
         match matchingEvent with
         | Some ev =>
             if truthy ev then fetchTranscript ev
             else
               let* meetings := lift (online_meetings evs) in
               ret (failure (noMatchText (subjectContains params)
                               (date params) meetings))
         | None =>
             let* meetings := lift (online_meetings evs) in
             ret (failure (noMatchText (subjectContains params)
                             (date params) meetings))
         end
     | _ => throw (TypeError "events.find is not a function")
     end
     end)
    (fun error =>
       log Error ("get-transcript-by-meeting error: " +:+ exn_message error);;
       ret (failure ("Error retrieving transcript: " +:+ exn_message error))).

End Workflow.

End CompositeTools.

(** ** Reading a run off its trace *)

Module Run.
Import GraphTools.

Definition is_request (ev : event) : bool :=
  match ev with
  | EvGraphRequest _ _ _ => true
  | _ => false
  end.

Definition is_error_log (ev : event) : bool :=
  match ev with
  | EvLog Error _ => true
  | _ => false
  end.

(** The [graphRequest] calls of a trace, in order. *)
Definition graph_requests (evs : list event) : list event :=
  List.filter is_request evs.

(** The page a call brought back: its non-empty first text, parsed. *)
Definition page_of (rt : Runtime) (ev : event) : option value :=
  match ev with
  | EvGraphRequest _ _ (inr response) =>
      match first_text response with
      | Some text =>
          if String.eqb text "" then None
          else match JSON_parse rt text with
               | inr page => Some page
               | inl _ => None
               end
      | None => None
      end
  | _ => None
  end.

Definition pages_of (rt : Runtime) (evs : list event) : list value :=
  omap (page_of rt) evs.

(** The item array of a page: its [value] when that is an array. *)
Definition page_items (page : value) : list value :=
  match get_prop page "value" with
  | Some (JArr items) => items
  | _ => []
  end.

Definition all_items (first : value) (pages : list value) : list value :=
  page_items first ++ concat (map page_items pages).

(** A chain of follow-up calls: each goes to the URL of the cursor in hand,
    and the next cursor is the one carried by the page it brought back. *)
Inductive cursor_chain (rt : Runtime) (options : RequestOptions)
  : option value -> list event -> Prop :=
| chain_end (link : option value) : cursor_chain rt options link []
| chain_last (link : option value) (url : URL) (answer : exn + McpResponse) :
    truthy_opt link = true ->
    URL_parse rt (ToString_opt link) = inr url ->
    cursor_chain rt options link
      [EvGraphRequest (nextPath url) (nextOptions options url) answer]
| chain_next (link : option value) (url : URL) (response : McpResponse)
    (text : string) (page : value) (rest : list event) :
    truthy_opt link = true ->
    URL_parse rt (ToString_opt link) = inr url ->
    first_text response = Some text ->
    JSON_parse rt text = inr page ->
    cursor_chain rt options (get_prop page "@odata.nextLink") rest ->
    cursor_chain rt options link
      (EvGraphRequest (nextPath url) (nextOptions options url) (inr response)
       :: rest).

Definition is_text (item : ContentItem) : bool :=
  match item with
  | TextContent _ => true
  | _ => false
  end.

(** What the end of the loop logs. *)
Definition cap_log (st : PageState) : list event :=
  if (100 <=? pageCount st)%nat then [EvLog Warn maxPageWarning] else [].

(** A call that failed: the request threw, or its text is not JSON. *)
Definition failed (rt : Runtime) (ev : event) : bool :=
  match ev with
  | EvGraphRequest _ _ (inl _) => true
  | EvGraphRequest _ _ (inr response) =>
      match first_text response with
      | Some text =>
          if String.eqb text "" then false
          else match JSON_parse rt text with
               | inl _ => true
               | inr _ => false
               end
      | None => false
      end
  | _ => false
  end.

(** The cursor carried by a page given as text. *)
Definition cursor_of_text (rt : Runtime) (text : string) : option value :=
  match JSON_parse rt text with
  | inr first => get_prop first "@odata.nextLink"
  | inl _ => None
  end.

(** The cursor carried by the answer to the first request. *)
Definition answer_cursor (rt : Runtime) (answer : exn + McpResponse)
  : option value :=
  match answer with
  | inr response =>
      match first_text response with
      | Some text =>
          if String.eqb text "" then None else cursor_of_text rt text
      | None => None
      end
  | inl _ => None
  end.


(** What a run of the loop from [st] in [w] leaves behind. *)
Definition loop_post {St : Type} (rt : Runtime) (options : RequestOptions)
    (st : PageState) (w : World St)
    (res : outcome PageState * World St) : Prop :=
  exists follow,
    trace (snd res) = trace w ++ follow /\
    fst res <> OutOfFuel /\
    Forall (fun ev => is_request ev = true) follow /\
    (length follow <= 100 - pageCount st)%nat /\
    cursor_chain rt options (nextLink st) follow /\
    (forall s', fst res = Ok s' ->
       (pageCount st <= pageCount s')%nat /\
       (pageCount s' <= pageCount st + length follow)%nat /\
       pageCount s' = (pageCount st + length (pages_of rt follow))%nat /\
       Forall (fun ev => failed rt ev = false) follow).

(** The aggregate in the words of the specification: the first page with
    its item array replaced by all the items, its count field, when it has
    one, set to their number, and its cursor removed. *)
Definition aggregate_spec (first : value) (pages : list value) : value :=
  match first with
  | JObj fields =>
      let items := all_items first pages in
      let with_items := entries_set "value" (JArr items) fields in
      let with_count :=
        match entries_get "@odata.count" with_items with
        | Some _ =>
            entries_set "@odata.count" (JNum (Z.of_nat (length items)))
              with_items
        | None => with_items
        end in
      JObj (entries_delete "@odata.nextLink" with_count)
  | _ => first
  end.

(** The aggregate as the code builds it: the count field is rewritten when
    its value is truthy. *)
Definition aggregate_code (first : value) (pages : list value) : value :=
  match first with
  | JObj fields =>
      let items := all_items first pages in
      let with_items := entries_set "value" (JArr items) fields in
      let with_count :=
        if truthy_opt (entries_get "@odata.count" with_items)
        then entries_set "@odata.count" (JNum (Z.of_nat (length items)))
               with_items
        else with_items in
      JObj (entries_delete "@odata.nextLink" with_count)
  | _ => first
  end.


End Run.

(** ** A concrete runtime and scripted clients for the examples *)

Module Fixtures.
Import GraphTools.

Definition backslash : string := String (ascii_of_nat 92) EmptyString.

Definition hex_digit (upper : bool) (n : nat) : string :=
  String (nth n (list_ascii_of_string
                   (if upper then "0123456789ABCDEF" else "0123456789abcdef"))
              "0"%char) EmptyString.

(** [JSON.stringify] on a string: quotes, backslashes and control
    characters are escaped. *)
Definition escape_char (c : ascii) : string :=
  let n := nat_of_ascii c in
  if (n =? 34)%nat then backslash +:+ dquote
  else if (n =? 92)%nat then backslash +:+ backslash
  else if (n =? 8)%nat then backslash +:+ "b"
  else if (n =? 9)%nat then backslash +:+ "t"
  else if (n =? 10)%nat then backslash +:+ "n"
  else if (n =? 12)%nat then backslash +:+ "f"
  else if (n =? 13)%nat then backslash +:+ "r"
  else if (n <? 32)%nat
       then backslash +:+ "u00" +:+ hex_digit false (n / 16) +:+
            hex_digit false (n mod 16)
  else String c EmptyString.

Fixpoint escape (s : string) : string :=
  match s with
  | EmptyString => EmptyString
  | String c s' => escape_char c +:+ escape s'
  end.

Definition quote (s : string) : string := dquote +:+ escape s +:+ dquote.

(** [JSON.stringify(v)] *)
Fixpoint stringify (v : value) : string :=
  match v with
  | JNull => "null"
  | JBool true => "true"
  | JBool false => "false"
  | JNum n => string_of_Z n
  | JStr s => quote s
  | JArr items =>
      "[" +:+
      String.concat ","
        ((fix each (l : list value) : list string :=
            match l with
            | [] => []
            | x :: l' => stringify x :: each l'
            end) items) +:+ "]"
  | JObj fields =>
      "{" +:+
      String.concat ","
        ((fix each (l : list (string * value)) : list string :=
            match l with
            | [] => []
            | (k, x) :: l' => (quote k +:+ ":" +:+ stringify x) :: each l'
            end) fields) +:+ "}"
  end.

(** A reader for the documents of an example: it recognises the texts that
    [stringify] writes for them and rejects every other text. *)
Definition parse_among (docs : list value) (text : string) : exn + value :=
  match find (fun d => String.eqb (stringify d) text) docs with
  | Some d => inr d
  | None => inl (Exn "SyntaxError" "Unexpected token in JSON")
  end.

Definition unreserved (c : ascii) : bool :=
  let n := nat_of_ascii c in
  ((65 <=? n) && (n <=? 90) || (97 <=? n) && (n <=? 122) ||
   (48 <=? n) && (n <=? 57))%nat ||
  string_in (String c EmptyString) ["-"; "_"; "."; "!"; "~"; "*"; "'"; "("; ")"].

Definition percent (n : nat) : string :=
  "%" +:+ hex_digit true (n / 16) +:+ hex_digit true (n mod 16).

(** [encodeURIComponent] on the characters U+0000 to U+00FF: those from
    U+0080 on are written in the two bytes of their UTF-8 form. *)
Fixpoint percent_encode (s : string) : string :=
  match s with
  | EmptyString => EmptyString
  | String c s' =>
      let n := nat_of_ascii c in
      (if unreserved c then String c EmptyString
       else if (n <? 128)%nat then percent n
       else percent (192 + n / 64) +:+ percent (128 + n mod 64)) +:+
      percent_encode s'
  end.

(** A reader for the URLs of an example. *)
Definition url_among (urls : list (string * URL)) (s : string) : exn + URL :=
  match entries_get s urls with
  | Some u => inr u
  | None => inl (TypeError "Invalid URL")
  end.

Definition runtime (docs : list value) (urls : list (string * URL))
  : Runtime :=
  {| JSON_parse := parse_among docs;
     JSON_stringify := stringify;
     JSON_stringify_pretty := stringify;
     encodeURIComponent := percent_encode;
     URL_parse := url_among urls |}.

(** A client that plays back prepared answers, one per call. *)
Record Script : Type := {
  graph_answers : list (exn + McpResponse);
  make_answers : list (exn + value)
}.

Definition exhausted : exn := Exn "Error" "no answer prepared".

Definition scripted : GraphClient Script :=
  {| graphRequest := fun _ _ s =>
       match graph_answers s with
       | a :: rest => (a, {| graph_answers := rest;
                             make_answers := make_answers s |})
       | [] => (inl exhausted, s)
       end;
     makeRequest := fun _ _ s =>
       match make_answers s with
       | a :: rest => (a, {| graph_answers := graph_answers s;
                             make_answers := rest |})
       | [] => (inl exhausted, s)
       end |}.

Definition start (graph : list (exn + McpResponse)) (make : list (exn + value))
  : World Script :=
  {| client_state := {| graph_answers := graph; make_answers := make |};
     trace := [] |}.

(** A response whose single block holds the text of a document. *)
Definition page_response (doc : value) : McpResponse :=
  {| mcp_content := [{| mcp_text := stringify doc |}];
     mcp_meta := None;
     mcp_isError := None |}.

Definition text_response (text : string) : McpResponse :=
  {| mcp_content := [{| mcp_text := text |}];
     mcp_meta := None;
     mcp_isError := None |}.

(** A listing endpoint and its pages. *)
Definition listMessages : Endpoint :=
  {| tool_alias := "list-mail-messages";
     tool_method := "get";
     tool_path := "/me/messages";
     tool_description := None;
     tool_parameters :=
       Some [{| def_name := "top"; def_type := Query; def_schema := None |};
             {| def_name := "filter"; def_type := Query; def_schema := None |}];
     tool_errors := None |}.

Definition cursor2 : string :=
  "https://graph.microsoft.com/v1.0/me/messages?$skip=1".
Definition cursor3 : string :=
  "https://graph.microsoft.com/v1.0/me/messages?$skip=2".

Definition urls : list (string * URL) :=
  [(cursor2, {| pathname := "/v1.0/me/messages";
                searchParams := [("$skip", "1")] |});
   (cursor3, {| pathname := "/v1.0/me/messages";
                searchParams := [("$skip", "2")] |})].

Definition page1 : value :=
  JObj [("@odata.count", JNum 3);
        ("value", JArr [JStr "a"]);
        ("@odata.nextLink", JStr cursor2)].
Definition page2 : value :=
  JObj [("value", JArr [JStr "b"]); ("@odata.nextLink", JStr cursor3)].
Definition page3 : value := JObj [("value", JArr [JStr "c"])].

(** A page that keeps pointing at itself. *)
Definition endless : value :=
  JObj [("value", JArr [JNum 7]); ("@odata.nextLink", JStr cursor2)].

(** A single page whose count field is zero although it holds an item. *)
Definition zeroCount : value :=
  JObj [("@odata.count", JNum 0); ("value", JArr [JStr "a"])].

Definition rt0 : Runtime :=
  runtime [page1; page2; page3; endless; zeroCount] urls.

Definition fetchAll : list (string * value) := [("fetchAllPages", JBool true)].

Definition answers (docs : list value) : list (exn + McpResponse) :=
  map (fun d => inr (page_response d)) docs.

(** Three pages, all well; the third page is not JSON; pages without end;
    the page with the zero count. *)
Definition threePages : World Script := start (answers [page1; page2; page3]) [].
Definition brokenThirdPage : World Script :=
  start (answers [page1; page2] ++ [inr (text_response "oops")]) [].
Definition endlessPages : World Script :=
  start (answers (repeat endless 120)) [].
Definition zeroCountPage : World Script := start (answers [zeroCount]) [].

(** An operation whose request body is an object with a [body] member. *)
Definition hasBodyMember (v : value) : bool :=
  match v with
  | JObj fields =>
      match entries_get "body" fields with Some _ => true | None => false end
  | _ => false
  end.

Definition sendChatMessage : Endpoint :=
  {| tool_alias := "send-chat-message";
     tool_method := "post";
     tool_path := "/chats/:chatId/messages";
     tool_description := None;
     tool_parameters :=
       Some [{| def_name := "chatId"; def_type := Path; def_schema := None |};
             {| def_name := "body"; def_type := Body;
                def_schema := Some hasBodyMember |}];
     tool_errors := None |}.

Definition bodyParam : ParameterDefinition :=
  {| def_name := "body"; def_type := Body; def_schema := Some hasBodyMember |}.

Definition messageContent : value := JObj [("content", JStr "Hello")].

(** A day with two online meetings. *)
Definition meeting (subject start : string) : value :=
  JObj [("id", JStr subject);
        ("subject", JStr subject);
        ("isOnlineMeeting", JBool true);
        ("start", JObj [("dateTime", JStr start)])].

Definition planning : value := meeting "Q1 Planning Sync" "2026-01-16T10:00:00".
Definition standup : value := meeting "Standup" "2026-01-16T09:00:00".

Definition calendarDay : value := JObj [("value", JArr [planning; standup])].

Definition searchNonexistent : CompositeTools.GetTranscriptParams :=
  {| CompositeTools.date := "2026-01-16";
     CompositeTools.subjectContains := "nonexistent";
     CompositeTools.startTime := None;
     CompositeTools.endTime := None;
     CompositeTools.timezone := None |}.

Definition calendarAnswer : World Script := start [] [inr calendarDay].

End Fixtures.

(** ** tool-categories.ts *)

Module ToolCategories.

(** The regular expressions of the table: an alternation of literal words
    under the [i] flag, or [/.*/]. *)
Inductive Pattern : Type :=
| Words (words : list string)
| Anything.

(** [pattern.source] *)
Definition source (p : Pattern) : string :=
  match p with
  | Words words => String.concat "|" words
  | Anything => ".*"
  end.

(** [pattern.test(s)]: one of the words occurs in [s], letter case apart;
    [/.*/] matches every string. *)
Definition test (p : Pattern) (s : string) : bool :=
  match p with
  | Words words =>
      existsb (fun word => includes (toLowerCase s) (toLowerCase word)) words
  | Anything => true
  end.

Record ToolCategory : Type := {
  cat_name : string;
  cat_pattern : Pattern;
  cat_description : string;
  cat_requiresOrgMode : option bool
}.

Definition TOOL_CATEGORIES : list (string * ToolCategory) :=
  [("mail",
    {| cat_name := "mail";
       cat_pattern := Words ["mail"; "attachment"; "draft"];
       cat_description :=
         "Email operations (read, send, manage folders, attachments)";
       cat_requiresOrgMode := None |});
   ("calendar",
    {| cat_name := "calendar";
       cat_pattern := Words ["calendar"; "event"];
       cat_description := "Calendar and event management";
       cat_requiresOrgMode := None |});
   ("files",
    {| cat_name := "files";
       cat_pattern :=
         Words ["drive"; "file"; "upload"; "download"; "folder"; "item"];
       cat_description := "OneDrive file and folder operations";
       cat_requiresOrgMode := None |});
   ("personal",
    {| cat_name := "personal";
       cat_pattern :=
         Words ["mail"; "calendar"; "drive"; "contact"; "todo"; "onenote";
                "attachment"; "draft"; "event"; "file"; "folder"];
       cat_description :=
         "Personal productivity tools (mail, calendar, files, contacts, tasks, notes)";
       cat_requiresOrgMode := None |});
   ("work",
    {| cat_name := "work";
       cat_pattern :=
         Words ["team"; "channel"; "chat"; "sharepoint"; "planner"; "site";
                "list"; "shared"];
       cat_description :=
         "Organization/work tools (Teams, SharePoint, shared mailboxes)";
       cat_requiresOrgMode := Some true |});
   ("excel",
    {| cat_name := "excel";
       cat_pattern :=
         Words ["excel"; "worksheet"; "workbook"; "range"; "chart"];
       cat_description := "Excel spreadsheet operations";
       cat_requiresOrgMode := None |});
   ("contacts",
    {| cat_name := "contacts";
       cat_pattern := Words ["contact"];
       cat_description := "Outlook contacts management";
       cat_requiresOrgMode := None |});
   ("tasks",
    {| cat_name := "tasks";
       cat_pattern := Words ["todo"; "planner"; "task"];
       cat_description := "Task and planning tools (To Do, Planner)";
       cat_requiresOrgMode := None |});
   ("onenote",
    {| cat_name := "onenote";
       cat_pattern := Words ["onenote"; "notebook"; "section"; "page"];
       cat_description := "OneNote notebook operations";
       cat_requiresOrgMode := None |});
   ("search",
    {| cat_name := "search";
       cat_pattern := Words ["search"; "query"];
       cat_description := "Microsoft Search capabilities";
       cat_requiresOrgMode := None |});
   ("meetings",
    {| cat_name := "meetings";
       cat_pattern := Words ["meeting"; "transcript"; "onlineMeeting"];
       cat_description := "Online meetings and transcript access";
       cat_requiresOrgMode := None |});
   ("users",
    {| cat_name := "users";
       cat_pattern := Words ["user"; "list-users"];
       cat_description := "User directory access";
       cat_requiresOrgMode := Some true |});
   ("all",
    {| cat_name := "all";
       cat_pattern := Anything;
       cat_description := "All available tools";
       cat_requiresOrgMode := None |})].

(** The names every object literal inherits from [Object.prototype].  An
    index with one of them yields a value that is truthy and is not a
    category: it has no [pattern] and no [requiresOrgMode]. *)
Definition inherited : list string :=
  ["constructor"; "__defineGetter__"; "__defineSetter__"; "hasOwnProperty";
   "__lookupGetter__"; "__lookupSetter__"; "isPrototypeOf";
   "propertyIsEnumerable"; "toString"; "valueOf"; "__proto__";
   "toLocaleString"].

(** [TOOL_CATEGORIES[key]] *)
Inductive Member : Type :=
| Own (category : ToolCategory)
| Inherited
| Missing.

Definition member (key : string) : Member :=
  match entries_get key TOOL_CATEGORIES with
  | Some category => Own category
  | None =>
      if GraphTools.string_in key inherited then Inherited else Missing
  end.

Definition unknownPreset (preset : string) : exn :=
  Exn "Error"
    ("Unknown preset: " +:+ preset +:+ ". Available presets: " +:+
     String.concat ", " (map fst TOOL_CATEGORIES)).

(** [presets.map((preset) => ...)]: the sources in order; the first preset
    that is no category throws. *)
Fixpoint preset_sources (presets : list string) : exn + list string :=
  match presets with
  | [] => inr []
  | preset :: rest =>
      match member preset with
      | Own category =>
          match preset_sources rest with
          | inl e => inl e
          | inr sources => inr (source (cat_pattern category) :: sources)
          end
      | Inherited =>
          inl (TypeError
                 "Cannot read properties of undefined (reading 'source')")
      | Missing => inl (unknownPreset preset)
      end
  end.

Definition getCombinedPresetPattern (presets : list string) : exn + string :=
  match preset_sources presets with
  | inl e => inl e
  | inr sources => inr (String.concat "|" sources)
  end.

Record PresetInfo : Type := {
  preset_name : string;
  preset_description : string;
  preset_requiresOrgMode : option bool
}.

Definition listPresets : list PresetInfo :=
  map (fun entry =>
         {| preset_name := cat_name (snd entry);
            preset_description := cat_description (snd entry);
            preset_requiresOrgMode := cat_requiresOrgMode (snd entry) |})
      TOOL_CATEGORIES.

(** [category?.requiresOrgMode || false] *)
Definition presetRequiresOrgMode (preset : string) : bool :=
  match member preset with
  | Own category =>
      match cat_requiresOrgMode category with
      | Some b => b
      | None => false
      end
  | Inherited | Missing => false
  end.

End ToolCategories.

(** ** graph-tools.ts: registration and the [search-tools] handler *)

Module Registration.
Import GraphTools ToolCategories.

(** [s || d] for an optional string *)
Definition text_or (s : option string) (d : string) : string :=
  match s with
  | Some t => if String.eqb t "" then d else t
  | None => d
  end.

(** [config?.llmTip] *)
Definition llmTip (config : option EndpointConfig) : option string :=
  match config with
  | Some c => cfg_llmTip c
  | None => None
  end.

(** *** [registerGraphTools] *)

(** The entries of a [paramSchema]: the schema of a parameter of the
    endpoint ([param.schema || z.any()]), or one of the optional control
    entries with its description. *)
Inductive Schema : Type :=
| OfParameter (schema : option (value -> bool))
| OptionalBoolean (description : string)
| OptionalString (description : string).

Record Annotations : Type := {
  title : string;
  readOnlyHint : bool;
  destructiveHint : bool;
  openWorldHint : bool
}.

(** The arguments of one [server.tool] call; [reg_handler] holds the
    endpoint and the configuration that the registered handler passes on to
    [executeGraphTool]. *)
Record ToolRegistration : Type := {
  reg_name : string;
  reg_description : string;
  reg_paramSchema : list (string * Schema);
  reg_annotations : Annotations;
  reg_handler : Endpoint * option EndpointConfig
}.

Definition paramSchema (tool : Endpoint)
    (endpointConfig : option EndpointConfig) : list (string * Schema) :=
  let own :=
    match tool_parameters tool with
    | Some parameters =>
        if (0 <? length parameters)%nat
        then fold_left
               (fun schema param =>
                  entries_set (def_name param) (OfParameter (def_schema param))
                    schema)
               parameters []
        else []
    | None => []
    end in
  let paged :=
    if String.eqb (toUpperCase (tool_method tool)) "GET" &&
       includes (tool_path tool) "/"
    then entries_set "fetchAllPages"
           (OptionalBoolean "Automatically fetch all pages of results") own
    else own in
  let flagged :=
    entries_set "excludeResponse"
      (OptionalBoolean
         "Exclude the full response body and only return success or failure indication")
      (entries_set "includeHeaders"
         (OptionalBoolean
            "Include response headers (including ETag) in the response metadata")
         paged) in
  if config_flag endpointConfig cfg_supportsTimezone
  then entries_set "timezone"
         (OptionalString
            ("IANA timezone name (e.g., " +:+ dquote +:+ "America/New_York" +:+
             dquote +:+ ", " +:+ dquote +:+ "Europe/London" +:+ dquote +:+
             ", " +:+ dquote +:+ "Asia/Tokyo" +:+ dquote +:+
             ") for calendar event times. If not specified, times are returned in UTC."))
         flagged
  else flagged.

(** The four characters that stand before [TIP:] in the source text, as
    the bytes the file holds for them. *)
Definition tipMark : string :=
  string_of_list_ascii
    (map ascii_of_nat [195; 176; 197; 184; 226; 128; 153; 194; 161]).

Definition toolDescription (tool : Endpoint)
    (endpointConfig : option EndpointConfig) : string :=
  let base :=
    text_or (tool_description tool)
      ("Execute " +:+ toUpperCase (tool_method tool) +:+ " request to " +:+
       tool_path tool) in
  match llmTip endpointConfig with
  | Some tip =>
      if String.eqb tip "" then base
      else base +:+ CompositeTools.newline +:+ CompositeTools.newline +:+
           tipMark +:+ " TIP: " +:+ tip
  | None => base
  end.

Definition registration (tool : Endpoint)
    (endpointConfig : option EndpointConfig) : ToolRegistration :=
  {| reg_name := tool_alias tool;
     reg_description := toolDescription tool endpointConfig;
     reg_paramSchema := paramSchema tool endpointConfig;
     reg_annotations :=
       {| title := tool_alias tool;
          readOnlyHint := String.eqb (toUpperCase (tool_method tool)) "GET";
          destructiveHint :=
            string_in (toUpperCase (tool_method tool))
              ["POST"; "PATCH"; "DELETE"];
          openWorldHint := true |};
     reg_handler := (tool, endpointConfig) |}.

(** [McpServer]: [server.tool] records a registration or throws, as it does
    for a name it already holds. *)
Record McpServer (Srv : Type) : Type := {
  server_tool : ToolRegistration -> Srv -> (exn + unit) * Srv
}.
Arguments server_tool {Srv}.

(** The variables of [registerGraphTools], with the server, the
    registrations handed to [server.tool] so far, in order, and the lines
    written by [logger.error]. *)
Record Progress (Srv : Type) : Type := {
  server : Srv;
  registeredCount : nat;
  skippedCount : nat;
  failedCount : nat;
  offered : list ToolRegistration;
  errors : list string
}.
Arguments server {Srv}.
Arguments offered {Srv}.
Arguments registeredCount {Srv}.
Arguments skippedCount {Srv}.
Arguments failedCount {Srv}.
Arguments errors {Srv}.

Section Register.
Context {Srv : Type}.
Variable mcp : McpServer Srv.

(** [new RegExp(pattern, 'i')], which throws on an ill-formed pattern, and
    the [test] of the expression it makes. *)
Variable RegExp_i : string -> exn + (string -> bool).

Variable api_endpoints : list Endpoint.
Variable endpointsData : list EndpointConfig.

Definition skip (p : Progress Srv) : Progress Srv :=
  {| server := server p;
     registeredCount := registeredCount p;
     skippedCount := S (skippedCount p);
     failedCount := failedCount p;
     offered := offered p;
     errors := errors p |}.

(** One iteration of the loop over [api.endpoints]. *)
Definition register_tool (readOnly orgMode : bool)
    (enabledToolsRegex : option (string -> bool))
    (p : Progress Srv) (tool : Endpoint) : Progress Srv :=
  let endpointConfig := find_endpointConfig endpointsData tool in
  if negb orgMode && workAccountOnly endpointConfig then skip p
  else if readOnly &&
          negb (String.eqb (toUpperCase (tool_method tool)) "GET")
  then skip p
  else if match enabledToolsRegex with
          | Some regex => negb (regex (tool_alias tool))
          | None => false
          end
  then skip p
  else
    match server_tool mcp (registration tool endpointConfig) (server p) with
    | (inr _, srv) =>
        {| server := srv;
           registeredCount := S (registeredCount p);
           skippedCount := skippedCount p;
           failedCount := failedCount p;
           offered := offered p ++ [registration tool endpointConfig];
           errors := errors p |}
    | (inl error, srv) =>
        {| server := srv;
           registeredCount := registeredCount p;
           skippedCount := skippedCount p;
           failedCount := S (failedCount p);
           offered := offered p ++ [registration tool endpointConfig];
           errors := errors p ++
             ["Failed to register tool " +:+ tool_alias tool +:+ ": " +:+
              exn_message error] |}
    end.

(** The function returns [registeredCount]; the model returns all its
    variables, the count among them. *)
Definition registerGraphTools (srv : Srv) (readOnly : bool)
    (enabledToolsPattern : option string) (orgMode : bool) : Progress Srv :=
  let compiled :=
    match enabledToolsPattern with
    | Some pattern =>
        if String.eqb pattern "" then (None, [])
        else match RegExp_i pattern with
             | inr regex => (Some regex, [])
             | inl _ =>
                 (None,
                  ["Invalid tool filter regex pattern: " +:+ pattern +:+
                   ". Ignoring filter."])
             end
    | None => (None, [])
    end in
  fold_left (register_tool readOnly orgMode (fst compiled)) api_endpoints
    {| server := srv;
       registeredCount := 0;
       skippedCount := 0;
       failedCount := 0;
       offered := [];
       errors := snd compiled |}.

End Register.

(** *** Discovery mode: the registry in the order a loop visits it *)

(** The [Map] that [buildToolsRegistry] returns, as the list of its entries
    in iteration order: insertion order, a key that is set again keeping its
    place. *)
Definition registryEntries (api_endpoints : list Endpoint)
    (endpointsData : list EndpointConfig) (readOnly orgMode : bool)
  : list (string * (Endpoint * option EndpointConfig)) :=
  fold_left
    (fun toolsMap tool =>
       let endpointConfig := find_endpointConfig endpointsData tool in
       if negb orgMode && workAccountOnly endpointConfig then toolsMap
       else if readOnly &&
               negb (String.eqb (toUpperCase (tool_method tool)) "GET")
       then toolsMap
       else entries_set (tool_alias tool) (tool, endpointConfig) toolsMap)
    api_endpoints [].

(** *** The [search-tools] handler *)

(** An element of [results]. *)
Definition summary (name : string) (tool : Endpoint) : value :=
  JObj [("name", JStr name);
        ("method", JStr (toUpperCase (tool_method tool)));
        ("path", JStr (tool_path tool));
        ("description",
         JStr (text_or (tool_description tool)
                 (toUpperCase (tool_method tool) +:+ " " +:+ tool_path tool)))].

Definition searchText (name : string) (tool : Endpoint)
    (config : option EndpointConfig) : string :=
  toLowerCase
    (name +:+ " " +:+ tool_path tool +:+ " " +:+
     text_or (tool_description tool) "" +:+ " " +:+
     text_or (llmTip config) "").

(** [queryLower && !searchText.includes(queryLower)] *)
Definition query_excludes (queryLower : option string) (name : string)
    (tool : Endpoint) (config : option EndpointConfig) : bool :=
  match queryLower with
  | Some q =>
      negb (String.eqb q "") && negb (includes (searchText name tool config) q)
  | None => false
  end.

(** The loop over the registry, [results] being what was pushed so far.
    Testing a name against a [categoryDef] that is an inherited member
    throws. *)
Fixpoint search_loop (categoryDef : Member) (queryLower : option string)
    (maxLimit : number)
    (entries : list (string * (Endpoint * option EndpointConfig)))
    (results : list value) : exn + list value :=
  match entries with
  | [] => inr results
  | (name, (tool, config)) :: rest =>
      match categoryDef with
      | Inherited =>
          inl (TypeError
                 "Cannot read properties of undefined (reading 'test')")
      | _ =>
          if match categoryDef with
             | Own category => negb (test (cat_pattern category) name)
             | _ => false
             end
          then search_loop categoryDef queryLower maxLimit rest results
          else if query_excludes queryLower name tool config
          then search_loop categoryDef queryLower maxLimit rest results
          else
            let results := results ++ [summary name tool] in
            if at_least (Z.of_nat (length results)) maxLimit then inr results
            else search_loop categoryDef queryLower maxLimit rest results
      end
  end.

Definition searchTip : string :=
  "Use execute-tool with the tool name and required parameters to call any of these tools.".

(** [category ? TOOL_CATEGORIES[category] : undefined] *)
Definition categoryDef_of (category : option string) : Member :=
  match category with
  | Some c => if String.eqb c "" then Missing else member c
  | None => Missing
  end.

(** The handler of [search-tools]; an argument the caller left out is
    [None], and [limit] is any number ([z.number()]).  It makes no request;
    what it can do besides returning is throw. *)
Definition search_tools (rt : Runtime)
    (toolsRegistry : list (string * (Endpoint * option EndpointConfig)))
    (query category : option string) (limit : option number)
  : exn + CallToolResult :=
  let maxLimit :=
    Math_min (match limit with Some l => l | None => Finite (inject_Z 20) end)
      (Finite (inject_Z 50)) in
  let queryLower := option_map toLowerCase query in
  match search_loop (categoryDef_of category) queryLower maxLimit
          toolsRegistry [] with
  | inl e => inl e
  | inr results =>
      inr {| content :=
               [TextContent
                  (JSON_stringify_pretty rt
                     (JObj [("found", JNum (Z.of_nat (length results)));
                            ("total",
                             JNum (Z.of_nat (length toolsRegistry)));
                            ("tools", JArr results);
                            ("tip", JStr searchTip)]))];
             _meta := None;
             isError := None |}
  end.

End Registration.

(** ** server.ts: [parseHttpOption] *)

Module Server.

(** White space and line terminators among the one-byte characters. *)
Definition isWhiteSpace (c : ascii) : bool :=
  let n := nat_of_ascii c in
  ((9 <=? n) && (n <=? 13) || (n =? 32) || (n =? 160))%nat.

Fixpoint trimStart (s : string) : string :=
  match s with
  | EmptyString => EmptyString
  | String c s' => if isWhiteSpace c then trimStart s' else s
  end.

Fixpoint trimEnd (s : string) : string :=
  match s with
  | EmptyString => EmptyString
  | String c s' =>
      let t := trimEnd s' in
      if isWhiteSpace c && String.eqb t "" then EmptyString else String c t
  end.

(** [s.trim()] *)
Definition trim (s : string) : string := trimEnd (trimStart s).

(** [s.split(sep)] for a separator of one character: never empty. *)
Fixpoint split (sep : ascii) (s : string) : list string :=
  match s with
  | EmptyString => [EmptyString]
  | String c s' =>
      if Ascii.eqb c sep then EmptyString :: split sep s'
      else match split sep s' with
           | part :: parts => String c part :: parts
           | [] => [String c EmptyString]
           end
  end.

Definition digit (radix : Z) (c : ascii) : option Z :=
  let n := Z.of_nat (nat_of_ascii c) in
  let d := if (48 <=? n)%Z && (n <=? 57)%Z then Some (n - 48)%Z
           else if (97 <=? n)%Z && (n <=? 122)%Z then Some (n - 87)%Z
           else if (65 <=? n)%Z && (n <=? 90)%Z then Some (n - 55)%Z
           else None in
  match d with
  | Some v => if (v <? radix)%Z then Some v else None
  | None => None
  end.

(** The number spelt by the longest prefix of [s] made of digits of the
    radix, [acc] being the number read so far, if any. *)
Fixpoint digits (radix : Z) (s : string) (acc : option Z) : option Z :=
  match s with
  | EmptyString => acc
  | String c s' =>
      match digit radix c with
      | Some d =>
          digits radix s'
            (Some (radix * match acc with Some n => n | None => 0 end + d)%Z)
      | None => acc
      end
  end.

(** [parseInt(s)]: the double for the whole number that the digits spell,
    [NaN] when there is no digit.  (Beyond the twentieth significant
    decimal digit the standard lets an engine read zeros; V8 reads the
    digits as they are, and so does this.) *)
Definition parseInt (s : string) : number :=
  let s := trimStart s in
  let (sign, s) :=
    match s with
    | String "-" s' => ((-1)%Z, s')
    | String "+" s' => (1%Z, s')
    | _ => (1%Z, s)
    end in
  let (radix, s) :=
    if startsWith s "0x" || startsWith s "0X"
    then (16%Z, drop_string 2 s)
    else (10%Z, s) in
  match digits radix s None with
  | Some n => double_of_Z (sign * n)
  | None => NaN
  end.

(** [parseInt(s) || 3000], [s] being [undefined] when [None] *)
Definition port_or_default (s : option string) : number :=
  match s with
  | Some t => number_or (parseInt t) (Finite (inject_Z 3000))
  | None => Finite (inject_Z 3000)
  end.

Record HttpOption : Type := { host : option string; port : number }.

(** The option is a string, or the boolean of a flag given without value. *)
Definition parseHttpOption (httpOption : string + bool) : HttpOption :=
  match httpOption with
  | inr _ => {| host := None; port := Finite (inject_Z 3000) |}
  | inl text =>
      let httpString := trim text in
      if includes httpString ":" then
        let parts := split ":" httpString in
        {| host := match nth_error parts 0 with
                   | Some hostPart =>
                       if String.eqb hostPart "" then None else Some hostPart
                   | None => None
                   end;
           port := port_or_default (nth_error parts 1) |}
      else
        {| host := None; port := port_or_default (Some httpString) |}
  end.

End Server.

(** ** More of a run, read off its trace *)

Module Observe.

Definition is_make_request (ev : event) : bool :=
  match ev with
  | EvMakeRequest _ _ _ => true
  | _ => false
  end.

(** The [makeRequest] calls of a trace, in order. *)
Definition make_requests (evs : list event) : list event :=
  List.filter is_make_request evs.

(** A call that was answered rather than thrown at. *)
Definition answered (ev : event) : bool :=
  match ev with
  | EvGraphRequest _ _ (inr _) => true
  | EvMakeRequest _ _ (inr _) => true
  | _ => false
  end.

(** The method and the body a [graphRequest] call was made with. *)
Definition sent (ev : event) : option (string * option string) :=
  match ev with
  | EvGraphRequest _ options _ => Some (opt_method options, opt_body options)
  | _ => None
  end.

(** An entry of [params] that is not one of the control keys. *)
Definition not_control (entry : string * value) : bool :=
  negb (GraphTools.string_in (fst entry) GraphTools.controlParams).

(** A parameter name whose iteration of the binder assigns [body]: it is
    no control key, and it finds a [Body] definition or, finding none, is
    the name [body]. *)
Definition sets_body
    (parameterDefinitions : list GraphTools.ParameterDefinition)
    (paramName : string) : bool :=
  negb (GraphTools.string_in paramName GraphTools.controlParams) &&
  match GraphTools.find_paramDef parameterDefinitions paramName with
  | Some paramDef =>
      match GraphTools.def_type paramDef with
      | GraphTools.Body => true
      | _ => false
      end
  | None => String.eqb paramName "body"
  end.

(** The number of results at which the loop of [search-tools] stops, if it
    stops before the end of the registry: the least whole number that is at
    least 1 and at least [min(limit, 50)]. *)
Definition break_at (limit : option number) : option nat :=
  match limit with
  | None => Some 20%nat
  | Some NaN => None
  | Some (Finite q) => Some (Z.to_nat (Z.max 1 (Z.min (Qceiling q) 50)))
  | Some (Infinity negative) => Some (if negative then 1%nat else 50%nat)
  end.

(** The two tests that [buildToolsRegistry] and [registerGraphTools] apply
    alike before they take an endpoint: it is not skipped as a work-account
    tool, and not skipped as a write operation. *)
Definition admitted (endpointsData : list GraphTools.EndpointConfig)
    (readOnly orgMode : bool) (tool : GraphTools.Endpoint) : bool :=
  negb (negb orgMode &&
        GraphTools.workAccountOnly
          (GraphTools.find_endpointConfig endpointsData tool)) &&
  negb (readOnly &&
        negb (String.eqb (toUpperCase (GraphTools.tool_method tool)) "GET")).

(** The filter of [registerGraphTools] as compiled from its pattern: none
    when the pattern is left out, empty or ill-formed. *)
Definition compiled (RegExp_i : string -> exn + (string -> bool))
    (enabledToolsPattern : option string) : option (string -> bool) :=
  match enabledToolsPattern with
  | Some pattern =>
      if String.eqb pattern "" then None
      else match RegExp_i pattern with
           | inr regex => Some regex
           | inl _ => None
           end
  | None => None
  end.

(** An endpoint that [registerGraphTools] hands to [server.tool]: it passed
    the two tests and the filter, if there is one, accepts its alias. *)
Definition enabled (endpointsData : list GraphTools.EndpointConfig)
    (readOnly orgMode : bool) (regex : option (string -> bool))
    (tool : GraphTools.Endpoint) : bool :=
  admitted endpointsData readOnly orgMode tool &&
  match regex with
  | Some test => test (GraphTools.tool_alias tool)
  | None => true
  end.

(** An entry of the registry that neither test of the [search-tools] loop
    skips. *)
Definition selected (categoryDef : ToolCategories.Member)
    (queryLower : option string)
    (entry : string * (GraphTools.Endpoint * option GraphTools.EndpointConfig))
  : bool :=
  negb match categoryDef with
       | ToolCategories.Own category =>
           negb (ToolCategories.test (ToolCategories.cat_pattern category)
                   (fst entry))
       | _ => false
       end &&
  negb (Registration.query_excludes queryLower (fst entry) (fst (snd entry))
          (snd (snd entry))).

(** The openings of the failure texts of the five requests of
    [getTranscriptByMeeting], in the order of the requests. *)
Definition stepFailures : list string :=
  ["Failed to query calendar: ";
   "Failed to get event details: ";
   "Failed to resolve meeting ID: ";
   "Failed to list transcripts: ";
   "Failed to fetch transcript content: "].

End Observe.

(** ** More examples *)

Module Samples.
Import GraphTools Fixtures.

Definition calendarView : Endpoint :=
  {| tool_alias := "get-calendar-view";
     tool_method := "get";
     tool_path := "/me/calendarView";
     tool_description := Some "List the events of a time window";
     tool_parameters :=
       Some [{| def_name := "startDateTime"; def_type := Query;
                def_schema := None |};
             {| def_name := "Prefer"; def_type := Header;
                def_schema := None |}];
     tool_errors := None |}.

Definition calendarViewConfig : EndpointConfig :=
  {| cfg_pathPattern := "/me/calendarView";
     cfg_method := "get";
     cfg_toolName := "get-calendar-view";
     cfg_scopes := Some ["Calendars.Read"];
     cfg_workScopes := None;
     cfg_returnDownloadUrl := None;
     cfg_supportsTimezone := Some true;
     cfg_llmTip := Some "Pass startDateTime and endDateTime";
     cfg_acceptHeader := None |}.

Definition downloadItem : Endpoint :=
  {| tool_alias := "download-onedrive-file-content";
     tool_method := "get";
     tool_path := "/drives/:driveId/items/:itemId/content";
     tool_description := None;
     tool_parameters :=
       Some [{| def_name := "driveId"; def_type := Path; def_schema := None |};
             {| def_name := "itemId"; def_type := Path; def_schema := None |}];
     tool_errors := None |}.

Definition downloadItemConfig : EndpointConfig :=
  {| cfg_pathPattern := "/drives/{drive-id}/items/{driveItem-id}/content";
     cfg_method := "get";
     cfg_toolName := "download-onedrive-file-content";
     cfg_scopes := Some ["Files.Read"];
     cfg_workScopes := None;
     cfg_returnDownloadUrl := Some true;
     cfg_supportsTimezone := None;
     cfg_llmTip := None;
     cfg_acceptHeader := None |}.

Definition listTeams : Endpoint :=
  {| tool_alias := "list-joined-teams";
     tool_method := "get";
     tool_path := "/me/joinedTeams";
     tool_description := None;
     tool_parameters := None;
     tool_errors := None |}.

Definition listTeamsConfig : EndpointConfig :=
  {| cfg_pathPattern := "/me/joinedTeams";
     cfg_method := "get";
     cfg_toolName := "list-joined-teams";
     cfg_scopes := None;
     cfg_workScopes := Some ["Team.ReadBasic.All"];
     cfg_returnDownloadUrl := None;
     cfg_supportsTimezone := None;
     cfg_llmTip := None;
     cfg_acceptHeader := None |}.

Definition endpoints : list Endpoint :=
  [listMessages; sendChatMessage; calendarView; downloadItem; listTeams].

Definition endpointsData : list EndpointConfig :=
  [calendarViewConfig; downloadItemConfig; listTeamsConfig].

(** A response of two blocks that carries metadata and the failure flag. *)
Definition flagged : McpResponse :=
  {| mcp_content := [{| mcp_text := stringify page3 |};
                     {| mcp_text := "second block" |}];
     mcp_meta := Some (JObj [("etag", JStr "W/1")]);
     mcp_isError := Some true |}.

Definition forbidden : exn := Exn "Error" "403 Forbidden".

(** The registry of discovery mode over these endpoints, in org mode. *)
Definition registry : list (string * (Endpoint * option EndpointConfig)) :=
  Registration.registryEntries endpoints endpointsData false true.

(** A stand-in for the regular expressions of the examples: a pattern of
    letters matches where it occurs, letter case apart, and the pattern [(]
    is ill-formed. *)
Definition RegExp_literal (pattern : string) : exn + (string -> bool) :=
  if String.eqb pattern "("
  then inl (Exn "SyntaxError" "Invalid regular expression: /(/: Unterminated group")
  else inr (fun s => includes (toLowerCase s) (toLowerCase pattern)).

(** A server that keeps the names it was given and refuses a name it
    already holds. *)
Definition recorder : Registration.McpServer (list string) :=
  {| Registration.server_tool := fun reg names =>
       if string_in (Registration.reg_name reg) names
       then (inl (Exn "Error"
                    ("Tool " +:+ Registration.reg_name reg +:+
                     " is already registered")), names)
       else (inr tt, names ++ [Registration.reg_name reg]) |}.

(** A search for the stand-up of the day, and the answers of a run that
    finds its transcript. *)
Definition searchStandup : CompositeTools.GetTranscriptParams :=
  {| CompositeTools.date := "2026-01-16";
     CompositeTools.subjectContains := "stand";
     CompositeTools.startTime := None;
     CompositeTools.endTime := None;
     CompositeTools.timezone := None |}.

Definition eventDetails : value :=
  JObj [("subject", JStr "Standup");
        ("onlineMeeting",
         JObj [("joinUrl", JStr "https://teams.example/l/meetup-join/1")])].

Definition onlineMeeting : value :=
  JObj [("id", JStr "MSo1");
        ("participants",
         JObj [("organizer", JObj [("upn", JStr "ada@example.com")])])].

Definition transcriptList : value :=
  JObj [("value",
         JArr [JObj [("id", JStr "T1");
                     ("createdDateTime", JStr "2026-01-16T09:20:00Z")]])].

Definition transcriptContent : value :=
  JObj [("message", JStr "OK!"); ("rawResponse", JStr "WEBVTT")].

Definition transcriptFound : World Script :=
  start []
    [inr calendarDay; inr eventDetails;
     inr (JObj [("value", JArr [onlineMeeting])]);
     inr transcriptList; inr transcriptContent].

(** The same day, with a client that fails on the details of the event. *)
Definition detailsRefused : World Script :=
  start [] [inr calendarDay; inl forbidden].

Definition emptyDay : World Script :=
  start [] [inr (JObj [("value", JArr [])])].

(** Two meetings whose subjects differ from the search text in the case
    of an accented letter: E with acute is 201 as a capital and 233 as a
    small letter. *)
Definition cafeSearch : string := "caf" +:+ String (ascii_of_nat 233) "".

Definition cafeSync : value :=
  meeting ("CAF" +:+ String (ascii_of_nat 201) " SYNC") "2026-01-16T11:00:00".
Definition cafeReview : value :=
  meeting (cafeSearch +:+ " review") "2026-01-16T15:00:00".

(** An endpoint whose definitions spell an OData name with a capital, and
    one whose definition keeps the marker. *)
Definition listUsers : Endpoint :=
  {| tool_alias := "list-users";
     tool_method := "get";
     tool_path := "/users";
     tool_description := None;
     tool_parameters :=
       Some [{| def_name := "Select"; def_type := Query;
                def_schema := None |}];
     tool_errors := None |}.

Definition listEvents : Endpoint :=
  {| tool_alias := "list-calendar-events";
     tool_method := "get";
     tool_path := "/me/events";
     tool_description := None;
     tool_parameters :=
       Some [{| def_name := "$top"; def_type := Query; def_schema := None |}];
     tool_errors := None |}.

(** An operation whose request body is an object with a [comment] member:
    a value that is no such object fails the schema as it is and wrapped
    under [body]. *)
Definition hasCommentMember (v : value) : bool :=
  match v with
  | JObj fields =>
      match entries_get "comment" fields with
      | Some _ => true
      | None => false
      end
  | _ => false
  end.

Definition replyParam : ParameterDefinition :=
  {| def_name := "body"; def_type := Body;
     def_schema := Some hasCommentMember |}.

Definition replyMailMessage : Endpoint :=
  {| tool_alias := "reply-mail-message";
     tool_method := "post";
     tool_path := "/me/messages/:messageId/reply";
     tool_description := None;
     tool_parameters :=
       Some [replyParam;
             {| def_name := "messageId"; def_type := Path;
                def_schema := None |}];
     tool_errors := None |}.








End Samples.

(** * Properties *)

Import GraphTools Run.

(** ** Facts about the pagination loop *)

Ltac unfold_m :=
  unfold lift, log, emit, await_graphRequest, await_makeRequest in *;
  unfold bind, ret, throw, out_of_fuel, try_catch in *.

Section LoopFacts.
Variable rt : Runtime.
Context {St : Type}.
Variable client : GraphClient St.

Lemma pagination_loop_stop fuel options st (w : World St) :
  truthy_opt (nextLink st) && (pageCount st <? 100)%nat = false ->
  pagination_loop rt client fuel options st w = (Ok st, w).
Proof.
  intros H. destruct fuel; simpl; rewrite H; reflexivity.
Qed.

Lemma loop_post_stay options st (w : World St) :
  loop_post rt options st w (Ok st, w).
Proof.
  exists []. simpl. rewrite app_nil_r.
  repeat split; try constructor; try lia; try congruence;
    intros; simplify_eq; simpl; lia.
Qed.

Lemma loop_post_throw options st (w : World St) e :
  loop_post rt options st w (Throw e, w).
Proof.
  exists []. simpl. rewrite app_nil_r.
  repeat split; try constructor; try lia; try congruence.
Qed.

Lemma pages_of_one_none (ev : event) :
  page_of rt ev = None -> pages_of rt [ev] = [].
Proof. intros H. unfold pages_of. simpl. by rewrite H. Qed.

Lemma pages_of_cons_some (ev : event) page (evs : list event) :
  page_of rt ev = Some page ->
  pages_of rt (ev :: evs) = page :: pages_of rt evs.
Proof. intros H. unfold pages_of. simpl. by rewrite H. Qed.

Lemma read_prop_after page k v :
  read_prop page k = inr v ->
  get_prop page k = v /\
  read_prop page "@odata.nextLink" = inr (get_prop page "@odata.nextLink").
Proof. destruct page; simpl; intros; split; congruence. Qed.

(** Every run of the loop with enough fuel ends, extends the trace by a
    chain of at most [100 - pageCount] calls, and counts the pages it
    merged. *)
Lemma pagination_loop_run fuel options : forall st (w : World St),
  (100 <= fuel + pageCount st)%nat ->
  loop_post rt options st w (pagination_loop rt client fuel options st w).
Proof.
  induction fuel as [|fuel IH]; intros st w Hfuel.
  - rewrite pagination_loop_stop; [apply loop_post_stay|].
    apply andb_false_iff. right. apply Nat.ltb_ge. simpl in Hfuel. lia.
  - destruct (truthy_opt (nextLink st) && (pageCount st <? 100)%nat) eqn:Hc.
    2:{ rewrite pagination_loop_stop by done. apply loop_post_stay. }
    simpl. rewrite Hc.
    apply andb_true_iff in Hc as [Hlink Hlt]. apply Nat.ltb_lt in Hlt.
    unfold_m.
    destruct (URL_parse rt (ToString_opt (nextLink st))) as [e|url] eqn:Hurl.
    { simpl. apply loop_post_throw. }
    simpl.
    destruct (graphRequest client (nextPath url) (nextOptions options url)
                (client_state w)) as [answer c1] eqn:Hreq.
    set (ev := EvGraphRequest (nextPath url) (nextOptions options url) answer).
    set (w1 := {| client_state := c1; trace := trace w ++ [ev] |}).
    assert (Hlast : cursor_chain rt options (nextLink st) [ev])
      by (apply chain_last; assumption).
    assert (Hthrow : forall e, loop_post rt options st w (Throw e, w1)).
    { intros e. exists [ev]. simpl. repeat split; auto; try congruence. lia. }
    assert (Hbreak : failed rt ev = false -> page_of rt ev = None ->
                     loop_post rt options st w (Ok st, w1)).
    { intros Hf Hp. exists [ev]. rewrite (pages_of_one_none _ Hp). simpl.
      repeat split; auto; try congruence.
      - lia.
      - simplify_eq. lia.
      - simplify_eq. lia.
      - simplify_eq. lia. }
    destruct answer as [e|response]; simpl; [apply Hthrow|].
    destruct (first_text response) as [text|] eqn:Htext; simpl.
    2:{ apply Hbreak; subst ev; simpl; by rewrite Htext. }
    destruct (String.eqb text "") eqn:Hempty; simpl.
    { apply Hbreak; subst ev; simpl; by rewrite Htext, Hempty. }
    destruct (JSON_parse rt text) as [e|page] eqn:Hparse; simpl;
      [apply Hthrow|].
    destruct (read_prop page "value") as [e|v] eqn:Hv; simpl;
      [apply Hthrow|].
    apply read_prop_after in Hv as [_ Hlink'].
    assert (Hnext : forall items,
      loop_post rt options st w
        (pagination_loop rt client fuel options
           {| allItems := items; nextLink := get_prop page "@odata.nextLink";
              pageCount := S (pageCount st) |} w1)).
    { intros items.
      destruct (IH {| allItems := items;
                      nextLink := get_prop page "@odata.nextLink";
                      pageCount := S (pageCount st) |} w1)
        as (follow & Heq & Hr & Hall & Hlen & Hchain & Hcount).
      { simpl. lia. }
      assert (Hpage : page_of rt ev = Some page).
      { subst ev. simpl. by rewrite Htext, Hempty, Hparse. }
      exists (ev :: follow). rewrite (pages_of_cons_some _ _ _ Hpage).
      simpl in *. rewrite Heq.
      rewrite <- app_assoc. simpl.
      repeat split; auto.
      - lia.
      - eapply chain_next; eauto.
      - apply Hcount in H. lia.
      - apply Hcount in H. lia.
      - apply Hcount in H. lia.
      - apply Hcount in H as (_ & _ & _ & Hok). constructor; [|exact Hok].
        subst ev. simpl. by rewrite Htext, Hempty, Hparse. }
    rewrite Hlink'.
    destruct v as [[| | | |more|]|]; simpl; try apply Hnext.
    destruct (concat_items (allItems st) more) as [e|items] eqn:Hcat; simpl;
      [apply Hthrow | apply Hnext].
Qed.

(** When the accumulator is an array, a run that ends normally has
    appended the item arrays of the pages it brought back, and has counted
    them. *)
Lemma pagination_loop_items fuel options : forall st (w : World St) s' w' l,
  allItems st = JArr l ->
  pagination_loop rt client fuel options st w = (Ok s', w') ->
  exists follow,
    trace w' = trace w ++ follow /\
    allItems s' = JArr (l ++ concat (map page_items (pages_of rt follow))) /\
    pageCount s' = (pageCount st + length (pages_of rt follow))%nat.
Proof.
  induction fuel as [|fuel IH]; intros st w s' w' l Hl Hrun.
  - simpl in Hrun.
    destruct (truthy_opt (nextLink st) && (pageCount st <? 100)%nat);
      unfold_m; simplify_eq.
    exists []. simpl. rewrite !app_nil_r. auto.
  - simpl in Hrun.
    destruct (truthy_opt (nextLink st) && (pageCount st <? 100)%nat).
    2:{ unfold_m; simplify_eq. exists []. simpl. rewrite !app_nil_r. auto. }
    unfold_m.
    destruct (URL_parse rt (ToString_opt (nextLink st))) as [e|url];
      simpl in Hrun; [discriminate|].
    destruct (graphRequest client (nextPath url) (nextOptions options url)
                (client_state w)) as [answer c1].
    set (ev := EvGraphRequest (nextPath url) (nextOptions options url) answer)
      in *.
    destruct answer as [e|response]; simpl in Hrun; [discriminate|].
    destruct (first_text response) as [text|] eqn:Htext; simpl in Hrun.
    2:{ simplify_eq. exists [ev]. subst ev. simpl. rewrite Htext. simpl.
        rewrite !app_nil_r. auto. }
    destruct (String.eqb text "") eqn:Hempty; simpl in Hrun.
    { simplify_eq. exists [ev]. subst ev. simpl. rewrite Htext, Hempty. simpl.
      rewrite !app_nil_r. auto. }
    destruct (JSON_parse rt text) as [e|page] eqn:Hparse; simpl in Hrun;
      [discriminate|].
    destruct (read_prop page "value") as [e|v] eqn:Hv; simpl in Hrun;
      [discriminate|].
    apply read_prop_after in Hv as [Hv Hlink'].
    assert (Hpage : pages_of rt [ev] = [page]).
    { subst ev. simpl. by rewrite Htext, Hempty, Hparse. }
    assert (Hnext : forall items,
      items = JArr (l ++ page_items page) ->
      pagination_loop rt client fuel options
        {| allItems := items; nextLink := get_prop page "@odata.nextLink";
           pageCount := S (pageCount st) |}
        {| client_state := c1; trace := trace w ++ [ev] |} = (Ok s', w') ->
      exists follow,
        trace w' = trace w ++ follow /\
        allItems s' = JArr (l ++ concat (map page_items (pages_of rt follow))) /\
        pageCount s' = (pageCount st + length (pages_of rt follow))%nat).
    { intros items Hitems Hrest.
      eapply IH in Hrest as (follow & Htr & Hit & Hpc); [|simpl; eauto].
      exists (ev :: follow).
      assert (Hpages : pages_of rt (ev :: follow) = page :: pages_of rt follow).
      { change (ev :: follow) with ([ev] ++ follow). unfold pages_of.
        rewrite omap_app. fold (pages_of rt [ev]). by rewrite Hpage. }
      rewrite Hpages, Htr, Hit, Hpc. simpl.
      rewrite <- !app_assoc. simpl. repeat split; auto. }
    rewrite Hlink' in Hrun. unfold page_items in Hnext. rewrite Hv in Hnext.
    destruct v as [[| | | |more|]|]; simpl in Hrun;
      try (eapply Hnext; [|exact Hrun]; rewrite Hl, app_nil_r; reflexivity).
    rewrite Hl in Hrun. simpl in Hrun. eapply Hnext; [|exact Hrun]. reflexivity.
Qed.

#[local] Arguments pagination_loop : simpl never.

(** *** After the loop *)

Lemma finishPagination_run response combined st (w : World St) :
  exists r,
    finishPagination rt response combined st w =
      (r, {| client_state := client_state w;
             trace := trace w ++ cap_log st |}) /\
    r <> OutOfFuel /\
    (forall resp', r = Ok resp' -> exists t, resp' = set_first_text response t).
Proof.
  unfold finishPagination, cap_log.
  set (w1 := {| client_state := client_state w;
                trace := trace w ++
                  (if (100 <=? pageCount st)%nat
                   then [EvLog Warn maxPageWarning] else []) |}).
  assert (Hlog : (if (100 <=? pageCount st)%nat
                  then log Warn maxPageWarning else ret tt) w = (Ok tt, w1)).
  { subst w1. destruct (100 <=? pageCount st)%nat; unfold_m; [done|].
    rewrite app_nil_r. by destruct w. }
  unfold bind at 1. rewrite Hlog. unfold_m.
  destruct (write_prop combined "value" (Some (allItems st))) as [e|c1];
    simpl; [exists (Throw e); repeat split; congruence|].
  destruct (read_prop c1 "@odata.count") as [e|count];
    simpl; [exists (Throw e); repeat split; congruence|].
  destruct (truthy_opt count); simpl.
  - destruct (write_prop c1 "@odata.count" (get_prop (allItems st) "length"))
      as [e|c2]; simpl; [exists (Throw e); repeat split; congruence|].
    eexists; repeat split; [congruence|]. intros; simplify_eq; eauto.
  - eexists; repeat split; [congruence|]. intros; simplify_eq; eauto.
Qed.

Lemma finishPagination_object response fields st l (w : World St) :
  allItems st = JArr l ->
  fst (finishPagination rt response (JObj fields) st w) =
  Ok (set_first_text response
        (JSON_stringify rt
           (JObj (entries_delete "@odata.nextLink"
                    (let with_items := entries_set "value" (JArr l) fields in
                     if truthy_opt (entries_get "@odata.count" with_items)
                     then entries_set "@odata.count"
                            (JNum (Z.of_nat (length l))) with_items
                     else with_items))))).
Proof.
  intros Hl. unfold finishPagination. rewrite Hl.
  destruct (100 <=? pageCount st)%nat; unfold_m; simpl;
    destruct (truthy_opt (entries_get "@odata.count"
                (entries_set "value" (JArr l) fields))); reflexivity.
Qed.

(** *** The whole aggregation *)

Lemma graph_requests_all (evs : list event) :
  Forall (fun ev => is_request ev = true) evs -> graph_requests evs = evs.
Proof.
  unfold graph_requests. induction 1 as [|ev evs Hev _ IH]; simpl; [done|].
  rewrite Hev. by rewrite IH.
Qed.

Lemma graph_requests_app (evs evs' : list event) :
  graph_requests (evs ++ evs') = graph_requests evs ++ graph_requests evs'.
Proof. unfold graph_requests. apply List.filter_app. Qed.

Lemma graph_requests_cap st : graph_requests (cap_log st) = [].
Proof. unfold cap_log. by destruct (100 <=? pageCount st)%nat. Qed.

Lemma pages_of_app (evs evs' : list event) :
  pages_of rt (evs ++ evs') = pages_of rt evs ++ pages_of rt evs'.
Proof. unfold pages_of. apply omap_app. Qed.

Lemma pages_of_cap st : pages_of rt (cap_log st) = [].
Proof. unfold cap_log. by destruct (100 <=? pageCount st)%nat. Qed.

Lemma requests_not_logs (evs : list event) :
  Forall (fun ev => is_request ev = true) evs ->
  Forall (fun ev => is_error_log ev = false) evs /\
  ~ In (EvLog Warn maxPageWarning) evs.
Proof.
  induction 1 as [|ev evs Hev _ [IH1 IH2]]; [split; [constructor|intros []]|].
  split.
  - constructor; [|done]. by destruct ev.
  - intros [->|Hin]; [discriminate|tauto].
Qed.

Lemma aggregate_run options response text (w : World St) :
  exists r w' evs,
    aggregate rt client options response text w = (r, w') /\
    trace w' = trace w ++ evs /\
    r <> OutOfFuel /\
    Forall (fun ev => is_error_log ev = false) evs /\
    (length (graph_requests evs) <= 99)%nat /\
    (In (EvLog Warn maxPageWarning) evs ->
     length (graph_requests evs) = 99%nat) /\
    cursor_chain rt options (cursor_of_text rt text) (graph_requests evs) /\
    (forall resp', r = Ok resp' ->
       Forall (fun ev => failed rt ev = false) evs /\
       (length (pages_of rt evs) = 99%nat ->
        In (EvLog Warn maxPageWarning) evs) /\
       exists t, resp' = set_first_text response t).
Proof.
  unfold aggregate, cursor_of_text.
  assert (Hnil : forall (r : outcome McpResponse) link,
    (forall resp', r <> Ok resp') -> r <> OutOfFuel ->
    exists r0 w' evs,
      (r, w) = (r0, w') /\ trace w' = trace w ++ evs /\ r0 <> OutOfFuel /\
      Forall (fun ev => is_error_log ev = false) evs /\
      (length (graph_requests evs) <= 99)%nat /\
      (In (EvLog Warn maxPageWarning) evs ->
       length (graph_requests evs) = 99%nat) /\
      cursor_chain rt options link (graph_requests evs) /\
      (forall resp', r0 = Ok resp' ->
         Forall (fun ev => failed rt ev = false) evs /\
         (length (pages_of rt evs) = 99%nat ->
          In (EvLog Warn maxPageWarning) evs) /\
         exists t, resp' = set_first_text response t)).
  { intros r link Hr Hf. exists r, w, []. simpl. rewrite app_nil_r.
    repeat split; auto; try constructor; try lia; try tauto.
    all: intros; exfalso; eapply Hr; eauto. }
  unfold bind at 1. unfold lift at 1.
  destruct (JSON_parse rt text) as [e|combined]; unfold_m; simpl;
    [apply Hnil; congruence|].
  destruct (read_prop combined "value") as [e|v] eqn:Hv; simpl;
    [apply Hnil; congruence|].
  apply read_prop_after in Hv as [_ Hlink]. rewrite Hlink. simpl.
  set (st := {| allItems := or_else v (JArr []);
                nextLink := get_prop combined "@odata.nextLink";
                pageCount := 1 |}).
  destruct (pagination_loop_run 100 options st w) as
    (follow & Htr & Hfuel & Hreq & Hlen & Hchain & Hok); [simpl; lia|].
  destruct (pagination_loop rt client 100 options st w) as [r wl].
  simpl in *.
  destruct (requests_not_logs follow Hreq) as [Hnoerr Hnowarn].
  destruct r as [s'|e|]; [| |congruence].
  - destruct (Hok s' eq_refl) as (Hge & Hle & Hpages & Hfail).
    destruct (finishPagination_run response combined s' wl)
      as (r & Hfin & Hr & Hresp).
    rewrite Hfin. eexists r, _, (follow ++ cap_log s'). split; [reflexivity|]. simpl.
    rewrite Htr, <- app_assoc, graph_requests_app, graph_requests_cap,
      app_nil_r, (graph_requests_all _ Hreq).
    assert (Hcapfree : forall P : event -> Prop,
              P (EvLog Warn maxPageWarning) -> Forall P (cap_log s')).
    { intros P HP. unfold cap_log.
      destruct (100 <=? pageCount s')%nat; repeat constructor; done. }
    split_and!; auto; try lia.
    + apply Forall_app; split; [done|]. by apply Hcapfree.
    + intros Hin. apply in_app_or in Hin as [Hin|Hin]; [tauto|].
      unfold cap_log in Hin.
      destruct (100 <=? pageCount s')%nat eqn:Hcap; [|destruct Hin].
      apply Nat.leb_le in Hcap. lia.
    + intros resp' Hresp'. split_and!; [| |by apply Hresp].
      * apply Forall_app; split; [done|]. by apply Hcapfree.
      * rewrite pages_of_app, pages_of_cap, app_nil_r. intros H99.
        apply in_or_app. right. unfold cap_log.
        replace (100 <=? pageCount s')%nat with true; [by left|].
        symmetry. apply Nat.leb_le. lia.
  - exists (Throw e), wl, follow. rewrite (graph_requests_all _ Hreq).
    split_and!; auto; try lia; try congruence; try tauto.
Qed.

Lemma or_else_array (v : option value) items0 :
  or_else v (JArr []) = JArr items0 ->
  match v with Some (JArr items) => items | _ => [] end = items0.
Proof.
  destruct v as [[|[]|n|s| |]|]; simpl; try congruence.
  - destruct (negb (n =? 0)%Z); congruence.
  - destruct (negb (s =? "")); congruence.
Qed.

(** A completed aggregation over an object whose [value] is an array (or
    is missing or falsy) stores the text of [aggregate_code]. *)
Lemma aggregate_items options response text (w : World St) fields items0
    resp' w' :
  JSON_parse rt text = inr (JObj fields) ->
  or_else (entries_get "value" fields) (JArr []) = JArr items0 ->
  aggregate rt client options response text w = (Ok resp', w') ->
  exists evs,
    trace w' = trace w ++ evs /\
    resp' = set_first_text response
              (JSON_stringify rt
                 (aggregate_code (JObj fields) (pages_of rt evs))).
Proof.
  intros Hparse Hitems Hrun. unfold aggregate in Hrun.
  unfold bind at 1 in Hrun. unfold lift at 1 in Hrun. rewrite Hparse in Hrun.
  unfold_m. simpl in Hrun.
  set (st := {| allItems := or_else (entries_get "value" fields) (JArr []);
                nextLink := entries_get "@odata.nextLink" fields;
                pageCount := 1 |}) in *.
  destruct (pagination_loop rt client 100 options st w) as [r wl] eqn:Hloop.
  destruct r as [s'|e|]; try discriminate.
  eapply pagination_loop_items in Hloop as (follow & Htr & Hall & _);
    [|exact Hitems].
  destruct (finishPagination_run response (JObj fields) s' wl)
    as (r & Hfin & _ & _).
  pose proof (finishPagination_object response fields s' _ wl Hall) as Hobj.
  rewrite Hfin in Hrun, Hobj. simpl in Hobj. simplify_eq.
  exists (follow ++ cap_log s'). simpl. rewrite Htr, <- app_assoc.
  split; [done|]. f_equal. f_equal.
  unfold aggregate_code, all_items, page_items. simpl.
  rewrite pages_of_app, pages_of_cap, app_nil_r.
  rewrite (or_else_array _ _ Hitems). reflexivity.
Qed.

(** *** The executor, case by case *)

Lemma paginate_eq options response text (w : World St) :
  first_text response = Some text ->
  paginate rt client options response w =
  match aggregate rt client options response text w with
  | (Ok resp', w2) => (Ok resp', w2)
  | (Throw e, w2) =>
      (Ok response, {| client_state := client_state w2;
                       trace := trace w2 ++ [EvLog Error (paginationError e)] |})
  | (OutOfFuel, w2) => (OutOfFuel, w2)
  end.
Proof.
  intros Htext. unfold paginate. rewrite Htext. unfold_m.
  by destruct (aggregate rt client options response text w) as [[?|?|] ?].
Qed.

Lemma has_text_inv response :
  has_text response = true ->
  exists text, first_text response = Some text /\ String.eqb text "" = false.
Proof.
  unfold has_text. destruct (first_text response) as [text|]; [|done].
  intros H. exists text. split; [done|]. by apply negb_true_iff.
Qed.

(** The three ways a call of [executeGraphTool] goes: the first request
    throws; it answers and no aggregation is asked for (or there is no
    text); it answers and the pages are aggregated. *)
Lemma executeGraphTool_cases tool config params (w : World St) :
  let path := fst (build_request rt tool config params) in
  let options := snd (build_request rt tool config params) in
  exists answer c1,
    graphRequest client path options (client_state w) = (answer, c1) /\
    let first := EvGraphRequest path options answer in
    let w1 := {| client_state := c1; trace := trace w ++ [first] |} in
    match answer with
    | inl e =>
        executeGraphTool rt client tool config params w =
        (Ok (errorResult rt tool e),
         {| client_state := c1;
            trace := trace w ++ [first; EvLog Error (toolError tool e)] |})
    | inr response =>
        if is_true (entries_get "fetchAllPages" params) && has_text response
        then
          exists text,
            first_text response = Some text /\
            String.eqb text "" = false /\
            match aggregate rt client options response text w1 with
            | (Ok resp', w2) =>
                executeGraphTool rt client tool config params w =
                (Ok (toResult resp'), w2)
            | (Throw e, w2) =>
                executeGraphTool rt client tool config params w =
                (Ok (toResult response),
                 {| client_state := client_state w2;
                    trace := trace w2 ++ [EvLog Error (paginationError e)] |})
            | (OutOfFuel, _) => False
            end
        else
          executeGraphTool rt client tool config params w =
          (Ok (toResult response), w1)
    end.
Proof.
  intros path options.
  destruct (build_request rt tool config params) as [p o] eqn:Hreq.
  subst path options. simpl.
  destruct (graphRequest client p o (client_state w)) as [answer c1] eqn:Hans.
  exists answer, c1. split; [done|].
  destruct answer as [e|response].
  { unfold executeGraphTool. rewrite Hreq. unfold_m. rewrite Hans. simpl.
    by rewrite <- app_assoc. }
  set (w1 := {| client_state := c1;
                trace := trace w ++ [EvGraphRequest p o (inr response)] |}).
  assert (Hfirst : await_graphRequest client p o w = (Ok response, w1)).
  { unfold await_graphRequest. by rewrite Hans. }
  assert (Hexec : executeGraphTool rt client tool config params w =
    match (if is_true (entries_get "fetchAllPages" params) &&
              has_text response
           then paginate rt client o response else ret response) w1 with
    | (Ok resp', w2) => (Ok (toResult resp'), w2)
    | (Throw e, w2) =>
        (Ok (errorResult rt tool e),
         {| client_state := client_state w2;
            trace := trace w2 ++ [EvLog Error (toolError tool e)] |})
    | (OutOfFuel, w2) => (OutOfFuel, w2)
    end).
  { unfold executeGraphTool. rewrite Hreq. unfold try_catch, bind.
    rewrite Hfirst.
    by destruct ((if is_true (entries_get "fetchAllPages" params) &&
                     has_text response
                  then paginate rt client o response else ret response) w1)
      as [[?|?|] ?]. }
  rewrite Hexec. clear Hexec.
  destruct (is_true (entries_get "fetchAllPages" params) && has_text response)
    eqn:Hflag; [|done].
  apply andb_true_iff in Hflag as [_ Htext].
  apply has_text_inv in Htext as (text & Htext & Hne).
  exists text. split_and!; [done..|].
  rewrite (paginate_eq _ _ _ _ Htext).
  destruct (aggregate_run o response text w1)
    as (r & w' & evs & Hagg & _ & Hfuel & _).
  rewrite Hagg. by destruct r.
Qed.

Lemma answer_cursor_text response text :
  first_text response = Some text ->
  String.eqb text "" = false ->
  answer_cursor rt (inr response) = cursor_of_text rt text.
Proof. intros Htext Hne. simpl. by rewrite Htext, Hne. Qed.

(** Every call returns a result, made of text blocks, after one first
    request and a chain of at most 99 follow-up requests. *)
Lemma executeGraphTool_run tool config params (w : World St) :
  let path := fst (build_request rt tool config params) in
  let options := snd (build_request rt tool config params) in
  exists r w' answer rest,
    executeGraphTool rt client tool config params w = (Ok r, w') /\
    trace w' = trace w ++ EvGraphRequest path options answer :: rest /\
    Forall (fun item => is_text item = true) (content r) /\
    (length (graph_requests rest) <= 99)%nat /\
    (In (EvLog Warn maxPageWarning) rest ->
     length (graph_requests rest) = 99%nat) /\
    (Forall (fun ev => is_error_log ev = false) rest ->
     length (pages_of rt rest) = 99%nat ->
     In (EvLog Warn maxPageWarning) rest) /\
    cursor_chain rt options (answer_cursor rt answer) (graph_requests rest) /\
    (is_true (entries_get "fetchAllPages" params) = false ->
     graph_requests rest = []).
Proof.
  intros path options.
  destruct (executeGraphTool_cases tool config params w)
    as (answer & c1 & _ & Hcase).
  fold path options in Hcase. simpl in Hcase.
  assert (Htexts : forall resp,
            Forall (fun item => is_text item = true) (content (toResult resp))).
  { intros resp. simpl. apply Forall_map. by apply Forall_true. }
  destruct answer as [e|response].
  { eexists _, _, (inl e), [EvLog Error (toolError tool e)].
    split; [exact Hcase|]. simpl.
    split_and!; auto; try lia; try constructor; try done;
      try (intros [?|[]]; discriminate). }
  destruct (is_true (entries_get "fetchAllPages" params) && has_text response)
    eqn:Hflag.
  2:{ eexists _, _, (inr response), []. split; [exact Hcase|]. simpl.
      split_and!; auto; try lia; try constructor; try (intros []);
        try discriminate.
      apply Htexts. }
  apply andb_true_iff in Hflag as [Hfetch _].
  destruct Hcase as (text & Htext & Hne & Hcase).
  set (first := EvGraphRequest path options (inr response)) in *.
  set (w1 := {| client_state := c1; trace := trace w ++ [first] |}) in *.
  destruct (aggregate_run options response text w1)
    as (ra & wa & evs & Hagg & Htr & _ & _ & Hlen & Hwarn & Hchain & Hok).
  rewrite Hagg in Hcase. simpl in Htr.
  rewrite <- app_assoc in Htr. simpl in Htr.
  assert (Hcur : answer_cursor rt (inr response) = cursor_of_text rt text)
    by (by apply answer_cursor_text).
  rewrite <- Hcur in Hchain.
  destruct ra as [resp'|e|]; [| |done].
  - eexists _, wa, (inr response), evs. split; [exact Hcase|].
    destruct (Hok resp' eq_refl) as (_ & Hcap & _).
    split_and!; auto; congruence.
  - eexists _, _, (inr response), (evs ++ [EvLog Error (paginationError e)]).
    split; [exact Hcase|]. simpl.
    rewrite Htr, <- app_assoc, graph_requests_app. simpl.
    rewrite app_nil_r. split_and!; auto.
    + apply Htexts.
    + intros Hin.
      apply in_app_or in Hin as [Hin|[Hin|[]]]; [auto|discriminate].
    + intros Hall. apply Forall_app in Hall as [_ Hall].
      inversion Hall; discriminate.
    + congruence.
Qed.

Lemma Exists_filter_failed (evs : list event) :
  Exists (fun ev => failed rt ev = true) (graph_requests evs) ->
  Forall (fun ev => failed rt ev = false) evs -> False.
Proof.
  intros Hex Hall. apply List.Exists_exists in Hex as (ev & Hin & Hf).
  apply List.filter_In in Hin as [Hin _].
  rewrite List.Forall_forall in Hall.
  specialize (Hall ev Hin). congruence.
Qed.

(** C1, as the code has it.  Every call returns.  When a follow-up request
    threw or brought back a text that is not JSON, the result is the first
    response as it came: its blocks as text blocks, its [_meta] and its
    [isError]; the pages merged before the failure are not in it, and the
    last event of the run is the error log of the pagination. *)
Theorem failed_page_returns_first_response tool config params
    (w : World St) :
  let path := fst (build_request rt tool config params) in
  let options := snd (build_request rt tool config params) in
  exists r w' answer rest,
    executeGraphTool rt client tool config params w = (Ok r, w') /\
    trace w' = trace w ++ EvGraphRequest path options answer :: rest /\
    (Exists (fun ev => failed rt ev = true) (graph_requests rest) ->
     exists response e rest',
       answer = inr response /\
       r = toResult response /\
       rest = rest' ++ [EvLog Error (paginationError e)]).
Proof.
  intros path options.
  destruct (executeGraphTool_cases tool config params w)
    as (answer & c1 & _ & Hcase).
  fold path options in Hcase. simpl in Hcase.
  destruct answer as [e|response].
  { eexists _, _, (inl e), [EvLog Error (toolError tool e)].
    split; [exact Hcase|]. simpl. split; [done|].
    intros Hex. inversion Hex. }
  destruct (is_true (entries_get "fetchAllPages" params) && has_text response)
    eqn:Hflag.
  2:{ eexists _, _, (inr response), []. split; [exact Hcase|]. simpl.
      split; [done|]. intros Hex. inversion Hex. }
  destruct Hcase as (text & Htext & Hne & Hcase).
  set (first := EvGraphRequest path options (inr response)) in *.
  set (w1 := {| client_state := c1; trace := trace w ++ [first] |}) in *.
  destruct (aggregate_run options response text w1)
    as (ra & wa & evs & Hagg & Htr & _ & _ & _ & _ & _ & Hok).
  rewrite Hagg in Hcase. simpl in Htr.
  rewrite <- app_assoc in Htr. simpl in Htr.
  destruct ra as [resp'|e|]; [| |done].
  - eexists _, wa, (inr response), evs. split; [exact Hcase|].
    split; [done|]. intros Hex. exfalso.
    destruct (Hok resp' eq_refl) as [Hall _].
    eapply Exists_filter_failed; eauto.
  - eexists _, _, (inr response), (evs ++ [EvLog Error (paginationError e)]).
    split; [exact Hcase|]. simpl. rewrite Htr, <- app_assoc. simpl.
    split; [done|]. intros _. by exists response, e, evs.
Qed.

Lemma pages_of_requests (evs : list event) :
  pages_of rt (graph_requests evs) = pages_of rt evs.
Proof.
  induction evs as [|ev evs IH]; [done|].
  change (ev :: evs) with ([ev] ++ evs).
  rewrite graph_requests_app, !pages_of_app, IH. f_equal.
  by destruct ev.
Qed.

(** C5, as the code has it.  Every call returns.  When aggregation was
    asked for, the first page is a JSON object whose [value] is an array (or
    is missing or falsy) and no error was logged, the text of the first
    block is the JSON of [aggregate_code]: the first page with [value] set
    to the items of all pages in order, [@odata.count] set to their number
    when its value was truthy, and [@odata.nextLink] removed. *)
Theorem completed_aggregation_text tool config params (w : World St) :
  let path := fst (build_request rt tool config params) in
  let options := snd (build_request rt tool config params) in
  exists r w' answer rest,
    executeGraphTool rt client tool config params w = (Ok r, w') /\
    trace w' = trace w ++ EvGraphRequest path options answer :: rest /\
    forall response text fields items0,
      is_true (entries_get "fetchAllPages" params) = true ->
      answer = inr response ->
      first_text response = Some text ->
      String.eqb text "" = false ->
      JSON_parse rt text = inr (JObj fields) ->
      or_else (entries_get "value" fields) (JArr []) = JArr items0 ->
      Forall (fun ev => is_error_log ev = false) rest ->
      r = toResult
            (set_first_text response
               (JSON_stringify rt
                  (aggregate_code (JObj fields)
                     (pages_of rt (graph_requests rest))))).
Proof.
  intros path options.
  destruct (executeGraphTool_cases tool config params w)
    as (answer & c1 & _ & Hcase).
  fold path options in Hcase. simpl in Hcase.
  destruct answer as [e|response].
  { eexists _, _, (inl e), [EvLog Error (toolError tool e)].
    split; [exact Hcase|]. simpl. split; [done|]. intros; discriminate. }
  destruct (is_true (entries_get "fetchAllPages" params) && has_text response)
    eqn:Hflag.
  2:{ eexists _, _, (inr response), []. split; [exact Hcase|]. simpl.
      split; [done|]. intros resp text fields items0 Hfetch Hansw Htext Hne.
      simplify_eq. unfold has_text in Hflag.
      rewrite Hfetch, Htext, Hne in Hflag. discriminate. }
  destruct Hcase as (text & Htext & Hne & Hcase).
  set (first := EvGraphRequest path options (inr response)) in *.
  set (w1 := {| client_state := c1; trace := trace w ++ [first] |}) in *.
  destruct (aggregate_run options response text w1)
    as (ra & wa & evs & Hagg & Htr & _).
  rewrite Hagg in Hcase. simpl in Htr.
  rewrite <- app_assoc in Htr. simpl in Htr.
  destruct ra as [resp'|e|]; [| |done].
  - eexists _, wa, (inr response), evs. split; [exact Hcase|].
    split; [done|].
    intros resp text' fields items0 _ Hansw Htext' _ Hparse Hitems _.
    simplify_eq.
    destruct (aggregate_items _ _ _ _ _ _ _ _ Hparse Hitems Hagg)
      as (evs' & Htr' & ->).
    simpl in Htr'. rewrite Htr, <- app_assoc in Htr'. simpl in Htr'.
    apply app_inv_head in Htr'. simplify_eq.
    by rewrite pages_of_requests.
  - eexists _, _, (inr response), (evs ++ [EvLog Error (paginationError e)]).
    split; [exact Hcase|]. simpl. rewrite Htr, <- app_assoc. simpl.
    split; [done|]. intros resp text' fields items0 _ _ _ _ _ _ Hall.
    apply Forall_app in Hall as [_ Hall]. inversion Hall; discriminate.
Qed.

End LoopFacts.

(** ** Pagination *)

Lemma prefix_append (p r : string) : is_prefix p (p +:+ r) = true.
Proof.
  induction p as [|c p IH]; simpl; [done|]. by rewrite Ascii.eqb_refl.
Qed.

Lemma drop_string_append (p r : string) :
  drop_string (String.length p) (p +:+ r) = r.
Proof. induction p as [|c p IH]; simpl; [done|exact IH]. Qed.

Lemma replace_unfold (pat rep s : string) :
  replace pat rep s =
  if is_prefix pat s then rep +:+ drop_string (String.length pat) s
  else match s with
       | EmptyString => EmptyString
       | String c s' => String c (replace pat rep s')
       end.
Proof. by destruct s. Qed.


Lemma nextPath_of_prefixed (url : URL) (rest : string) :
  pathname url = "/v1.0" +:+ rest -> nextPath url = rest.
Proof.
  intros H. unfold nextPath. rewrite H, replace_unfold, prefix_append.
  apply (drop_string_append "/v1.0").
Qed.

(** The code removes the first [/v1.0] wherever it stands: a path that
    does not start with it loses an inner segment of that name. *)
Example inner_version_segment_removed :
  replace "/v1.0" "" "/beta/me/drive/root:/v1.0/notes" =
  "/beta/me/drive/root:/notes".
Proof. reflexivity. Qed.





Lemma cursor_chain_requests rt options link follow :
  cursor_chain rt options link follow ->
  Forall (fun ev => exists url answer,
            ev = EvGraphRequest (nextPath url) (nextOptions options url) answer)
    follow.
Proof.
  induction 1; repeat constructor; eauto.
Qed.

Section PaginationClaims.
Variable rt : Runtime.
Context {St : Type}.
Variable client : GraphClient St.

(** C9. Every call of the executor returns a result, and each block of its
    content is a text block: on the success path the blocks of the response
    are mapped to text blocks, on the error path the single block is a text
    block. *)
Theorem executor_returns_text_blocks tool config params (w : World St) :
  exists r w',
    executeGraphTool rt client tool config params w = (Ok r, w') /\
    Forall (fun item => is_text item = true) (content r) /\
    (forall error, Forall (fun item => is_text item = true)
                     (content (errorResult rt tool error))) /\
    (forall response, Forall (fun item => is_text item = true)
                        (content (toResult response))).
Proof.
  destruct (executeGraphTool_run rt client tool config params w)
    as (r & w' & answer & rest & Hexec & _ & Htext & _).
  exists r, w'. split_and!; [done..| |].
  - intros error. repeat constructor.
  - intros response. simpl. apply Forall_map. by apply Forall_true.
Qed.

(** C2. Every call returns; after its first request it issues at most 100
    follow-up requests (99 in fact), whatever cursors the pages carry.  A
    logged warning means 99 follow-up requests were made, and a run without
    a pagination error in which 99 follow-up pages came back logs the
    warning.  The loop makes no request once the page in hand carries no
    cursor or the page counter has reached 100, and the statements after
    the loop log the warning exactly when the counter has reached 100. *)
Theorem pagination_terminates_within_cap tool config params (w : World St) :
  (exists r w' answer rest,
     executeGraphTool rt client tool config params w = (Ok r, w') /\
     trace w' =
       trace w ++
       EvGraphRequest (fst (build_request rt tool config params))
         (snd (build_request rt tool config params)) answer :: rest /\
     (length (graph_requests rest) <= 100)%nat /\
     (In (EvLog Warn maxPageWarning) rest ->
      length (graph_requests rest) = 99%nat) /\
     (Forall (fun ev => is_error_log ev = false) rest ->
      length (pages_of rt rest) = 99%nat ->
      In (EvLog Warn maxPageWarning) rest)) /\
  (forall fuel options st (w0 : World St),
     truthy_opt (nextLink st) = false \/ (100 <= pageCount st)%nat ->
     pagination_loop rt client fuel options st w0 = (Ok st, w0)) /\
  (forall response combinedResponse st (w0 : World St),
     exists r,
       finishPagination rt response combinedResponse st w0 =
       (r, {| client_state := client_state w0;
              trace := trace w0 ++
                if (100 <=? pageCount st)%nat
                then [EvLog Warn maxPageWarning] else [] |})).
Proof.
  split_and!.
  - destruct (executeGraphTool_run rt client tool config params w)
      as (r & w' & answer & rest & Hexec & Htr & _ & Hlen & Hwarn & Hcap & _).
    exists r, w', answer, rest. split_and!; auto; lia.
  - intros fuel options st w0 Hstop. apply pagination_loop_stop.
    apply andb_false_iff. destruct Hstop as [Hlink|Hcap]; [by left|right].
    apply Nat.ltb_ge. lia.
  - intros response combinedResponse st w0.
    destruct (finishPagination_run rt response combinedResponse st w0)
      as (r & Hfin & _). by exists r.
Qed.

(** The bound as the code has it: the counter starts at 1, so at most 99
    follow-up requests are made. *)
Lemma at_most_99_follow_ups tool config params (w : World St) :
  exists r w' answer rest,
    executeGraphTool rt client tool config params w = (Ok r, w') /\
    trace w' =
      trace w ++
      EvGraphRequest (fst (build_request rt tool config params))
        (snd (build_request rt tool config params)) answer :: rest /\
    (length (graph_requests rest) <= 99)%nat.
Proof.
  destruct (executeGraphTool_run rt client tool config params w)
    as (r & w' & answer & rest & Hexec & Htr & _ & Hlen & _).
  by exists r, w', answer, rest.
Qed.


End PaginationClaims.

(** ** Parameter binding *)

Lemma string_in_true (s : string) (l : list string) :
  string_in s l = true <-> In s l.
Proof.
  unfold string_in. rewrite existsb_exists. split.
  - intros (x & Hin & Heq). apply String.eqb_eq in Heq. by subst.
  - intros Hin. exists s. split; [done|apply String.eqb_refl].
Qed.

Lemma lower_keeps_dollar (n : string) :
  startsWith n "$" = startsWith (toLowerCase n) "$".
Proof.
  destruct n as [|c n]; [reflexivity|].
  unfold startsWith, toLowerCase. cbn [is_prefix map_string].
  rewrite !andb_true_r.
  destruct (Ascii.eqb_spec "$" c) as [<-|Hc]; [done|].
  destruct (Ascii.eqb_spec "$" (lower_char c)) as [Hl|Hl]; [|done].
  exfalso. apply Hc. unfold lower_char in Hl.
  destruct (is_capital (nat_of_ascii c)) eqn:Hup; [|done].
  assert (Hrange : (65 <= nat_of_ascii c <= 222)%nat).
  { unfold is_capital in Hup.
    apply orb_true_iff in Hup as [Hup|Hup];
      repeat (apply andb_true_iff in Hup as [Hup ?]);
      repeat match goal with
             | H : (_ <=? _)%nat = true |- _ => apply Nat.leb_le in H
             end; lia. }
  assert (Hn : nat_of_ascii (ascii_of_nat (nat_of_ascii c + 32))
               = (nat_of_ascii c + 32)%nat) by (apply nat_ascii_embedding; lia).
  rewrite <- Hl in Hn. change (nat_of_ascii "$") with 36%nat in Hn. lia.
Qed.

(** A reserved OData name carries no marker and is no control key. *)
Lemma odata_name_plain (n : string) :
  string_in (toLowerCase n) odataParams = true ->
  startsWith n "$" = false /\ string_in n controlParams = false.
Proof.
  intros H. split.
  - rewrite lower_keeps_dollar. apply string_in_true in H.
    simpl in H. repeat destruct H as [<-|H]; try done.
  - destruct (string_in n controlParams) eqn:Hc; [|done].
    apply string_in_true in Hc. simpl in Hc.
    repeat destruct Hc as [<-|Hc]; try done; vm_compute in H; discriminate.
Qed.

Lemma marked_name (n : string) :
  normalizedParamName ("$" +:+ n) = n /\
  string_in ("$" +:+ n) controlParams = false.
Proof. split; reflexivity. Qed.

Lemma find_ext {A} (f g : A -> bool) (l : list A) :
  Forall (fun x => f x = g x) l -> find f l = find g l.
Proof.
  induction 1 as [|x l Hx _ IH]; [done|]. simpl. by rewrite Hx, IH.
Qed.

(** The definition a reserved OData name finds is the first one named as
    the caller spelt the name, letter for letter; the name with the marker
    finds the same one when no definition is named with the marker. *)
Lemma find_paramDef_odata (parameterDefinitions : list ParameterDefinition)
    (n : string) :
  string_in (toLowerCase n) odataParams = true ->
  find_paramDef parameterDefinitions n =
    find (fun p => String.eqb (def_name p) n) parameterDefinitions /\
  (Forall (fun p => def_name p <> "$" +:+ n) parameterDefinitions ->
   find_paramDef parameterDefinitions ("$" +:+ n) =
     find (fun p => String.eqb (def_name p) n) parameterDefinitions).
Proof.
  intros Hodata. destruct (odata_name_plain n Hodata) as [Hplain Hctl].
  destruct (marked_name n) as [Hnorm Hctl'].
  unfold find_paramDef, isOdataParam. rewrite Hnorm.
  unfold normalizedParamName. rewrite Hplain, Hodata. split.
  - apply find_ext, Forall_forall. intros p _. simpl. by rewrite orb_diag.
  - intros Hnames. apply find_ext.
    eapply List.Forall_impl; [|exact Hnames]. intros p Hp. simpl.
    by destruct (String.eqb_spec (def_name p) ("$" +:+ n)).
Qed.

Lemma entries_get_skip {A} (k key : string) (v : A) p1 p2 :
  k <> key ->
  entries_get k (p1 ++ (key, v) :: p2) = entries_get k (p1 ++ p2).
Proof.
  intros Hne. induction p1 as [|[k' v'] p1 IH]; simpl.
  - by destruct (String.eqb_spec k key).
  - by rewrite IH.
Qed.

Lemma entries_get_renamed {A} (k key key' : string) (v : A) p1 p2 :
  k <> key -> k <> key' ->
  entries_get k (p1 ++ (key, v) :: p2) = entries_get k (p1 ++ (key', v) :: p2).
Proof. intros H H'. by rewrite !entries_get_skip. Qed.

Section BinderClaims.
Variable rt : Runtime.
Context {St : Type}.
Variable client : GraphClient St.

(** C3. For a name [n] of the reserved OData set (compared in lower case)
    and an endpoint none of whose definitions is named [$n], the caller may
    write [n] or [$n]: both find the definition named [n] letter for letter,
    if there is one.  A Query definition binds the value under the key [$]
    followed by the lower-cased name, for either spelling; without a
    definition of that exact name neither spelling binds anything.  When
    the definition is of type Query or Header, or there is none, the two
    spellings give the same request and the same run, wherever the
    parameter stands among the others. *)
Theorem odata_marker_yields_same_key tool config (n : string) (v : value) :
  string_in (toLowerCase n) odataParams = true ->
  Forall (fun p => def_name p <> "$" +:+ n) (parameterDefinitions_of tool) ->
  let parameterDefinitions := parameterDefinitions_of tool in
  let declared :=
    find (fun p => String.eqb (def_name p) n) parameterDefinitions in
  let key := "$" +:+ toLowerCase n in
  fixedParamName n = key /\
  fixedParamName ("$" +:+ n) = key /\
  find_paramDef parameterDefinitions n = declared /\
  find_paramDef parameterDefinitions ("$" +:+ n) = declared /\
  (forall paramName b,
     paramName = n \/ paramName = "$" +:+ n ->
     match declared with
     | Some paramDef =>
         def_type paramDef = Query ->
         bind_param rt parameterDefinitions b (paramName, v) =
         {| b_path := b_path b;
            b_queryParams :=
              entries_set key (ToString v) (b_queryParams b);
            b_headers := b_headers b;
            b_body := b_body b |}
     | None => bind_param rt parameterDefinitions b (paramName, v) = b
     end) /\
  (match declared with
   | Some paramDef => def_type paramDef = Query \/ def_type paramDef = Header
   | None => True
   end ->
   forall p1 p2 (w : World St),
     build_request rt tool config (p1 ++ ("$" +:+ n, v) :: p2) =
     build_request rt tool config (p1 ++ (n, v) :: p2) /\
     executeGraphTool rt client tool config (p1 ++ ("$" +:+ n, v) :: p2) w =
     executeGraphTool rt client tool config (p1 ++ (n, v) :: p2) w).
Proof.
  intros Hodata Hnames parameterDefinitions declared key.
  destruct (odata_name_plain n Hodata) as [Hplain Hctl].
  destruct (marked_name n) as [Hnorm Hctl'].
  destruct (find_paramDef_odata parameterDefinitions n Hodata)
    as [Hfind Hfind'].
  specialize (Hfind' Hnames). fold declared in Hfind, Hfind'.
  assert (Hfix : fixedParamName n = key).
  { unfold fixedParamName, isOdataParam, normalizedParamName.
    by rewrite Hplain, Hodata. }
  assert (Hfix' : fixedParamName ("$" +:+ n) = key).
  { unfold fixedParamName, isOdataParam. by rewrite Hnorm, Hodata. }
  assert (Hbody : String.eqb n "body" = false).
  { destruct (String.eqb_spec n "body") as [->|]; [|done].
    vm_compute in Hodata. discriminate. }
  split_and!; [done..| |].
  - intros paramName b Hname. unfold bind_param.
    destruct Hname as [-> | ->].
    + rewrite Hctl, Hfind. destruct declared as [paramDef|].
      * intros Hquery. by rewrite Hquery, Hfix.
      * by rewrite Hbody.
    + rewrite Hctl', Hfind'. destruct declared as [paramDef|]; [|done].
      intros Hquery. by rewrite Hquery, Hfix'.
  - intros Htype p1 p2 w.
    assert (Hstep : forall b,
              bind_param rt parameterDefinitions b ("$" +:+ n, v) =
              bind_param rt parameterDefinitions b (n, v)).
    { intros b. unfold bind_param.
      rewrite Hctl, Hctl', Hfind, Hfind', Hfix, Hfix'.
      destruct declared as [paramDef|]; [|by rewrite Hbody].
      by destruct Htype as [-> | ->]. }
    assert (Hbind : bind_params rt tool (p1 ++ ("$" +:+ n, v) :: p2) =
                    bind_params rt tool (p1 ++ (n, v) :: p2)).
    { unfold bind_params. rewrite !fold_left_app. cbn [fold_left].
      fold parameterDefinitions. by rewrite Hstep. }
    assert (Hget : forall k,
              string_in k controlParams = true ->
              entries_get k (p1 ++ ("$" +:+ n, v) :: p2) =
              entries_get k (p1 ++ (n, v) :: p2)).
    { intros k Hk. apply entries_get_renamed; intros ->; congruence. }
    assert (Hreq : build_request rt tool config (p1 ++ ("$" +:+ n, v) :: p2) =
                   build_request rt tool config (p1 ++ (n, v) :: p2)).
    { unfold build_request, timezone_headers.
      by rewrite Hbind, !Hget. }
    split; [done|]. unfold executeGraphTool. by rewrite Hreq, Hget.
Qed.

Lemma bind_params_snoc tool ps entry :
  bind_params rt tool (ps ++ [entry]) =
  bind_param rt (parameterDefinitions_of tool) (bind_params rt tool ps) entry.
Proof. unfold bind_params. by rewrite fold_left_app. Qed.

(** An iteration that is not one of those assigning [body] leaves it as it
    was. *)
Lemma bind_param_keeps_body parameterDefinitions b entry :
  Observe.sets_body parameterDefinitions (fst entry) = false ->
  b_body (bind_param rt parameterDefinitions b entry) = b_body b.
Proof.
  destruct entry as [paramName paramValue]. unfold Observe.sets_body.
  cbn [fst]. unfold bind_param.
  destruct (string_in paramName controlParams); [done|]. cbn [negb andb].
  destruct (find_paramDef parameterDefinitions paramName) as [paramDef|].
  - by destruct (def_type paramDef).
  - by intros ->.
Qed.

Lemma bind_params_keep_body parameterDefinitions later b :
  Forall (fun entry =>
            Observe.sets_body parameterDefinitions (fst entry) = false)
    later ->
  b_body (fold_left (bind_param rt parameterDefinitions) later b) = b_body b.
Proof.
  intros Hlater. revert b.
  induction Hlater as [|entry later Hentry _ IH]; intros b; [done|].
  cbn [fold_left]. rewrite IH. by apply bind_param_keeps_body.
Qed.

(** C4. A Body parameter whose value fails its schema, wherever it stands
    among the parameters, no later parameter assigning the body again.
    When the value wrapped under the parameter's name passes, the binder's
    body is the wrapped form, and the request carries its JSON text unless
    it is a GET, which carries no body.  When the wrapped form fails too,
    the binder's body is the value as given; the request carries it only if
    it is truthy and the method is not GET, a string as it is and any other
    value as JSON text. *)
Theorem body_autocorrection tool config p1 p2 paramName paramValue paramDef
    schema :
  string_in paramName controlParams = false ->
  find_paramDef (parameterDefinitions_of tool) paramName = Some paramDef ->
  def_type paramDef = Body ->
  def_schema paramDef = Some schema ->
  schema paramValue = false ->
  Forall (fun entry =>
            Observe.sets_body (parameterDefinitions_of tool) (fst entry) =
            false) p2 ->
  let params := p1 ++ (paramName, paramValue) :: p2 in
  let method := toUpperCase (tool_method tool) in
  (schema (wrapped paramName paramValue) = true ->
   b_body (bind_params rt tool params) = wrapped paramName paramValue /\
   opt_body (snd (build_request rt tool config params)) =
     if String.eqb method "GET" then None
     else Some (JSON_stringify rt (wrapped paramName paramValue))) /\
  (schema (wrapped paramName paramValue) = false ->
   b_body (bind_params rt tool params) = paramValue /\
   opt_body (snd (build_request rt tool config params)) =
     if String.eqb method "GET" || negb (truthy paramValue) then None
     else Some (match paramValue with
                | JStr s => s
                | _ => JSON_stringify rt paramValue
                end)).
Proof.
  intros Hctl Hfind Hbody Hschema Hfail Hlater params method.
  assert (Hb : b_body (bind_params rt tool params) =
               if schema (wrapped paramName paramValue)
               then wrapped paramName paramValue else paramValue).
  { subst params. unfold bind_params. rewrite fold_left_app.
    cbn [fold_left]. rewrite bind_params_keep_body by done.
    unfold bind_param.
    rewrite Hctl, Hfind, Hbody. simpl. unfold bind_body.
    by rewrite Hschema, Hfail. }
  assert (Hreq : opt_body (snd (build_request rt tool config params)) =
                 request_body rt method (b_body (bind_params rt tool params)))
    by done.
  split; intros Hw; rewrite Hw in Hb; (split; [done|]);
    rewrite Hreq, Hb; unfold request_body.
  - unfold wrapped. cbn [truthy]. rewrite andb_true_r.
    by destruct (String.eqb method "GET").
  - destruct (String.eqb method "GET"); [done|]. cbn [negb andb orb].
    by destruct (truthy paramValue).
Qed.

End BinderClaims.

(** ** Control keys *)

Lemma entries_get_absent {A} (key : string) (p : list (string * A)) :
  ~ In key (map fst p) -> entries_get key p = None.
Proof.
  induction p as [|[k' v'] p IH]; simpl; [done|]. intros Hnot.
  destruct (String.eqb_spec key k') as [->|Hne]; [tauto|]. apply IH. tauto.
Qed.

Lemma entries_get_supplied {A} (key : string) (v : A) p1 p2 :
  ~ In key (map fst p1) ->
  entries_get key (p1 ++ (key, v) :: p2) = Some v.
Proof.
  induction p1 as [|[k' v'] p1 IH]; simpl.
  - by rewrite String.eqb_refl.
  - intros Hnot. destruct (String.eqb_spec key k') as [->|Hne]; [tauto|].
    apply IH. tauto.
Qed.

Lemma is_true_other (v : value) : v <> JBool true -> is_true (Some v) = false.
Proof. destruct v as [|[]| | | |]; simpl; congruence. Qed.

Section ControlClaims.
Variable rt : Runtime.
Context {St : Type}.
Variable client : GraphClient St.

Lemma bind_param_control parameterDefinitions b key v :
  string_in key controlParams = true ->
  bind_param rt parameterDefinitions b (key, v) = b.
Proof. intros Hctl. unfold bind_param. by rewrite Hctl. Qed.

Lemma bind_params_control tool key v p1 p2 :
  string_in key controlParams = true ->
  bind_params rt tool (p1 ++ (key, v) :: p2) = bind_params rt tool (p1 ++ p2).
Proof.
  intros Hctl. unfold bind_params. rewrite !fold_left_app. cbn [fold_left].
  by rewrite bind_param_control.
Qed.

(** C10. Supplying [fetchAllPages], [includeHeaders] or [excludeResponse]
    with a value that is not the boolean [true] is the same as leaving the
    key out: the first request is the same and so is the whole run.  In
    particular such a value sets neither option and starts no
    pagination. *)
Theorem control_keys_need_boolean_true tool config key v params1 params2
    (w : World St) :
  In key ["fetchAllPages"; "includeHeaders"; "excludeResponse"] ->
  v <> JBool true ->
  ~ In key (map fst (params1 ++ params2)) ->
  let supplied := params1 ++ (key, v) :: params2 in
  let omitted := params1 ++ params2 in
  is_true (entries_get key supplied) = false /\
  build_request rt tool config supplied = build_request rt tool config omitted /\
  executeGraphTool rt client tool config supplied w =
  executeGraphTool rt client tool config omitted w /\
  (key = "includeHeaders" ->
   opt_includeHeaders (snd (build_request rt tool config supplied)) = None) /\
  (key = "excludeResponse" ->
   opt_excludeResponse (snd (build_request rt tool config supplied)) = None) /\
  (key = "fetchAllPages" ->
   exists r w' answer,
     executeGraphTool rt client tool config supplied w = (Ok r, w') /\
     trace w' =
       trace w ++
       [EvGraphRequest (fst (build_request rt tool config supplied))
          (snd (build_request rt tool config supplied)) answer] ++
       match answer with
       | inl e => [EvLog Error (toolError tool e)]
       | inr _ => []
       end).
Proof.
  intros Hkey Hv Hfresh supplied omitted.
  assert (Hctl : string_in key controlParams = true).
  { apply string_in_true. simpl in *. tauto. }
  assert (Hnot1 : ~ In key (map fst params1)).
  { intros Hin. apply Hfresh. rewrite map_app. apply in_or_app. by left. }
  assert (Hget : entries_get key supplied = Some v)
    by (by apply entries_get_supplied).
  assert (Hnone : entries_get key omitted = None)
    by (by apply entries_get_absent).
  assert (Hflag : is_true (entries_get key supplied) = false)
    by (rewrite Hget; by apply is_true_other).
  assert (Hsame : forall k,
            is_true (entries_get k supplied) = is_true (entries_get k omitted)).
  { intros k. destruct (String.eqb_spec k key) as [->|Hne].
    - by rewrite Hflag, Hnone.
    - unfold supplied, omitted. by rewrite entries_get_skip. }
  assert (Htz : entries_get "timezone" supplied =
                entries_get "timezone" omitted).
  { unfold supplied, omitted. apply entries_get_skip.
    simpl in Hkey. intros <-. destruct Hkey as [?|[?|[?|[]]]]; discriminate. }
  assert (Hreq : build_request rt tool config supplied =
                 build_request rt tool config omitted).
  { unfold build_request, timezone_headers.
    rewrite Htz, !Hsame. unfold supplied.
    by rewrite (bind_params_control _ _ _ _ _ Hctl). }
  assert (Hexec : executeGraphTool rt client tool config supplied w =
                  executeGraphTool rt client tool config omitted w).
  { unfold executeGraphTool. by rewrite Hreq, Hsame. }
  split_and!; [done..| | |].
  - intros ->. simpl. fold supplied. by rewrite Hflag.
  - intros ->. simpl. fold supplied. by rewrite Hflag.
  - intros ->.
    destruct (executeGraphTool_cases rt client tool config supplied w)
      as (answer & c1 & _ & Hcase). simpl in Hcase.
    destruct answer as [e|response].
    + eexists _, _, (inl e). split; [exact Hcase|]. reflexivity.
    + rewrite Hflag in Hcase. simpl in Hcase.
      eexists _, _, (inr response). split; [exact Hcase|]. reflexivity.
Qed.

(** ** Discovery mode *)

Lemma buildToolsRegistry_absent api_endpoints endpointsData readOnly orgMode
    (tool_name : string) :
  Forall (fun tool => tool_alias tool <> tool_name) api_endpoints ->
  buildToolsRegistry api_endpoints endpointsData readOnly orgMode
    !! tool_name = None.
Proof.
  unfold buildToolsRegistry.
  assert (Hgen : forall m : gmap string (Endpoint * option EndpointConfig),
    Forall (fun tool => tool_alias tool <> tool_name) api_endpoints ->
    fold_left
      (fun toolsMap tool =>
         let endpointConfig := find_endpointConfig endpointsData tool in
         if negb orgMode && workAccountOnly endpointConfig then toolsMap
         else if readOnly &&
                 negb (String.eqb (toUpperCase (tool_method tool)) "GET")
         then toolsMap
         else <[tool_alias tool := (tool, endpointConfig)]> toolsMap)
      api_endpoints m !! tool_name = m !! tool_name).
  { induction api_endpoints as [|tool l IH]; intros m Hall; [done|].
    inversion Hall as [|? ? Hne Hrest]; subst. simpl. rewrite IH by done.
    destruct (negb orgMode &&
              workAccountOnly (find_endpointConfig endpointsData tool));
      [done|].
    destruct (readOnly &&
              negb (String.eqb (toUpperCase (tool_method tool)) "GET"));
      [done|].
    by rewrite lookup_insert_ne. }
  intros Hall. by rewrite Hgen.
Qed.

(** C6. Dispatching a name that the registry does not hold returns the
    not-found envelope: [isError] is true, the text is the JSON of an object
    whose [error] names the operation and whose [tip] points to
    [search-tools]; the world is unchanged, so no request was made. *)
Theorem unknown_tool_not_found api_endpoints endpointsData readOnly orgMode
    tool_name parameters (w : World St) :
  buildToolsRegistry api_endpoints endpointsData readOnly orgMode
    !! tool_name = None ->
  execute_tool rt client
    (buildToolsRegistry api_endpoints endpointsData readOnly orgMode)
    tool_name parameters w = (Ok (toolNotFound rt tool_name), w) /\
  isError (toolNotFound rt tool_name) = Some true /\
  content (toolNotFound rt tool_name) =
    [TextContent
       (JSON_stringify rt
          (JObj [("error", JStr ("Tool not found: " +:+ tool_name));
                 ("tip", JStr "Use search-tools to find available tools.")]))].
Proof.
  intros Habsent. unfold execute_tool. rewrite Habsent. done.
Qed.

End ControlClaims.

(** ** The transcript workflow *)

Import CompositeTools.

Lemma append_assoc (a b c : string) : (a +:+ b) +:+ c = a +:+ b +:+ c.
Proof.
  induction a as [|x a IH]; [reflexivity|].
  change (String x ((a +:+ b) +:+ c) = String x (a +:+ b +:+ c)).
  by rewrite IH.
Qed.

Lemma append_empty_r (a : string) : a +:+ "" = a.
Proof.
  induction a as [|x a IH]; [reflexivity|].
  change (String x (a +:+ "") = String x a). by rewrite IH.
Qed.

(** A member of a joined list of texts occurs in the joined text. *)
Lemma concat_occurs (sep x : string) (l : list string) :
  In x l -> exists before after, String.concat sep l = before +:+ x +:+ after.
Proof.
  induction l as [|y l IH]; [intros []|].
  intros [->|Hin].
  - destruct l as [|z l].
    + exists "", "". cbn. by rewrite append_empty_r.
    + exists "", (sep +:+ String.concat sep (z :: l)). reflexivity.
  - destruct l as [|z l]; [destruct Hin|].
    destruct (IH Hin) as (before & after & Heq).
    exists (y +:+ sep +:+ before), after.
    change (String.concat sep (y :: z :: l))
      with (y +:+ sep +:+ String.concat sep (z :: l)).
    by rewrite Heq, !append_assoc.
Qed.

Lemma concat_lines_nonempty (sep : string) (e : value) (l : list value) :
  String.eqb (String.concat sep (map meeting_line (e :: l))) "" = false.
Proof. by destruct l. Qed.

Lemma no_match_not_null (subjectContains : string) (event : value) :
  subject_matches subjectContains event = inr false -> event <> JNull.
Proof. by intros H ->. Qed.

Lemma find_event_none (subjectContains : string) (events : list value) :
  Forall (fun event => subject_matches subjectContains event = inr false)
    events ->
  find_event subjectContains events = inr None.
Proof. induction 1 as [|e l He _ IH]; simpl; [done|]. by rewrite He. Qed.

Lemma online_meetings_filter (subjectContains : string)
    (events : list value) :
  Forall (fun event => subject_matches subjectContains event = inr false)
    events ->
  online_meetings events =
  inr (List.filter (fun e => truthy_opt (get_prop e "isOnlineMeeting")) events).
Proof.
  induction 1 as [|e l He _ IH]; simpl; [done|].
  apply no_match_not_null in He. rewrite IH.
  destruct e; try done;
    by destruct (truthy_opt _).
Qed.

Section WorkflowClaims.
Variable rt : Runtime.
Context {St : Type}.
Variable client : GraphClient St.

(** C7. The calendar query answers with events, none of which is an online
    meeting whose subject contains the search text: the workflow stops
    after that one request with a failure envelope, and every event of the
    day whose [isOnlineMeeting] is truthy has its line, subject and start
    time, in the text. *)
Theorem no_subject_match_lists_online_meetings params (w : World St)
    calendarData c1 events :
  makeRequest client (calendarPath rt params) (calendarOptions params)
    (client_state w) = (inr calendarData, c1) ->
  get_prop calendarData "value" = Some (JArr events) ->
  events <> [] ->
  Forall (fun event =>
            subject_matches (subjectContains params) event = inr false)
    events ->
  let meetings :=
    List.filter (fun e => truthy_opt (get_prop e "isOnlineMeeting")) events in
  let text := noMatchText (subjectContains params) (date params) meetings in
  getTranscriptByMeeting rt client params w =
    (Ok (failure text),
     {| client_state := c1;
        trace := trace w ++
                 [EvMakeRequest (calendarPath rt params)
                    (calendarOptions params) (inr calendarData)] |}) /\
  isError (failure text) = Some true /\
  content (failure text) = [TextContent text] /\
  forall e,
    In e events ->
    truthy_opt (get_prop e "isOnlineMeeting") = true ->
    exists before after,
      text =
      before +:+
      ("- " +:+ ToString_opt (get_prop e "subject") +:+ " (" +:+
       ToString_opt (get_opt (get_prop e "start") "dateTime") +:+ ")") +:+
      after.
Proof.
  intros Hreq Hvalue Hsome Hnone meetings text.
  split_and!; [|done..|].
  - unfold getTranscriptByMeeting, attempt. unfold_m. rewrite Hreq.
    assert (Hread : read_prop calendarData "value" = inr (Some (JArr events))).
    { unfold read_prop, GraphTools.read_prop.
      destruct calendarData; try done; by rewrite Hvalue. }
    assert (Hlen : is_zero (get_prop (JArr events) "length") = false)
      by (by destruct events).
    cbn -[is_zero get_prop find_event online_meetings]. rewrite Hread.
    cbn -[is_zero get_prop find_event online_meetings]. rewrite Hlen.
    rewrite (find_event_none _ _ Hnone).
    cbn -[is_zero get_prop find_event online_meetings].
    rewrite (online_meetings_filter _ _ Hnone). reflexivity.
  - intros e Hin Honline.
    assert (Hmem : In e meetings).
    { apply List.filter_In. by split. }
    destruct meetings as [|m ms] eqn:Hms; [destruct Hmem|].
    unfold text, noMatchText. rewrite concat_lines_nonempty.
    destruct (concat_occurs newline (meeting_line e)
                (map meeting_line (m :: ms))) as (before & after & Heq).
    { by apply in_map. }
    rewrite Heq.
    exists (noMatchHeader (subjectContains params) (date params) +:+ before),
      after.
    by rewrite append_assoc.
Qed.

End WorkflowClaims.

(** ** The properties at work on concrete runs *)

Import Fixtures.

(** Replaces a run of the model on closed inputs by its value. *)
Ltac run_in H :=
  match type of H with
  | ?run = _ =>
      let v := eval vm_compute in run in
      let Hrun := fresh "Hrun" in
      assert (Hrun : run = v) by (vm_compute; reflexivity);
      rewrite Hrun in H; clear Hrun
  end.

(** Three pages, the third of which is not JSON: the second page was
    fetched and merged, yet the payload is the first page as it came, and
    the item of the second page is nowhere in it. *)
Lemma broken_third_page_drops_second :
  fst (executeGraphTool rt0 scripted listMessages None fetchAll
         brokenThirdPage) = Ok (toResult (page_response page1)) /\
  pages_of rt0
    (trace (snd (executeGraphTool rt0 scripted listMessages None fetchAll
                   brokenThirdPage))) = [page1; page2] /\
  aggregate_spec page1 [page2] =
    JObj [("@odata.count", JNum 2); ("value", JArr [JStr "a"; JStr "b"])] /\
  includes (stringify page1) (stringify (JStr "b")) = false /\
  toResult (page_response page1) <>
  toResult (set_first_text (page_response page1)
              (stringify (aggregate_spec page1 [page2]))).
Proof. vm_compute. split_and!; [reflexivity..|discriminate]. Qed.

Lemma failed_page_witness :
  fst (executeGraphTool rt0 scripted listMessages None fetchAll
         brokenThirdPage) = Ok (toResult (page_response page1)).
Proof.
  destruct (failed_page_returns_first_response rt0 scripted listMessages None
              fetchAll brokenThirdPage)
    as (r & w' & answer & rest & Hexec & Htr & Hfail).
  rewrite Hexec. simpl. f_equal.
  run_in Hexec. injection Hexec as <- <-.
  simpl in Htr. injection Htr as <- <-.
  destruct Hfail as (response & e & rest' & Hans & Hr & _).
  - cbn [graph_requests List.filter is_request].
    apply Exists_cons_tl, Exists_cons_hd. reflexivity.
  - injection Hans as <-. exact Hr.
Defined.

(** Three pages, all well: the payload is the first page with the items of
    all three, the count rewritten and the cursor gone. *)
Lemma completed_aggregation_witness :
  fst (executeGraphTool rt0 scripted listMessages None fetchAll threePages) =
  Ok (toResult
        (page_response
           (JObj [("@odata.count", JNum 3);
                  ("value", JArr [JStr "a"; JStr "b"; JStr "c"])]))).
Proof.
  destruct (completed_aggregation_text rt0 scripted listMessages None
              fetchAll threePages)
    as (r & w' & answer & rest & Hexec & Htr & Hall).
  rewrite Hexec. simpl. f_equal.
  run_in Hexec. injection Hexec as <- <-.
  simpl in Htr. injection Htr as <- <-.
  apply (Hall (page_response page1) (stringify page1)
           [("@odata.count", JNum 3); ("value", JArr [JStr "a"]);
            ("@odata.nextLink", JStr cursor2)] [JStr "a"]);
    try reflexivity.
  repeat constructor.
Defined.

(** The page whose count is zero: the count is left as it is, where the
    specification's aggregate has the number of items. *)
Lemma zero_count_not_rewritten :
  fst (executeGraphTool rt0 scripted listMessages None fetchAll
         zeroCountPage) = Ok (toResult (page_response zeroCount)) /\
  aggregate_spec zeroCount [] =
    JObj [("@odata.count", JNum 1); ("value", JArr [JStr "a"])] /\
  toResult (page_response zeroCount) <>
  toResult (page_response (aggregate_spec zeroCount [])).
Proof. vm_compute. split_and!; [reflexivity..|discriminate]. Qed.

(** Pages without end: 99 follow-up requests, then the warning. *)
Lemma cap_reached_witness :
  exists r w',
    executeGraphTool rt0 scripted listMessages None fetchAll endlessPages =
      (Ok r, w') /\
    length (graph_requests (trace w')) = 100%nat /\
    List.last (trace w') (EvLog Error "") = EvLog Warn maxPageWarning.
Proof.
  destruct (pagination_terminates_within_cap rt0 scripted listMessages None
              fetchAll endlessPages)
    as ((r & w' & answer & rest & Hexec & Htr & Hlen & Hwarn & _) & _ & _).
  exists r, w'. split; [exact Hexec|].
  run_in Hexec. injection Hexec as <- <-.
  vm_compute. split; reflexivity.
Defined.



(** [Select] and [$Select] go out under the key [$select]. *)
Lemma odata_marker_witness :
  build_request rt0 Samples.listUsers None
    [("$Select", JStr "id"); ("fetchAllPages", JBool false)] =
  build_request rt0 Samples.listUsers None
    [("Select", JStr "id"); ("fetchAllPages", JBool false)] /\
  b_queryParams
    (bind_param rt0 (parameterDefinitions_of Samples.listUsers)
       (bind_params rt0 Samples.listUsers []) ("Select", JStr "id")) =
  [("$select", "id")] /\
  fst (build_request rt0 Samples.listUsers None
         [("Select", JStr "id"); ("fetchAllPages", JBool false)]) =
  "/users?%24select=id".
Proof.
  destruct (odata_marker_yields_same_key rt0 scripted Samples.listUsers None
              "Select" (JStr "id"))
    as (_ & _ & _ & _ & Hbind & Hsame).
  - reflexivity.
  - repeat constructor; discriminate.
  - split_and!.
    + apply (Hsame (or_introl eq_refl) [] [("fetchAllPages", JBool false)]
               threePages).
    + exact (f_equal b_queryParams
               (Hbind "Select" (bind_params rt0 Samples.listUsers [])
                  (or_introl eq_refl) eq_refl)).
    + reflexivity.
Defined.

(** A definition that keeps the marker is found by [$top] only, and a name
    written with a capital is recognised but finds no definition named in
    small letters: it is left out of the request. *)
Lemma marker_changes_request :
  string_in (toLowerCase "top") odataParams = true /\
  fst (build_request rt0 Samples.listEvents None [("top", JNum 5)]) =
    "/me/events" /\
  fst (build_request rt0 Samples.listEvents None [("$top", JNum 5)]) =
    "/me/events?%24top=5" /\
  string_in (toLowerCase "Top") odataParams = true /\
  fst (build_request rt0 listMessages None [("Top", JNum 5)]) =
    "/me/messages" /\
  fst (build_request rt0 listMessages None [("$Top", JNum 5)]) =
    "/me/messages" /\
  fst (build_request rt0 listMessages None [("top", JNum 5)]) =
    "/me/messages?%24top=5".
Proof. vm_compute. by split_and!. Qed.

(** A chat message passed without its enclosing object, and before the
    parameter of the path, is wrapped. *)
Lemma body_autocorrection_witness :
  b_body (bind_params rt0 sendChatMessage
            [("body", messageContent); ("chatId", JStr "19:abc")]) =
    JObj [("body", messageContent)] /\
  build_request rt0 sendChatMessage None
    [("body", messageContent); ("chatId", JStr "19:abc")] =
  ("/chats/19%3Aabc/messages",
   {| opt_method := "POST";
      opt_headers := [];
      opt_body := Some (stringify (JObj [("body", messageContent)]));
      opt_rawResponse := None;
      opt_includeHeaders := None;
      opt_excludeResponse := None;
      opt_queryParams := None |}).
Proof.
  destruct (body_autocorrection rt0 sendChatMessage None []
              [("chatId", JStr "19:abc")] "body" messageContent bodyParam
              hasBodyMember eq_refl eq_refl eq_refl eq_refl eq_refl)
    as [Hwrapped _].
  - repeat constructor.
  - destruct (Hwrapped eq_refl) as [Hbody Hrequest].
    split; [exact Hbody|]. reflexivity.
Defined.

(** A reply whose body is the number 0, which fails the schema as it is
    and wrapped: the binder keeps the 0, and the request goes out without
    a body.  The text ["Thanks"] fails likewise and goes out as it is. *)
Lemma falsy_raw_body_not_sent :
  Samples.hasCommentMember (JNum 0) = false /\
  Samples.hasCommentMember (wrapped "body" (JNum 0)) = false /\
  b_body (bind_params rt0 Samples.replyMailMessage
            [("messageId", JStr "m1"); ("body", JNum 0)]) = JNum 0 /\
  build_request rt0 Samples.replyMailMessage None
    [("messageId", JStr "m1"); ("body", JNum 0)] =
  ("/me/messages/m1/reply",
   {| opt_method := "POST";
      opt_headers := [];
      opt_body := None;
      opt_rawResponse := None;
      opt_includeHeaders := None;
      opt_excludeResponse := None;
      opt_queryParams := None |}) /\
  opt_body (snd (build_request rt0 Samples.replyMailMessage None
                   [("messageId", JStr "m1"); ("body", JStr "Thanks")])) =
  Some "Thanks".
Proof. vm_compute. by split_and!. Qed.

(** An operation the registry does not hold. *)
Lemma unknown_tool_witness :
  execute_tool rt0 scripted
    (buildToolsRegistry [listMessages; sendChatMessage] [] false false)
    "delete-everything" None threePages =
  (Ok (toolNotFound rt0 "delete-everything"), threePages).
Proof.
  apply (unknown_tool_not_found rt0 scripted).
  apply buildToolsRegistry_absent. repeat constructor; discriminate.
Defined.

(** Two online meetings and a search text that matches neither: both are
    listed. *)
Lemma no_subject_match_witness :
  fst (CompositeTools.getTranscriptByMeeting rt0 scripted searchNonexistent
         calendarAnswer) =
  Ok (CompositeTools.failure
        (CompositeTools.noMatchHeader "nonexistent" "2026-01-16" +:+
         "- Q1 Planning Sync (2026-01-16T10:00:00)" +:+
         CompositeTools.newline +:+
         "- Standup (2026-01-16T09:00:00)")).
Proof.
  destruct (no_subject_match_lists_online_meetings rt0 scripted
              searchNonexistent calendarAnswer calendarDay
              {| graph_answers := []; make_answers := [] |}
              [planning; standup] eq_refl eq_refl)
    as (Hrun & _).
  - discriminate.
  - repeat constructor.
  - rewrite Hrun. reflexivity.
Defined.

(** The search text is compared with the subject in small letters, the
    accented ones included. *)
Example accented_subject_matches :
  toLowerCase ("CAF" +:+ String (ascii_of_nat 201) " SYNC") =
    Samples.cafeSearch +:+ " sync" /\
  CompositeTools.subject_matches Samples.cafeSearch Samples.cafeSync =
    inr true /\
  CompositeTools.subject_matches Samples.cafeSearch planning = inr false.
Proof. vm_compute. by split_and!. Qed.

(** The text ["true"] for [fetchAllPages] starts no pagination. *)
Lemma control_key_witness :
  executeGraphTool rt0 scripted listMessages None
    [("top", JNum 5); ("fetchAllPages", JStr "true")] threePages =
  executeGraphTool rt0 scripted listMessages None [("top", JNum 5)]
    threePages /\
  length (trace (snd (executeGraphTool rt0 scripted listMessages None
                        [("top", JNum 5); ("fetchAllPages", JStr "true")]
                        threePages))) = 1%nat.
Proof.
  destruct (control_keys_need_boolean_true rt0 scripted listMessages None
              "fetchAllPages" (JStr "true") [("top", JNum 5)] [] threePages)
    as (_ & _ & Hsame & _).
  - simpl. tauto.
  - discriminate.
  - simpl. intros [H|[]]. discriminate.
  - split; [exact Hsame|]. reflexivity.
Defined.

(** * Further properties of the code *)

Import Observe.

(** ** Entry lists *)

Lemma entries_get_set_same {A} (k : string) (v : A) (l : list (string * A)) :
  entries_get k (entries_set k v l) = Some v.
Proof.
  induction l as [|[k' v'] l IH]; simpl.
  - by rewrite String.eqb_refl.
  - destruct (String.eqb_spec k k') as [->|Hne]; simpl.
    + by rewrite String.eqb_refl.
    + destruct (String.eqb_spec k k'); [done|]. exact IH.
Qed.

Lemma entries_get_set_other {A} (k k' : string) (v : A)
    (l : list (string * A)) :
  k <> k' -> entries_get k (entries_set k' v l) = entries_get k l.
Proof.
  intros Hne. induction l as [|[k0 v0] l IH]; simpl.
  - by destruct (String.eqb_spec k k').
  - destruct (String.eqb_spec k' k0) as [->|Hne0]; simpl.
    + by destruct (String.eqb_spec k k0).
    + destruct (String.eqb_spec k k0); [done|]. exact IH.
Qed.

Lemma entries_set_keys {A} (k : string) (v : A) (l : list (string * A)) :
  map fst (entries_set k v l) =
  match entries_get k l with
  | Some _ => map fst l
  | None => map fst l ++ [k]
  end.
Proof.
  induction l as [|[k' v'] l IH]; simpl; [done|].
  destruct (String.eqb_spec k k') as [->|Hne]; simpl; [done|].
  rewrite IH. by destruct (entries_get k l).
Qed.

Lemma entries_get_in {A} (k : string) (l : list (string * A)) :
  entries_get k l = None <-> ~ In k (map fst l).
Proof.
  induction l as [|[k' v'] l IH]; simpl; [tauto|].
  destruct (String.eqb_spec k k') as [->|Hne].
  - split; [discriminate|tauto].
  - rewrite IH. split; [intros H [?|?]; [congruence|tauto] | tauto].
Qed.

Lemma entries_set_NoDup {A} (k : string) (v : A) (l : list (string * A)) :
  NoDup (map fst l) -> NoDup (map fst (entries_set k v l)).
Proof.
  intros Hl. rewrite entries_set_keys.
  destruct (entries_get k l) eqn:Hget; [done|].
  apply entries_get_in in Hget.
  apply NoDup_app. split_and!; [done| |apply NoDup_singleton].
  intros x Hx Hk. apply list_elem_of_singleton in Hk. subst.
  apply Hget. by apply list_elem_of_In.
Qed.

Lemma entries_get_delete_same {A} (k : string) (l : list (string * A)) :
  entries_get k (entries_delete k l) = None.
Proof.
  unfold entries_delete. induction l as [|[k' v'] l IH]; simpl; [done|].
  destruct (String.eqb_spec k k') as [->|Hne]; simpl; [done|].
  by destruct (String.eqb_spec k k').
Qed.

Lemma entries_get_delete_other {A} (k k' : string) (l : list (string * A)) :
  k <> k' -> entries_get k (entries_delete k' l) = entries_get k l.
Proof.
  intros Hne. unfold entries_delete.
  induction l as [|[k0 v0] l IH]; simpl; [done|].
  destruct (String.eqb_spec k' k0) as [->|Hne0]; simpl.
  - by destruct (String.eqb_spec k k0).
  - by rewrite IH.
Qed.

(** ** The binder and the first request *)

Section RequestFacts.
Variable rt : Runtime.

Lemma bind_params_plain tool (params : list (string * value)) :
  bind_params rt tool params =
  bind_params rt tool (List.filter not_control params).
Proof.
  unfold bind_params.
  generalize ({| b_path := tool_path tool; b_queryParams := [];
                 b_headers := []; b_body := JNull |}).
  induction params as [|[k v] params IH]; intros b; [done|].
  cbn [fold_left List.filter]. unfold not_control at 1. cbn [fst].
  destruct (string_in k controlParams) eqn:Hk; cbn [negb].
  - rewrite bind_param_control by done. apply IH.
  - cbn [fold_left]. apply IH.
Qed.

(** X1.  The four control keys never take part in the binding, whatever
    their values and whatever parameters the endpoint declares: the path,
    the query string, the method, the body and the raw-response choice of
    the first request are those of the call without them. *)
Theorem control_keys_never_bound tool config
    (params : list (string * value)) :
  let plain := List.filter not_control params in
  bind_params rt tool params = bind_params rt tool plain /\
  fst (build_request rt tool config params) =
  fst (build_request rt tool config plain) /\
  opt_method (snd (build_request rt tool config params)) =
  opt_method (snd (build_request rt tool config plain)) /\
  opt_body (snd (build_request rt tool config params)) =
  opt_body (snd (build_request rt tool config plain)) /\
  opt_rawResponse (snd (build_request rt tool config params)) =
  opt_rawResponse (snd (build_request rt tool config plain)).
Proof.
  intros plain. pose proof (bind_params_plain tool params) as Hb.
  fold plain in Hb. unfold build_request. cbn [fst snd opt_method opt_body
    opt_rawResponse]. rewrite Hb. done.
Qed.

Lemma bind_param_keys parameterDefinitions b entry :
  NoDup (map fst (b_queryParams b)) ->
  NoDup (map fst (b_headers b)) ->
  NoDup (map fst (b_queryParams (bind_param rt parameterDefinitions b entry)))
  /\
  NoDup (map fst (b_headers (bind_param rt parameterDefinitions b entry))).
Proof.
  intros Hq Hh. destruct entry as [paramName paramValue]. unfold bind_param.
  destruct (string_in paramName controlParams); [done|].
  destruct (find_paramDef parameterDefinitions paramName) as [paramDef|].
  - destruct (def_type paramDef); cbn [b_queryParams b_headers];
      split; try done; by apply entries_set_NoDup.
  - by destruct (String.eqb paramName "body").
Qed.

Lemma bind_params_keys tool (params : list (string * value)) :
  NoDup (map fst (b_queryParams (bind_params rt tool params))) /\
  NoDup (map fst (b_headers (bind_params rt tool params))).
Proof.
  induction params as [|entry params IH] using rev_ind.
  - split; constructor.
  - rewrite bind_params_snoc. destruct IH. by apply bind_param_keys.
Qed.

(** X2.  Query parameters are keyed by their corrected name.  The query of a
    call never carries a name twice, and a value bound later under the same
    corrected name (as [top] after [$top]) replaces the earlier one in
    place: the query then holds the later value and has as many entries as
    before. *)
Theorem later_query_value_replaces tool (ps : list (string * value))
    (n : string) (v : value) (paramDef : ParameterDefinition) :
  string_in n controlParams = false ->
  find_paramDef (parameterDefinitions_of tool) n = Some paramDef ->
  def_type paramDef = Query ->
  let before := b_queryParams (bind_params rt tool ps) in
  let after := b_queryParams (bind_params rt tool (ps ++ [(n, v)])) in
  NoDup (map fst after) /\
  entries_get (fixedParamName n) after = Some (ToString v) /\
  (forall k, k <> fixedParamName n ->
     entries_get k after = entries_get k before) /\
  (entries_get (fixedParamName n) before <> None ->
   map fst after = map fst before).
Proof.
  intros Hctl Hdef Htype before after.
  assert (Hafter : after = entries_set (fixedParamName n) (ToString v) before).
  { unfold after, before. rewrite bind_params_snoc. unfold bind_param.
    by rewrite Hctl, Hdef, Htype. }
  split_and!.
  - apply bind_params_keys.
  - rewrite Hafter. apply entries_get_set_same.
  - intros k Hk. rewrite Hafter. by apply entries_get_set_other.
  - intros Hsome. rewrite Hafter, entries_set_keys.
    by destruct (entries_get (fixedParamName n) before).
Qed.

Lemma bind_params_without key (params : list (string * value)) tool :
  string_in key controlParams = true ->
  bind_params rt tool (entries_delete key params) = bind_params rt tool params.
Proof.
  intros Hctl. rewrite (bind_params_plain tool params),
    (bind_params_plain tool (entries_delete key params)). f_equal.
  unfold entries_delete.
  induction params as [|[k v] params IH]; [done|]. cbn [List.filter fst].
  destruct (String.eqb_spec key k) as [<-|Hne]; cbn [negb].
  - unfold not_control at 2. cbn [fst]. rewrite Hctl. cbn [negb]. exact IH.
  - cbn [List.filter]. rewrite IH. done.
Qed.

(** X3.  The [timezone] key acts only on an endpoint whose configuration has
    [supportsTimezone].  Elsewhere a call with it builds the very request of
    the call without it.  Where it is supported and truthy, the request
    carries [Prefer: outlook.timezone="<value>"], which replaces a [Prefer]
    header bound from a parameter. *)
Theorem timezone_needs_endpoint_support tool config
    (params : list (string * value)) :
  (config_flag config cfg_supportsTimezone = false ->
   build_request rt tool config params =
   build_request rt tool config (entries_delete "timezone" params)) /\
  (config_flag config cfg_supportsTimezone = true ->
   truthy_opt (entries_get "timezone" params) = true ->
   entries_get "Prefer"
     (opt_headers (snd (build_request rt tool config params))) =
   Some ("outlook.timezone=" +:+ dquote +:+
         ToString_opt (entries_get "timezone" params) +:+ dquote)).
Proof.
  split.
  - intros Hflag. unfold build_request, timezone_headers.
    rewrite Hflag. cbn [andb].
    rewrite (bind_params_without "timezone") by done.
    by rewrite !(entries_get_delete_other _ "timezone") by done.
  - intros Hflag Htz. unfold build_request, timezone_headers.
    cbn [snd opt_headers]. rewrite Hflag, Htz. cbn [andb].
    unfold accept_headers. destruct config as [c|]; [|apply entries_get_set_same].
    destruct (cfg_acceptHeader c) as [a|]; [|apply entries_get_set_same].
    destruct (String.eqb a ""); [apply entries_get_set_same|].
    rewrite entries_get_set_other by done. apply entries_get_set_same.
Qed.

Lemma length_append (a b : string) :
  String.length (a +:+ b) = (String.length a + String.length b)%nat.
Proof.
  induction a as [|c a IH]; [done|].
  change (String c a +:+ b) with (String c (a +:+ b)). simpl. by rewrite IH.
Qed.

Lemma take_string_append (a b : string) :
  take_string (String.length a) (a +:+ b) = a.
Proof.
  induction a as [|c a IH]; [by destruct b|].
  change (String c a +:+ b) with (String c (a +:+ b)). simpl. by rewrite IH.
Qed.

Lemma endsWith_append (a suf : string) : endsWith (a +:+ suf) suf = true.
Proof.
  unfold endsWith. rewrite length_append.
  replace (String.length a + String.length suf - String.length suf)%nat
    with (String.length a) by lia.
  rewrite drop_string_append, String.eqb_refl, andb_true_r.
  apply Nat.leb_le. lia.
Qed.

Lemma strip_suffix_append (a suf : string) : strip_suffix suf (a +:+ suf) = a.
Proof.
  unfold strip_suffix. rewrite endsWith_append, length_append.
  replace (String.length a + String.length suf - String.length suf)%nat
    with (String.length a) by lia.
  apply take_string_append.
Qed.

(** X4.  A request whose path (with its query string) ends in [/content]
    goes one of two ways.  With [returnDownloadUrl] in the endpoint's
    configuration the suffix is removed and the raw response is not asked
    for; otherwise the path is kept and the raw response is asked for. *)
Theorem content_path_download_or_raw tool config
    (params : list (string * value)) (p : string) :
  path_with_query rt (b_path (bind_params rt tool params))
    (b_queryParams (bind_params rt tool params)) = p +:+ "/content" ->
  if config_flag config cfg_returnDownloadUrl
  then fst (build_request rt tool config params) = p /\
       opt_rawResponse (snd (build_request rt tool config params)) = None
  else fst (build_request rt tool config params) = p +:+ "/content" /\
       opt_rawResponse (snd (build_request rt tool config params)) = Some true.
Proof.
  intros Hpath. unfold build_request. cbn [fst snd opt_rawResponse].
  rewrite Hpath. unfold isProbablyMediaContent.
  rewrite endsWith_append, orb_true_r, andb_true_r.
  destruct (config_flag config cfg_returnDownloadUrl); cbn [negb andb].
  - by rewrite strip_suffix_append.
  - done.
Qed.

End RequestFacts.

(** ** The executor *)

Section ExecutorFacts.
Variable rt : Runtime.
Context {St : Type}.
Variable client : GraphClient St.

(** X5.  When the client throws on the first request, the call still
    returns: the failure envelope with [isError] set and the JSON text
    [{"error": "Error in tool <alias>: <message>"}].  One request was made,
    the failure was logged once, and nothing else happened, whether or not
    pagination was asked for. *)
Theorem first_request_failure_is_reported tool config
    (params : list (string * value)) (w : World St) (e : exn) (c1 : St) :
  graphRequest client (fst (build_request rt tool config params))
    (snd (build_request rt tool config params)) (client_state w) =
    (inl e, c1) ->
  executeGraphTool rt client tool config params w =
    (Ok (errorResult rt tool e),
     {| client_state := c1;
        trace := trace w ++
          [EvGraphRequest (fst (build_request rt tool config params))
             (snd (build_request rt tool config params)) (inl e);
           EvLog Error (toolError tool e)] |}) /\
  isError (errorResult rt tool e) = Some true /\
  content (errorResult rt tool e) =
    [TextContent
       (JSON_stringify rt
          (JObj [("error",
                  JStr ("Error in tool " +:+ tool_alias tool +:+ ": " +:+
                        exn_message e))]))].
Proof.
  intros Hans.
  destruct (executeGraphTool_cases rt client tool config params w)
    as (answer & c & Hans' & Hcase).
  rewrite Hans in Hans'. simplify_eq. simpl in Hcase. done.
Qed.

(** X6.  When the first request is answered, the result keeps the envelope
    of that answer on every path, pagination or not: the same [_meta], the
    same [isError], as many blocks, and every block after the first
    unchanged.  If the answer has no first block, or its text is empty, no
    follow-up request is made even with [fetchAllPages], and the result is
    the answer as it came. *)
Theorem executor_keeps_envelope tool config
    (params : list (string * value)) (w : World St)
    (response : McpResponse) (c1 : St) :
  graphRequest client (fst (build_request rt tool config params))
    (snd (build_request rt tool config params)) (client_state w) =
    (inr response, c1) ->
  exists r w' rest,
    executeGraphTool rt client tool config params w = (Ok r, w') /\
    trace w' =
      trace w ++
      EvGraphRequest (fst (build_request rt tool config params))
        (snd (build_request rt tool config params)) (inr response) :: rest /\
    _meta r = mcp_meta response /\
    isError r = mcp_isError response /\
    length (content r) = length (mcp_content response) /\
    tl (content r) = tl (content (toResult response)) /\
    (has_text response = false -> r = toResult response /\ rest = []).
Proof.
  intros Hans.
  destruct (executeGraphTool_cases rt client tool config params w)
    as (answer & c & Hans' & Hcase).
  rewrite Hans in Hans'. simplify_eq.
  set (path := fst (build_request rt tool config params)) in *.
  set (options := snd (build_request rt tool config params)) in *.
  simpl in Hcase.
  assert (Hset : forall t,
    _meta (toResult (set_first_text response t)) = mcp_meta response /\
    isError (toResult (set_first_text response t)) = mcp_isError response /\
    length (content (toResult (set_first_text response t))) =
      length (mcp_content response) /\
    tl (content (toResult (set_first_text response t))) =
      tl (content (toResult response))).
  { intros t. unfold set_first_text.
    destruct (mcp_content response) as [|item items] eqn:Hc; simpl;
      rewrite ?Hc, ?length_map; simpl; auto. }
  assert (Hsame :
    _meta (toResult response) = mcp_meta response /\
    isError (toResult response) = mcp_isError response /\
    length (content (toResult response)) = length (mcp_content response) /\
    tl (content (toResult response)) = tl (content (toResult response))).
  { simpl. by rewrite length_map. }
  destruct (is_true (entries_get "fetchAllPages" params) && has_text response)
    eqn:Hflag.
  2:{ eexists _, _, []. split; [exact Hcase|]. simpl.
      destruct Hsame as (? & ? & ? & ?). split_and!; auto. }
  apply andb_true_iff in Hflag as [_ Hhas].
  destruct Hcase as (text & Htext & Hne & Hcase).
  set (w1 := {| client_state := c;
                trace := trace w ++
                  [EvGraphRequest path options (inr response)] |}) in *.
  destruct (aggregate_run rt client options response text w1)
    as (ra & wa & evs & Hagg & Htr & _ & _ & _ & _ & _ & Hok).
  rewrite Hagg in Hcase. simpl in Htr. rewrite <- app_assoc in Htr.
  simpl in Htr.
  destruct ra as [resp'|e|]; [| |done].
  - destruct (Hok resp' eq_refl) as (_ & _ & t & ->).
    eexists _, wa, evs. split; [exact Hcase|].
    destruct (Hset t) as (? & ? & ? & ?).
    split_and!; auto. intros Hno. congruence.
  - eexists _, _, (evs ++ [EvLog Error (paginationError e)]).
    split; [exact Hcase|]. simpl. rewrite Htr, <- app_assoc. simpl.
    destruct Hsame as (? & ? & ? & ?).
    split_and!; auto. intros Hno. congruence.
Qed.

(** X7.  The first page as it is written back after the loop, read member by
    member: [value] holds the accumulated items, [@odata.nextLink] is gone,
    [@odata.count] holds the number of items when its old value was truthy
    and is left alone otherwise, and every other member is as the first page
    had it. *)
Theorem rewritten_page_members (response : McpResponse)
    (fields : list (string * value)) (st : PageState) (l : list value)
    (w : World St) :
  allItems st = JArr l ->
  exists members,
    fst (finishPagination rt response (JObj fields) st w) =
      Ok (set_first_text response (JSON_stringify rt (JObj members))) /\
    entries_get "value" members = Some (JArr l) /\
    entries_get "@odata.nextLink" members = None /\
    entries_get "@odata.count" members =
      (if truthy_opt (entries_get "@odata.count" fields)
       then Some (JNum (Z.of_nat (length l)))
       else entries_get "@odata.count" fields) /\
    (forall k, k <> "value" -> k <> "@odata.count" ->
               k <> "@odata.nextLink" ->
       entries_get k members = entries_get k fields).
Proof.
  intros Hl. eexists. split; [by apply finishPagination_object|].
  cbn zeta.
  rewrite (entries_get_set_other "@odata.count" "value") by done.
  destruct (truthy_opt (entries_get "@odata.count" fields)) eqn:Hcount.
  - split_and!.
    + rewrite entries_get_delete_other, entries_get_set_other by done.
      apply entries_get_set_same.
    + apply entries_get_delete_same.
    + rewrite entries_get_delete_other by done. apply entries_get_set_same.
    + intros k H1 H2 H3.
      by rewrite entries_get_delete_other, !entries_get_set_other by done.
  - split_and!.
    + rewrite entries_get_delete_other by done. apply entries_get_set_same.
    + apply entries_get_delete_same.
    + by rewrite entries_get_delete_other, entries_get_set_other by done.
    + intros k H1 H2 H3.
      by rewrite entries_get_delete_other, entries_get_set_other by done.
Qed.

Lemma bind_params_undeclared tool key v p1 p2 :
  string_in key controlParams = false ->
  key <> "body" ->
  find_paramDef (parameterDefinitions_of tool) key = None ->
  bind_params rt tool (p1 ++ (key, v) :: p2) = bind_params rt tool (p1 ++ p2).
Proof.
  intros Hctl Hbody Hdef. unfold bind_params. rewrite !fold_left_app.
  cbn [fold_left]. f_equal.
  generalize (fold_left (bind_param rt (parameterDefinitions_of tool)) p1
                {| b_path := tool_path tool; b_queryParams := [];
                   b_headers := []; b_body := JNull |}).
  intros b. unfold bind_param. rewrite Hctl, Hdef.
  by destruct (String.eqb_spec key "body").
Qed.

(** X28.  A parameter that the endpoint does not declare is dropped without
    a word, unless its name is [body]: the call builds the same first
    request and runs the same way as the call without it. *)
Theorem undeclared_parameters_are_dropped tool config (key : string)
    (v : value) (params1 params2 : list (string * value)) (w : World St) :
  string_in key controlParams = false ->
  key <> "body" ->
  find_paramDef (parameterDefinitions_of tool) key = None ->
  build_request rt tool config (params1 ++ (key, v) :: params2) =
  build_request rt tool config (params1 ++ params2) /\
  executeGraphTool rt client tool config (params1 ++ (key, v) :: params2) w =
  executeGraphTool rt client tool config (params1 ++ params2) w.
Proof.
  intros Hctl Hbody Hdef.
  assert (Hget : forall k, string_in k controlParams = true ->
            entries_get k (params1 ++ (key, v) :: params2) =
            entries_get k (params1 ++ params2)).
  { intros k Hk. apply entries_get_skip. intros ->. congruence. }
  assert (Hreq : build_request rt tool config (params1 ++ (key, v) :: params2)
                 = build_request rt tool config (params1 ++ params2)).
  { unfold build_request, timezone_headers.
    rewrite (bind_params_undeclared _ _ _ _ _ Hctl Hbody Hdef).
    by rewrite !Hget by done. }
  split; [exact Hreq|].
  unfold executeGraphTool. by rewrite Hreq, Hget by done.
Qed.

End ExecutorFacts.

(** ** The registry of discovery mode *)

Lemma buildToolsRegistry_snoc api_endpoints endpointsData readOnly orgMode
    (tool : Endpoint) :
  buildToolsRegistry (api_endpoints ++ [tool]) endpointsData readOnly orgMode =
  let registry :=
    buildToolsRegistry api_endpoints endpointsData readOnly orgMode in
  if admitted endpointsData readOnly orgMode tool
  then <[tool_alias tool := (tool, find_endpointConfig endpointsData tool)]>
         registry
  else registry.
Proof.
  unfold buildToolsRegistry, admitted. rewrite fold_left_app. cbn [fold_left].
  cbv zeta.
  destruct (negb orgMode &&
            workAccountOnly (find_endpointConfig endpointsData tool));
    [done|].
  by destruct (readOnly &&
               negb (String.eqb (toUpperCase (tool_method tool)) "GET")).
Qed.

(** An entry of the registry is an endpoint that passed the two tests. *)
Lemma registry_entry_admitted api_endpoints endpointsData readOnly orgMode
    tool_name tool config :
  buildToolsRegistry api_endpoints endpointsData readOnly orgMode
    !! tool_name = Some (tool, config) ->
  In tool api_endpoints /\ tool_alias tool = tool_name /\
  config = find_endpointConfig endpointsData tool /\
  admitted endpointsData readOnly orgMode tool = true.
Proof.
  induction api_endpoints as [|last api IH] using rev_ind; [done|].
  rewrite buildToolsRegistry_snoc. cbv zeta.
  assert (Hold :
    (buildToolsRegistry api endpointsData readOnly orgMode !! tool_name =
       Some (tool, config)) ->
    In tool (api ++ [last]) /\ tool_alias tool = tool_name /\
    config = find_endpointConfig endpointsData tool /\
    admitted endpointsData readOnly orgMode tool = true).
  { intros H. destruct (IH H) as (? & ? & ? & ?). split_and!; auto.
    apply in_or_app. by left. }
  destruct (admitted endpointsData readOnly orgMode last) eqn:Hadm; [|done].
  destruct (String.eqb_spec (tool_alias last) tool_name) as [<-|Hne].
  - rewrite lookup_insert_eq. intros [= <- <-]. split_and!; auto.
    apply in_or_app. right. by left.
  - by rewrite lookup_insert_ne.
Qed.

(** X8.  What a lookup in the registry finds under a name: the last endpoint
    of [api.endpoints] with that alias that passed the two tests (not a
    work-account tool outside org mode, not a write operation in read-only
    mode), paired with its configuration; nothing when there is no such
    endpoint. *)
Theorem registry_lookup api_endpoints endpointsData readOnly orgMode
    (tool_name : string) :
  buildToolsRegistry api_endpoints endpointsData readOnly orgMode
    !! tool_name =
  match find (fun tool => admitted endpointsData readOnly orgMode tool &&
                          String.eqb (tool_alias tool) tool_name)
             (rev api_endpoints) with
  | Some tool => Some (tool, find_endpointConfig endpointsData tool)
  | None => None
  end.
Proof.
  induction api_endpoints as [|tool api IH] using rev_ind; [done|].
  rewrite buildToolsRegistry_snoc, rev_app_distr. cbn [rev app find]. cbv zeta.
  destruct (admitted endpointsData readOnly orgMode tool); cbn [andb].
  - destruct (String.eqb_spec (tool_alias tool) tool_name) as [<-|Hne].
    + by rewrite lookup_insert_eq.
    + by rewrite lookup_insert_ne.
  - exact IH.
Qed.

Section DispatchFacts.
Variable rt : Runtime.
Context {St : Type}.
Variable client : GraphClient St.

(** X9.  In read-only mode the [execute-tool] handler cannot write.
    Whatever name and parameters it is given, it returns, and every request
    it made on the way, the first one and the follow-ups of a pagination
    alike, is a [GET] without a body. *)
Theorem read_only_dispatch_only_reads api_endpoints endpointsData orgMode
    (tool_name : string) (parameters : option (list (string * value)))
    (w : World St) :
  exists r w' evs,
    execute_tool rt client
      (buildToolsRegistry api_endpoints endpointsData true orgMode)
      tool_name parameters w = (Ok r, w') /\
    trace w' = trace w ++ evs /\
    Forall (fun ev => sent ev = Some ("GET", None)) (graph_requests evs).
Proof.
  unfold execute_tool.
  destruct (buildToolsRegistry api_endpoints endpointsData true orgMode
              !! tool_name) as [[tool config]|] eqn:Hlook.
  2:{ eexists _, w, []. rewrite app_nil_r. split_and!; [done..|constructor]. }
  apply registry_entry_admitted in Hlook as (_ & _ & _ & Hadm).
  unfold admitted in Hadm. apply andb_true_iff in Hadm as [_ Hget].
  cbn [andb] in Hget. rewrite negb_involutive in Hget.
  apply String.eqb_eq in Hget.
  set (params := match parameters with Some p => p | None => [] end).
  destruct (executeGraphTool_run rt client tool config params w)
    as (r & w' & answer & rest & Hrun & Htr & _ & _ & _ & _ & Hchain & _).
  set (options := snd (build_request rt tool config params)) in *.
  assert (Hm : opt_method options = "GET") by (subst options; simpl; done).
  assert (Hb : opt_body options = None).
  { subst options. simpl. unfold request_body. by rewrite Hget. }
  eexists r, w', _. split_and!; [exact Hrun|exact Htr|].
  unfold graph_requests. cbn [List.filter is_request].
  fold (graph_requests rest).
  constructor; [cbn [sent]; by rewrite Hm, Hb|].
  apply cursor_chain_requests in Hchain.
  eapply List.Forall_impl; [|exact Hchain].
  intros ev (url & answer' & ->).
  cbn [sent nextOptions opt_method opt_body]. by rewrite Hm, Hb.
Qed.

End DispatchFacts.

(** ** The transcript workflow, step by step *)

Section TranscriptFacts.
Variable rt : Runtime.
Context {St : Type}.
Variable client : GraphClient St.

Lemma attempt_run path headers (w : World St) :
  attempt client path headers w =
  (Ok (match fst (makeRequest client path headers (client_state w)) with
       | inl e => inl (exn_message e)
       | inr v => inr v
       end),
   {| client_state := snd (makeRequest client path headers (client_state w));
      trace := trace w ++
        [EvMakeRequest path headers
           (fst (makeRequest client path headers (client_state w)))] |}).
Proof.
  unfold attempt, try_catch, bind, await_makeRequest, ret.
  by destruct (makeRequest client path headers (client_state w)) as [[e|v] c].
Qed.

Lemma bind_attempt {B} path headers (k : string + value -> M St B)
    (w : World St) :
  bind (attempt client path headers) k w =
  k (match fst (makeRequest client path headers (client_state w)) with
     | inl e => inl (exn_message e)
     | inr v => inr v
     end)
    {| client_state := snd (makeRequest client path headers (client_state w));
       trace := trace w ++
         [EvMakeRequest path headers
            (fst (makeRequest client path headers (client_state w)))] |}.
Proof. unfold bind. by rewrite attempt_run. Qed.

Lemma bind_lift {A B} (x : exn + A) (k : A -> M St B) (w : World St) :
  bind (lift x) k w =
  match x with
  | inl e => (Throw e, w)
  | inr a => k a w
  end.
Proof. by destruct x. Qed.

Lemma or_else_truthy (o : option value) (d : value) :
  truthy d = true -> truthy (or_else o d) = true.
Proof.
  intros Hd. destruct o as [v|]; simpl; [|done].
  by destruct (truthy v) eqn:Hv.
Qed.

Ltac trace_split :=
  let before := fresh "before" in
  let Heq := fresh "Heq" in
  intros before ? ? ? ? Heq;
  do 6 (try (destruct before as [|? before]; simplify_eq/=; try done)).

Ltac leaf_success :=
  let r := fresh "r" in
  intros r [= <-]; split; [done|]; right;
  split; [done|]; split; [done|]; split; [by repeat constructor|];
  eexists _, _, _; split; [reflexivity|]; split;
  [ by repeat apply or_else_truthy
  | unfold object_literal;
    repeat match goal with
           | |- context [get_prop ?v ?k] => destruct (get_prop v k)
           end;
    cbn [omap snd fst entries_get String.eqb Ascii.eqb Bool.eqb truthy_opt
         option_bind mbind];
    by apply or_else_truthy ].

Ltac leaf_failure :=
  let r := fresh "r" in
  intros r [= <-]; split; [done|]; left; split; [done|];
  eexists; reflexivity.

Ltac leaf_goal :=
  first
    [ done
    | by (intros ? [= <-]; repeat constructor)
    | by repeat constructor
    | simpl; lia
    | by (eexists _, _; reflexivity)
    | solve [trace_split]
    | solve [leaf_failure]
    | solve [leaf_success] ].

Ltac leaf :=
  eexists _, _, _; split; [reflexivity|]; cbn [trace client_state];
  rewrite <- ?app_assoc; split; [reflexivity|];
  split_and!; leaf_goal.

Lemma fetchTranscript_run (matchingEvent : value) (w : World St) :
  exists o w' evs,
    fetchTranscript rt client matchingEvent w = (o, w') /\
    trace w' = trace w ++ evs /\
    o <> OutOfFuel /\
    Forall (fun ev => is_make_request ev = true) evs /\
    (1 <= length evs <= 4)%nat /\
    (exists answer rest,
       evs =
       EvMakeRequest
         ("/me/events/" +:+ ToString_opt (get_prop matchingEvent "id") +:+
          "?$select=subject,onlineMeeting,onlineMeetingUrl,isOnlineMeeting")
         None answer :: rest) /\
    (forall before path headers e after,
       evs = before ++ EvMakeRequest path headers (inl e) :: after ->
       after = [] /\
       o = Ok (failure (nth (S (length before)) stepFailures "" +:+
                        exn_message e))) /\
    (forall e, o = Throw e -> Forall (fun ev => answered ev = true) evs) /\
    (forall r, o = Ok r ->
       _meta r = None /\
       (isError r = Some true /\ (exists text, content r = [TextContent text])
        \/
        isError r = None /\ length evs = 4%nat /\
        Forall (fun ev => answered ev = true) evs /\
        exists meeting transcript vtt,
          content r =
            [TextContent
               (JSON_stringify_pretty rt
                  (JObj [("meeting", JObj meeting);
                         ("transcript", JObj transcript);
                         ("content", vtt)]))] /\
          truthy vtt = true /\
          truthy_opt (entries_get "organizer" meeting) = true)).
Proof.
  unfold fetchTranscript.
  rewrite bind_attempt.
  destruct (makeRequest client _ None (client_state w)) as [[e|eventData] c1];
    cbn [fst snd]; [leaf|].
  rewrite bind_lift.
  destruct (read_prop eventData "onlineMeeting") as [e|om]; [leaf|].
  destruct (negb (truthy_opt (get_opt om "joinUrl"))); [leaf|].
  rewrite bind_attempt. cbn [client_state trace].
  destruct (makeRequest client _ None c1) as [[e|meetingsData] c2];
    cbn [fst snd]; [leaf|].
  rewrite bind_lift.
  destruct (read_prop meetingsData "value") as [e|mv]; [leaf|].
  destruct (get_opt mv "0") as [onlineMeeting|]; [|leaf].
  destruct (negb (truthy onlineMeeting)); [leaf|].
  rewrite bind_attempt. cbn [client_state trace].
  destruct (makeRequest client _ None c2) as [[e|transcriptsData] c3];
    cbn [fst snd]; [leaf|].
  rewrite bind_lift.
  destruct (read_prop transcriptsData "value") as [e|tv]; [leaf|].
  destruct (is_zero (get_prop (or_else tv (JArr [])) "length")); [leaf|].
  destruct (get_prop (or_else tv (JArr [])) "0") as [transcript|]; [|leaf].
  rewrite bind_lift.
  destruct (read_prop transcript "id") as [e|transcriptId]; [leaf|].
  rewrite bind_attempt. cbn [client_state trace].
  destruct (makeRequest client _ (Some [("Accept", "text/vtt")]) c3)
    as [[e|contentData] c4]; cbn [fst snd]; [leaf|].
  rewrite bind_lift.
  destruct (read_prop contentData "rawResponse") as [e|raw]; [leaf|].
  leaf.
Qed.


Lemma getTranscriptByMeeting_run (params : GetTranscriptParams)
    (w : World St) :
  exists r w' reqs logs,
    getTranscriptByMeeting rt client params w = (Ok r, w') /\
    trace w' = trace w ++ reqs ++ logs /\
    Forall (fun ev => is_make_request ev = true) reqs /\
    (1 <= length reqs <= 5)%nat /\
    (exists answer rest,
       reqs = EvMakeRequest (calendarPath rt params) (calendarOptions params)
                answer :: rest) /\
    (logs = [] \/
     exists msg,
       logs = [EvLog Error ("get-transcript-by-meeting error: " +:+ msg)] /\
       r = failure ("Error retrieving transcript: " +:+ msg) /\
       Forall (fun ev => answered ev = true) reqs) /\
    (forall before path headers e after,
       reqs = before ++ EvMakeRequest path headers (inl e) :: after ->
       after = [] /\ logs = [] /\
       r = failure (nth (length before) stepFailures "" +:+ exn_message e)) /\
    _meta r = None /\
    (isError r = Some true /\ (exists text, content r = [TextContent text])
     \/
     isError r = None /\ logs = [] /\ length reqs = 5%nat /\
     Forall (fun ev => answered ev = true) reqs /\
     exists meeting transcript vtt,
       content r =
         [TextContent
            (JSON_stringify_pretty rt
               (JObj [("meeting", JObj meeting);
                      ("transcript", JObj transcript);
                      ("content", vtt)]))] /\
       truthy vtt = true /\
       truthy_opt (entries_get "organizer" meeting) = true).
Proof.
  unfold getTranscriptByMeeting, try_catch.
  match goal with
  | |- context [match ?b w with _ => _ end] => set (body := b)
  end.
  assert (Hbody : exists o w' evs,
    body w = (o, w') /\
    trace w' = trace w ++ evs /\
    o <> OutOfFuel /\
    Forall (fun ev => is_make_request ev = true) evs /\
    (1 <= length evs <= 5)%nat /\
    (exists answer rest,
       evs = EvMakeRequest (calendarPath rt params) (calendarOptions params)
               answer :: rest) /\
    (forall before path headers e after,
       evs = before ++ EvMakeRequest path headers (inl e) :: after ->
       after = [] /\
       o = Ok (failure (nth (length before) stepFailures "" +:+
                        exn_message e))) /\
    (forall e, o = Throw e -> Forall (fun ev => answered ev = true) evs) /\
    (forall r, o = Ok r ->
       _meta r = None /\
       (isError r = Some true /\ (exists text, content r = [TextContent text])
        \/
        isError r = None /\ length evs = 5%nat /\
        Forall (fun ev => answered ev = true) evs /\
        exists meeting transcript vtt,
          content r =
            [TextContent
               (JSON_stringify_pretty rt
                  (JObj [("meeting", JObj meeting);
                         ("transcript", JObj transcript);
                         ("content", vtt)]))] /\
          truthy vtt = true /\
          truthy_opt (entries_get "organizer" meeting) = true))).
  { subst body. rewrite bind_attempt.
    destruct (makeRequest client _ (calendarOptions params) (client_state w))
      as [[e|calendarData] c1]; cbn [fst snd]; [leaf|].
    rewrite bind_lift.
    destruct (read_prop calendarData "value") as [e|cv]; [leaf|].
    destruct (is_zero (get_prop (or_else cv (JArr [])) "length")); [leaf|].
    destruct (or_else cv (JArr [])) as [| | | |evs|]; try leaf.
    rewrite bind_lift.
    destruct (find_event (subjectContains params) evs) as [e|[ev|]];
      [leaf| |].
    2:{ rewrite bind_lift. destruct (online_meetings evs); leaf. }
    destruct (truthy ev).
    2:{ rewrite bind_lift. destruct (online_meetings evs); leaf. }
    set (first := EvMakeRequest (calendarPath rt params)
                    (calendarOptions params) (inr calendarData)).
    set (w1 := {| client_state := c1; trace := trace w ++ [first] |}).
    destruct (fetchTranscript_run ev w1)
      as (o & w' & evs' & Hrun & Htr & Hfuel & Hmake & Hlen & _ & Hsplit &
          Hthrow & Hok).
    exists o, w', (first :: evs'). rewrite Hrun, Htr. cbn [trace w1].
    rewrite <- app_assoc. split_and!; try done.
    - by constructor.
    - simpl; lia.
    - simpl; lia.
    - by eexists _, _.
    - intros [|b before] path headers e after Heq; [discriminate|].
      injection Heq as _ Heq. by apply Hsplit in Heq.
    - intros e ->. constructor; [done|]. by eapply Hthrow.
    - intros r ->. destruct (Hok r eq_refl) as (Hmeta & [Hfail|Hsucc]).
      + split; [done|]. by left.
      + split; [done|]. right.
        destruct Hsucc as (? & Hlen4 & Hall & Hshape).
        split_and!; [done|simpl; lia|by constructor|done]. }
  destruct Hbody as (o & w' & evs & Hrun & Htr & Hfuel & Hmake & Hlen & Hhd &
                     Hsplit & Hthrow & Hok).
  rewrite Hrun. destruct o as [r|e|]; [| |done].
  - exists r, w', evs, []. rewrite app_nil_r.
    destruct (Hok r eq_refl) as (Hmeta & Hcases).
    split_and!;
      first
        [ done | lia | by left
        | by (intros before path headers e after Heq;
              destruct (Hsplit _ _ _ _ _ Heq) as [-> [= ->]])
        | by (destruct Hcases as [?|(? & ? & ? & ?)]; [left|right]) ].
  - clearbody body. unfold bind, log, emit, ret.
    eexists _, _, evs,
      [EvLog Error ("get-transcript-by-meeting error: " +:+ exn_message e)].
    split; [reflexivity|]. cbn [trace]. rewrite Htr, <- app_assoc.
    split_and!; try done; try lia.
    + right. exists (exn_message e). split_and!; [done..|]. by eapply Hthrow.
    + intros before path headers e' after Heq.
      by destruct (Hsplit _ _ _ _ _ Heq) as [_ [=]].
    + left. split; [done|]. by eexists.
Qed.

Lemma make_requests_all (evs : list event) :
  Forall (fun ev => is_make_request ev = true) evs -> make_requests evs = evs.
Proof.
  unfold make_requests. induction 1 as [|ev evs Hev _ IH]; simpl; [done|].
  by rewrite Hev, IH.
Qed.

Lemma make_requests_not_graph (evs : list event) :
  Forall (fun ev => is_make_request ev = true) evs -> graph_requests evs = [].
Proof.
  unfold graph_requests. induction 1 as [|ev evs Hev _ IH]; simpl; [done|].
  rewrite IH. by destruct ev.
Qed.

(** X10.  The transcript workflow always returns, and never throws: a result
    of one text block without [_meta].  On the way it makes between one and
    five [makeRequest] calls and no [graphRequest] call.  The result is
    flagged as an error unless all five requests were made and answered. *)
Theorem transcript_workflow_always_answers (params : GetTranscriptParams)
    (w : World St) :
  exists r w' evs,
    getTranscriptByMeeting rt client params w = (Ok r, w') /\
    trace w' = trace w ++ evs /\
    (exists text, content r = [TextContent text]) /\
    _meta r = None /\
    (1 <= length (make_requests evs) <= 5)%nat /\
    graph_requests evs = [] /\
    (isError r = Some true \/
     isError r = None /\ length (make_requests evs) = 5%nat /\
     Forall (fun ev => answered ev = true) evs).
Proof.
  destruct (getTranscriptByMeeting_run params w)
    as (r & w' & reqs & logs & Hrun & Htr & Hmake & Hlen & _ & Hlogs & _ &
        Hmeta & Hres).
  exists r, w', (reqs ++ logs).
  assert (Hreqs : make_requests (reqs ++ logs) = reqs).
  { unfold make_requests. rewrite List.filter_app.
    fold (make_requests reqs). rewrite make_requests_all by done.
    destruct Hlogs as [->|(msg & -> & _)]; simpl; by rewrite app_nil_r. }
  assert (Hgraph : graph_requests (reqs ++ logs) = []).
  { rewrite graph_requests_app, make_requests_not_graph by done.
    by destruct Hlogs as [->|(msg & -> & _)]. }
  rewrite Hreqs. split_and!; try done; try lia.
  - destruct Hres as [[_ ?]|(_ & _ & _ & _ & ? & ? & ? & ? & _)]; eauto.
  - destruct Hres as [[? _]|(? & -> & ? & ? & _)]; [by left|right].
    by rewrite app_nil_r.
Qed.

(** X11.  A request of the workflow that throws is its last event: no
    further request is made and nothing is logged.  The requests before it
    were all answered, and the result is the failure whose text is the
    opening for that step followed by the message of what was thrown. *)
Theorem failed_step_ends_workflow (params : GetTranscriptParams)
    (w : World St) :
  exists r w' evs,
    getTranscriptByMeeting rt client params w = (Ok r, w') /\
    trace w' = trace w ++ evs /\
    forall before path headers e after,
      evs = before ++ EvMakeRequest path headers (inl e) :: after ->
      after = [] /\
      Forall (fun ev => answered ev = true) before /\
      (length before < 5)%nat /\
      r = failure (nth (length before) stepFailures "" +:+ exn_message e).
Proof.
  destruct (getTranscriptByMeeting_run params w)
    as (r & w' & reqs & logs & Hrun & Htr & Hmake & Hlen & _ & Hlogs & Hsplit &
        _).
  exists r, w', (reqs ++ logs). split_and!; [done..|].
  intros before path headers e after Heq.
  assert (Hin : exists after', reqs = before ++
                  EvMakeRequest path headers (inl e) :: after' /\
                  after = after' ++ logs).
  { destruct Hlogs as [->|(msg & -> & _ & Hall)].
    - rewrite app_nil_r in Heq. exists after. by rewrite app_nil_r.
    - destruct after as [|a after _] using rev_ind.
      + apply app_inj_tail in Heq as [_ Heq]. discriminate.
      + rewrite app_comm_cons, app_assoc in Heq.
        apply app_inj_tail in Heq as [-> ->].
        by exists after. }
  destruct Hin as (after' & -> & ->).
  destruct (Hsplit _ _ _ _ _ eq_refl) as (-> & -> & ->).
  split_and!; [done| |  |done].
  - apply List.Forall_forall. intros ev Hev.
    apply in_split in Hev as (b1 & b2 & ->).
    rewrite List.Forall_forall in Hmake.
    assert (Hm : is_make_request ev = true).
    { apply Hmake. rewrite <- app_assoc. apply in_or_app. right. by left. }
    destruct ev as [| p h [e'|v] |]; try done.
    destruct (Hsplit b1 p h e'
                (b2 ++ [EvMakeRequest path headers (inl e)])) as [Habs _];
      [by rewrite <- app_assoc|].
    by destruct b2.
  - rewrite length_app in Hlen. simpl in Hlen. lia.
Qed.

(** X12.  A successful result is complete: its text is the indented JSON of
    an object with the members [meeting], [transcript] and [content] in that
    order, where [content] is never empty or missing (it falls back to the
    [message] of the answer and then to ["No content"]) and the meeting
    always names an organizer (["unknown"] when the answer has none). *)
Theorem successful_transcript_is_complete (params : GetTranscriptParams)
    (w : World St) :
  exists r w',
    getTranscriptByMeeting rt client params w = (Ok r, w') /\
    (isError r = None ->
     exists meeting transcript vtt,
       content r =
         [TextContent
            (JSON_stringify_pretty rt
               (JObj [("meeting", JObj meeting);
                      ("transcript", JObj transcript);
                      ("content", vtt)]))] /\
       truthy vtt = true /\
       truthy_opt (entries_get "organizer" meeting) = true).
Proof.
  destruct (getTranscriptByMeeting_run params w)
    as (r & w' & reqs & logs & Hrun & _ & _ & _ & _ & _ & _ & _ & Hres).
  exists r, w'. split; [done|]. intros Hok.
  destruct Hres as [[Herr _]|(_ & _ & _ & _ & Hshape)]; [congruence|done].
Qed.

Lemma find_event_first (s : string) (before : list value) (ev : value)
    (after : list value) :
  Forall (fun e => subject_matches s e = inr false) before ->
  subject_matches s ev = inr true ->
  find_event s (before ++ ev :: after) = inr (Some ev).
Proof.
  intros Hbefore Hev. induction Hbefore as [|e before He _ IH]; simpl.
  - by rewrite Hev.
  - by rewrite He.
Qed.

Lemma subject_match_object (s : string) (ev : value) :
  subject_matches s ev = inr true -> truthy ev = true /\ ev <> JNull.
Proof. destruct ev; try done. Qed.

Lemma read_prop_some (v : value) (k : string) (x : value) :
  get_prop v k = Some x -> read_prop v k = inr (Some x).
Proof. intros H. destruct v; try done; simpl in *; by rewrite H. Qed.

(** X13.  The first meeting of the day that matches is the one used,
    whatever comes after it in the calendar: when the events before it do
    not match, the second request of the workflow asks for the details of
    that very event. *)
Theorem first_matching_meeting_is_used (params : GetTranscriptParams)
    (w : World St) (calendarData : value) (c1 : St)
    (before : list value) (ev : value) (after : list value) :
  makeRequest client (calendarPath rt params) (calendarOptions params)
    (client_state w) = (inr calendarData, c1) ->
  get_prop calendarData "value" = Some (JArr (before ++ ev :: after)) ->
  Forall (fun e => subject_matches (subjectContains params) e = inr false)
    before ->
  subject_matches (subjectContains params) ev = inr true ->
  exists r w' answer rest,
    getTranscriptByMeeting rt client params w = (Ok r, w') /\
    trace w' =
      trace w ++
      EvMakeRequest (calendarPath rt params) (calendarOptions params)
        (inr calendarData) ::
      EvMakeRequest
        ("/me/events/" +:+ ToString_opt (get_prop ev "id") +:+
         "?$select=subject,onlineMeeting,onlineMeetingUrl,isOnlineMeeting")
        None answer :: rest.
Proof.
  intros Hreq Hvalue Hbefore Hev.
  unfold getTranscriptByMeeting, try_catch.
  rewrite bind_attempt, Hreq. cbn [fst snd]. rewrite bind_lift.
  rewrite (read_prop_some _ _ _ Hvalue).
  assert (Hlen : is_zero (get_prop (JArr (before ++ ev :: after)) "length")
                 = false).
  { cbn. rewrite length_app. simpl.
    by destruct (Z.of_nat (length before + S (length after))) eqn:Hz; [lia|..]. }
  cbn [or_else truthy]. rewrite Hlen, bind_lift.
  rewrite (find_event_first _ _ _ _ Hbefore Hev).
  destruct (subject_match_object _ _ Hev) as [-> _].
  set (w1 := {| client_state := c1; trace := _ |}).
  destruct (fetchTranscript_run ev w1)
    as (o & w' & evs & Hrun & Htr & Hfuel & _ & _ & (answer & rest & ->) & _).
  rewrite Hrun. cbn [trace w1] in Htr. rewrite <- app_assoc in Htr.
  destruct o as [r|e|]; [| |done].
  - by exists r, w', answer, rest.
  - unfold bind, log, emit, ret.
    eexists _, _, answer, (rest ++ [_]). split; [reflexivity|].
    cbn [trace]. rewrite Htr, <- app_assoc. reflexivity.
Qed.

(** X14.  A day without events, whether the answer has an empty [value],
    none at all or a falsy one, ends the workflow after the calendar request
    with the failure [No meetings found on <date>]. *)
Theorem empty_calendar_is_reported (params : GetTranscriptParams)
    (w : World St) (calendarData : value) (c1 : St) :
  makeRequest client (calendarPath rt params) (calendarOptions params)
    (client_state w) = (inr calendarData, c1) ->
  calendarData <> JNull ->
  or_else (get_prop calendarData "value") (JArr []) = JArr [] ->
  getTranscriptByMeeting rt client params w =
    (Ok (failure ("No meetings found on " +:+ date params)),
     {| client_state := c1;
        trace := trace w ++
          [EvMakeRequest (calendarPath rt params) (calendarOptions params)
             (inr calendarData)] |}).
Proof.
  intros Hreq Hnull Hempty.
  unfold getTranscriptByMeeting, try_catch.
  rewrite bind_attempt, Hreq. cbn [fst snd]. rewrite bind_lift.
  assert (Hread : read_prop calendarData "value" =
                  inr (get_prop calendarData "value")).
  { by destruct calendarData. }
  rewrite Hread, Hempty. reflexivity.
Qed.

End TranscriptFacts.

(** ** Presets and categories *)

Section CategoryFacts.
Import ToolCategories Registration.

Lemma preset_sources_run (presets : list string) :
  match preset_sources presets with
  | inr sources =>
      exists categories,
        Forall2 (fun preset category =>
                   entries_get preset TOOL_CATEGORIES = Some category)
          presets categories /\
        sources =
          map (fun category => source (cat_pattern category)) categories
  | inl e =>
      exists before bad after,
        presets = before ++ bad :: after /\
        Forall (fun preset => entries_get preset TOOL_CATEGORIES <> None)
          before /\
        entries_get bad TOOL_CATEGORIES = None /\
        e = (if string_in bad inherited
             then TypeError
                    "Cannot read properties of undefined (reading 'source')"
             else unknownPreset bad)
  end.
Proof.
  induction presets as [|preset rest IH]; cbn [preset_sources].
  - exists []. split; [constructor|done].
  - unfold member at 1.
    destruct (entries_get preset TOOL_CATEGORIES) as [category|] eqn:Hown.
    + destruct (preset_sources rest) as [e|sources]; cbv beta iota in IH.
      * destruct IH as (before & bad & after & -> & Hbefore & Hbad & ->).
        exists (preset :: before), bad, after. split_and!; try done.
        constructor; [congruence|done].
      * destruct IH as (categories & Hall & ->).
        exists (category :: categories). split; [by constructor|done].
    + destruct (string_in preset inherited) eqn:Hin;
        exists [], preset, rest; rewrite Hin; by split_and!.
Qed.

(** X15.  [getCombinedPresetPattern] answers exactly when every preset is a
    category of the table, and then with the sources of their patterns, in
    the order given, joined by [|].  Otherwise it throws for the first
    preset that is none: the error that names it and lists the thirteen
    presets, or a [TypeError] when the name is one that every object
    inherits. *)
Theorem combined_pattern_needs_known_presets (presets : list string) :
  match getCombinedPresetPattern presets with
  | inr combined =>
      exists categories,
        Forall2 (fun preset category =>
                   entries_get preset TOOL_CATEGORIES = Some category)
          presets categories /\
        combined =
          String.concat "|"
            (map (fun category => source (cat_pattern category)) categories)
  | inl e =>
      exists before bad after,
        presets = before ++ bad :: after /\
        Forall (fun preset => entries_get preset TOOL_CATEGORIES <> None)
          before /\
        entries_get bad TOOL_CATEGORIES = None /\
        e = (if string_in bad inherited
             then TypeError
                    "Cannot read properties of undefined (reading 'source')"
             else Exn "Error"
                    ("Unknown preset: " +:+ bad +:+
                     ". Available presets: mail, calendar, files, personal, work, excel, contacts, tasks, onenote, search, meetings, users, all"))
  end.
Proof.
  unfold getCombinedPresetPattern.
  pose proof (preset_sources_run presets) as Hrun.
  destruct (preset_sources presets) as [e|sources]; cbv beta iota in Hrun.
  - exact Hrun.
  - destruct Hrun as (categories & Hall & ->). by exists categories.
Qed.

(** X16.  The presets that need org mode are [work] and [users], and no
    other name: a preset that is not in the table needs none. *)
Theorem org_mode_presets (preset : string) :
  presetRequiresOrgMode preset = true <->
  preset = "work" \/ preset = "users".
Proof.
  unfold presetRequiresOrgMode, member, TOOL_CATEGORIES.
  cbn [entries_get].
  repeat match goal with
         | |- context [String.eqb preset ?k] =>
             destruct (String.eqb_spec preset k) as [->|?];
             [cbn; split; [try done; auto | intros [?|?]; done]|]
         end.
  destruct (string_in preset inherited); split; try done; intros [?|?]; done.
Qed.

End CategoryFacts.

(** ** Discovery mode: searching the registry *)

Section SearchFacts.
Import ToolCategories Registration.



(** [n >= q] for a whole [n] and a rational [q]: [n] has reached the
    ceiling of [q]. *)
Lemma Qle_bool_ceiling (q : Q) (n : Z) :
  Qle_bool q (inject_Z n) = (Qceiling q <=? n)%Z.
Proof.
  destruct (Z.leb_spec (Qceiling q) n) as [Hle|Hlt].
  - apply Qle_bool_iff. eapply Qle_trans; [apply Qle_ceiling|].
    by rewrite <- Zle_Qle.
  - destruct (Qle_bool q (inject_Z n)) eqn:Hq; [|done].
    apply Qle_bool_iff, Qceiling_resp_le in Hq. rewrite Qceiling_Z in Hq. lia.
Qed.

Lemma Qceiling_min (q : Q) (n : Z) :
  Qceiling (if Qle_bool q (inject_Z n) then q else inject_Z n) =
  Z.min (Qceiling q) n.
Proof.
  rewrite Qle_bool_ceiling.
  destruct (Z.leb_spec (Qceiling q) n); [lia|]. rewrite Qceiling_Z. lia.
Qed.

(** The loop under a limit that the number of results reaches at [t]. *)
Lemma search_loop_take (categoryDef : Member) (queryLower : option string)
    (maxLimit : number) (t : Z) :
  categoryDef <> Inherited ->
  (forall n, (1 <= n)%Z -> at_least n maxLimit = (t <=? n)%Z) ->
  forall (entries : list (string * (Endpoint * option EndpointConfig)))
         (results : list value),
    (length results < Z.to_nat (Z.max 1 t))%nat ->
    search_loop categoryDef queryLower maxLimit entries results =
    inr (results ++
         firstn (Z.to_nat (Z.max 1 t) - length results)
           (map (fun entry => summary (fst entry) (fst (snd entry)))
              (List.filter (selected categoryDef queryLower) entries))).
Proof.
  intros Hcat Hreach. induction entries as [|[name [tool config]] entries IH];
    intros results Hlen.
  - simpl. by rewrite firstn_nil, app_nil_r.
  - cbn [search_loop List.filter]. unfold selected at 1. cbn [fst snd].
    assert (Hpush :
      (if at_least (Z.of_nat (length (results ++ [summary name tool])))
            maxLimit
       then inr (results ++ [summary name tool])
       else search_loop categoryDef queryLower maxLimit entries
              (results ++ [summary name tool])) =
      inr (results ++
           firstn (Z.to_nat (Z.max 1 t) - length results)
             (summary name tool ::
              map (fun entry => summary (fst entry) (fst (snd entry)))
                (List.filter (selected categoryDef queryLower) entries)))).
    { rewrite length_app. cbn [length]. rewrite Hreach by lia.
      destruct (Z.leb_spec t (Z.of_nat (length results + 1))).
      - replace (Z.to_nat (Z.max 1 t) - length results)%nat
          with 1%nat by lia.
        cbn [firstn]. done.
      - rewrite IH by (rewrite length_app; simpl; lia).
        rewrite length_app. cbn [length].
        replace (Z.to_nat (Z.max 1 t) - length results)%nat
          with (S (Z.to_nat (Z.max 1 t) - (length results + 1)))
          by lia.
        cbn [firstn]. by rewrite <- app_assoc. }
    destruct categoryDef as [category| |]; [|done|].
    + destruct (negb (test (cat_pattern category) name)); cbn [negb andb];
        [by apply IH|].
      destruct (query_excludes queryLower name tool config); cbn [negb];
        [by apply IH|exact Hpush].
    + cbn [negb andb].
      destruct (query_excludes queryLower name tool config); cbn [negb];
        [by apply IH|exact Hpush].
Qed.

(** The loop under a limit that no number of results reaches. *)
Lemma search_loop_all (categoryDef : Member) (queryLower : option string)
    (maxLimit : number) :
  categoryDef <> Inherited ->
  (forall n, at_least n maxLimit = false) ->
  forall (entries : list (string * (Endpoint * option EndpointConfig)))
         (results : list value),
    search_loop categoryDef queryLower maxLimit entries results =
    inr (results ++
         map (fun entry => summary (fst entry) (fst (snd entry)))
           (List.filter (selected categoryDef queryLower) entries)).
Proof.
  intros Hcat Hnever. induction entries as [|[name [tool config]] entries IH];
    intros results.
  - simpl. by rewrite app_nil_r.
  - cbn [search_loop List.filter]. unfold selected at 1. cbn [fst snd].
    rewrite Hnever.
    destruct categoryDef as [category| |]; [|done|].
    + destruct (negb (test (cat_pattern category) name)); cbn [negb andb];
        [by apply IH|].
      destruct (query_excludes queryLower name tool config); cbn [negb];
        [by apply IH|].
      rewrite IH. cbn [map fst snd]. by rewrite <- app_assoc.
    + cbn [negb andb].
      destruct (query_excludes queryLower name tool config); cbn [negb];
        [by apply IH|].
      rewrite IH. cbn [map fst snd]. by rewrite <- app_assoc.
Qed.

(** The loop of the handler, whatever the limit. *)
Lemma search_loop_break (categoryDef : Member) (queryLower : option string)
    (limit : option number)
    (entries : list (string * (Endpoint * option EndpointConfig))) :
  categoryDef <> Inherited ->
  search_loop categoryDef queryLower
    (Math_min (match limit with Some l => l | None => Finite (inject_Z 20) end)
       (Finite (inject_Z 50)))
    entries [] =
  inr (let matches :=
         map (fun entry => summary (fst entry) (fst (snd entry)))
           (List.filter (selected categoryDef queryLower) entries) in
       match break_at limit with
       | Some n => firstn n matches
       | None => matches
       end).
Proof.
  intros Hcat. cbv zeta.
  assert (Hcut : forall maxLimit t,
            (forall n, (1 <= n)%Z -> at_least n maxLimit = (t <=? n)%Z) ->
            search_loop categoryDef queryLower maxLimit entries [] =
            inr (firstn (Z.to_nat (Z.max 1 t))
                   (map (fun entry => summary (fst entry) (fst (snd entry)))
                      (List.filter (selected categoryDef queryLower)
                         entries)))).
  { intros maxLimit t Hreach.
    rewrite (search_loop_take categoryDef queryLower maxLimit t Hcat Hreach)
      by (simpl; lia).
    cbn [app length]. by rewrite Nat.sub_0_r. }
  destruct limit as [[|q|[|]]|]; cbn [break_at Math_min].
  - by rewrite search_loop_all.
  - rewrite (Hcut _ (Z.min (Qceiling q) 50)); [done|].
    intros n _. cbn [at_least]. by rewrite Qle_bool_ceiling, Qceiling_min.
  - rewrite (Hcut _ 1%Z); [done|].
    intros n Hn. cbn [at_least]. symmetry. by apply Z.leb_le.
  - rewrite (Hcut _ 50%Z); [done|].
    intros n _. cbn [at_least]. by rewrite Qle_bool_ceiling, Qceiling_Z.
  - rewrite (Hcut _ 20%Z); [done|].
    intros n _. change (Qle_bool (inject_Z 20) (inject_Z 50)) with true.
    cbn [at_least]. by rewrite Qle_bool_ceiling, Qceiling_Z.
Qed.

(** X17.  The handler answers with the first matches in the order of the
    registry: the entries that pass the category test and the query test,
    cut at the first whole number that is at least 1 and at least
    [min(limit, 50)], [limit] being 20 when left out; with a [limit] that
    is not a number nothing is cut.  [found] is their number and [total]
    the size of the registry. *)
Theorem search_returns_first_matches (rt : Runtime)
    (toolsRegistry : list (string * (Endpoint * option EndpointConfig)))
    (query category : option string) (limit : option number) :
  categoryDef_of category <> Inherited ->
  let matches :=
    map (fun entry => summary (fst entry) (fst (snd entry)))
      (List.filter
         (selected (categoryDef_of category) (option_map toLowerCase query))
         toolsRegistry) in
  let tools :=
    match break_at limit with
    | Some n => firstn n matches
    | None => matches
    end in
  search_tools rt toolsRegistry query category limit =
  inr {| content :=
           [TextContent
              (JSON_stringify_pretty rt
                 (JObj [("found", JNum (Z.of_nat (length tools)));
                        ("total", JNum (Z.of_nat (length toolsRegistry)));
                        ("tools", JArr tools);
                        ("tip", JStr searchTip)]))];
         _meta := None;
         isError := None |}.
Proof.
  intros Hcat matches tools. unfold search_tools.
  by rewrite search_loop_break.
Qed.

(** X18.  The bounds of a search.  It never reports more tools than the
    registry holds, nor more than 50 unless [limit] is not a number, nor
    more than 20 when [limit] is left out.  Under a [limit] of at least 1
    the number of tools stays below [limit + 1]: at most [limit] for a
    whole [limit], one more than its whole part otherwise.  A [limit] of
    zero or less does not give an empty answer: the first match, if there
    is one, is still reported. *)
Theorem search_limit_bounds (rt : Runtime)
    (toolsRegistry : list (string * (Endpoint * option EndpointConfig)))
    (query category : option string) (limit : option number)
    (r : CallToolResult) :
  search_tools rt toolsRegistry query category limit = inr r ->
  exists tools,
    content r =
      [TextContent
         (JSON_stringify_pretty rt
            (JObj [("found", JNum (Z.of_nat (length tools)));
                   ("total", JNum (Z.of_nat (length toolsRegistry)));
                   ("tools", JArr tools);
                   ("tip", JStr searchTip)]))] /\
    (length tools <= length toolsRegistry)%nat /\
    (limit <> Some NaN -> (length tools <= 50)%nat) /\
    (limit = None -> (length tools <= 20)%nat) /\
    (forall q, limit = Some (Finite q) -> (inject_Z 1 <= q)%Q ->
       (inject_Z (Z.of_nat (length tools)) < q + inject_Z 1)%Q) /\
    (forall l, limit = Some (Finite (inject_Z l)) -> (1 <= l)%Z ->
       (Z.of_nat (length tools) <= l)%Z) /\
    (List.filter
       (selected (categoryDef_of category) (option_map toLowerCase query))
       toolsRegistry <> [] ->
     (1 <= length tools)%nat).
Proof.
  unfold search_tools. intros Hrun.
  destruct (categoryDef_of category) as [c| |] eqn:Hcat.
  2:{ destruct toolsRegistry as [|[name [tool config]] rest].
      - simpl in Hrun. injection Hrun as <-. exists []. simpl.
        split_and!; try done; try lia.
        intros q _ Hq. eapply Qlt_le_trans; [|by apply Qplus_le_l, Hq]. done.
      - simpl in Hrun. discriminate. }
  all: rewrite search_loop_break in Hrun by done; cbv zeta in Hrun;
    injection Hrun as <-; eexists; split; [reflexivity|];
    match goal with
    | |- context [List.filter ?f ?l] =>
        pose proof (List.filter_length_le f l) as Hle;
        set (matches := map (fun entry => summary (fst entry) (fst (snd entry)))
                          (List.filter f l)) in *;
        assert (Hmatches : length matches = length (List.filter f l))
          by apply length_map;
        assert (Hnil : List.filter f l <> [] -> (1 <= length matches)%nat)
          by (rewrite Hmatches; destruct (List.filter f l);
              [done|simpl; lia]);
        clearbody matches
    end;
    (assert (Hceil : forall q, (inject_Z 1 <= q)%Q ->
               forall n, (n <= Z.max 1 (Z.min (Qceiling q) 50))%Z ->
               (inject_Z n < q + inject_Z 1)%Q);
     [intros q Hq n Hn;
      apply Qle_lt_trans with (inject_Z (Qceiling q));
      [rewrite <- Zle_Qle;
       assert (1 <= Qceiling q)%Z
         by (apply Qceiling_resp_le in Hq; by rewrite Qceiling_Z in Hq); lia
      |pose proof (Qceiling_lt q) as Hlt;
       apply (Qplus_lt_l _ _ (inject_Z 1)) in Hlt;
       rewrite <- inject_Z_plus in Hlt;
       by replace (Qceiling q - 1 + 1)%Z with (Qceiling q) in Hlt by lia]|]);
    destruct limit as [[|q|[|]]|]; cbn [break_at];
    rewrite ?length_firstn;
    split_and!; try done; try (intros; simplify_eq; lia);
    try (intros q' [= <-] Hq'; apply Hceil; [done|lia]);
    try (intros l [= ->] Hl; rewrite Qceiling_Z; lia);
    try (intros Hne; specialize (Hnil Hne); lia).
Qed.

(** X19.  A category that is not in the table.  A name the table does not
    know filters nothing: the search is the one without a category.  A name
    that every object inherits, such as [constructor], makes the handler
    throw as soon as the registry has an entry to test. *)
Theorem category_outside_table (rt : Runtime)
    (toolsRegistry : list (string * (Endpoint * option EndpointConfig)))
    (query : option string) (c : string) (limit : option number) :
  entries_get c TOOL_CATEGORIES = None ->
  if string_in c inherited
  then toolsRegistry <> [] ->
       search_tools rt toolsRegistry query (Some c) limit =
       inl (TypeError "Cannot read properties of undefined (reading 'test')")
  else search_tools rt toolsRegistry query (Some c) limit =
       search_tools rt toolsRegistry query None limit.
Proof.
  intros Hnone. unfold search_tools, categoryDef_of, member. rewrite Hnone.
  destruct (String.eqb_spec c "") as [->|Hne]; [done|].
  destruct (string_in c inherited); [|done].
  intros Hreg. by destruct toolsRegistry as [|[name [tool config]] rest].
Qed.

Lemma registryEntries_snoc api_endpoints endpointsData readOnly orgMode
    (tool : Endpoint) :
  registryEntries (api_endpoints ++ [tool]) endpointsData readOnly orgMode =
  let entries :=
    registryEntries api_endpoints endpointsData readOnly orgMode in
  if admitted endpointsData readOnly orgMode tool
  then entries_set (tool_alias tool)
         (tool, find_endpointConfig endpointsData tool) entries
  else entries.
Proof.
  unfold registryEntries, admitted. rewrite fold_left_app. cbn [fold_left].
  cbv zeta.
  destruct (negb orgMode &&
            workAccountOnly (find_endpointConfig endpointsData tool));
    [done|].
  by destruct (readOnly &&
               negb (String.eqb (toUpperCase (tool_method tool)) "GET")).
Qed.

(** The registry as a list of entries and the registry as a map hold the
    same tools under the same names. *)
Lemma registryEntries_lookup api_endpoints endpointsData readOnly orgMode
    (name : string) :
  entries_get name
    (registryEntries api_endpoints endpointsData readOnly orgMode) =
  buildToolsRegistry api_endpoints endpointsData readOnly orgMode !! name.
Proof.
  induction api_endpoints as [|tool api IH] using rev_ind; [done|].
  rewrite registryEntries_snoc, buildToolsRegistry_snoc. cbv zeta.
  destruct (admitted endpointsData readOnly orgMode tool); [|done].
  destruct (String.eqb_spec name (tool_alias tool)) as [->|Hne].
  - by rewrite entries_get_set_same, lookup_insert_eq.
  - by rewrite entries_get_set_other, lookup_insert_ne.
Qed.

Lemma registryEntries_keys api_endpoints endpointsData readOnly orgMode :
  NoDup (map fst
           (registryEntries api_endpoints endpointsData readOnly orgMode)).
Proof.
  induction api_endpoints as [|tool api IH] using rev_ind; [constructor|].
  rewrite registryEntries_snoc. cbv zeta.
  destruct (admitted endpointsData readOnly orgMode tool); [|done].
  by apply entries_set_NoDup.
Qed.

Lemma In_firstn {A} (x : A) (n : nat) (l : list A) :
  In x (firstn n l) -> In x l.
Proof.
  revert l. induction n as [|n IH]; intros [|y l]; simpl; try done.
  intros [?|?]; [by left|right; by apply IH].
Qed.

Section FoundTools.
Variable rt : Runtime.
Context {St : Type}.
Variable client : GraphClient St.

(** X20.  What [search-tools] reports, [execute-tool] can run: every tool of
    an answer carries a [name] under which the registry of the same mode
    holds an endpoint, so a dispatch of that name never ends in "Tool not
    found": it runs [executeGraphTool] on the endpoint whose method and path
    the answer shows. *)
Theorem found_tools_can_be_executed api_endpoints endpointsData
    (readOnly orgMode : bool) (query category : option string)
    (limit : option number) (r : CallToolResult) :
  search_tools rt
    (registryEntries api_endpoints endpointsData readOnly orgMode)
    query category limit = inr r ->
  exists tools,
    content r =
      [TextContent
         (JSON_stringify_pretty rt
            (JObj [("found", JNum (Z.of_nat (length tools)));
                   ("total",
                    JNum (Z.of_nat
                            (length (registryEntries api_endpoints
                                       endpointsData readOnly orgMode))));
                   ("tools", JArr tools);
                   ("tip", JStr searchTip)]))] /\
    Forall (fun found =>
              exists name tool config,
                get_prop found "name" = Some (JStr name) /\
                buildToolsRegistry api_endpoints endpointsData readOnly orgMode
                  !! name = Some (tool, config) /\
                get_prop found "method" =
                  Some (JStr (toUpperCase (tool_method tool))) /\
                get_prop found "path" = Some (JStr (tool_path tool)) /\
                forall parameters (w : World St),
                  execute_tool rt client
                    (buildToolsRegistry api_endpoints endpointsData readOnly
                       orgMode) name parameters w =
                  executeGraphTool rt client tool config
                    (match parameters with Some p => p | None => [] end) w)
      tools.
Proof.
  set (entries := registryEntries api_endpoints endpointsData readOnly orgMode).
  unfold search_tools. intros Hrun.
  assert (Hentry : forall entry, In entry entries ->
    buildToolsRegistry api_endpoints endpointsData readOnly orgMode
      !! fst entry = Some (snd entry)).
  { intros [name data] Hin. rewrite <- registryEntries_lookup. fold entries.
    pose proof (registryEntries_keys api_endpoints endpointsData readOnly
                  orgMode) as Hnd. fold entries in Hnd.
    clear Hrun. induction entries as [|[k v] l IH]; [done|].
    cbn [entries_get fst snd]. inversion Hnd as [|? ? Hk Hl]; subst.
    destruct Hin as [[= -> ->]|Hin]; [by rewrite String.eqb_refl|].
    destruct (String.eqb_spec name k) as [->|Hne]; [|by apply IH].
    exfalso. apply Hk. apply list_elem_of_In.
    change k with (fst (k, data)). by apply in_map. }
  destruct (categoryDef_of category) as [c| |] eqn:Hcat.
  2:{ destruct entries as [|[name [tool config]] rest].
      - simpl in Hrun. injection Hrun as <-. exists []. by split.
      - simpl in Hrun. discriminate. }
  all: rewrite search_loop_break in Hrun by done; cbv zeta in Hrun;
    injection Hrun as <-; eexists; split; [reflexivity|];
    apply List.Forall_forall; intros found Hfound;
    assert (Hmatch : In found
              (map (fun entry => summary (fst entry) (fst (snd entry)))
                 (List.filter
                    (selected (categoryDef_of category)
                       (option_map toLowerCase query)) entries)))
      by (rewrite Hcat; destruct (break_at limit);
          [by eapply In_firstn|done]);
    rewrite Hcat in Hmatch; clear Hfound;
    apply in_map_iff in Hmatch as ([name [tool config]] & <- & Hin);
    apply List.filter_In in Hin as [Hin _];
    exists name, tool, config; cbn [fst snd];
    pose proof (Hentry _ Hin) as Hlook; cbn [fst snd] in Hlook;
    split_and!; try done;
    intros parameters w; unfold execute_tool; by rewrite Hlook.
Qed.

End FoundTools.

End SearchFacts.

(** ** Registration of the tools *)

Section RegisterFacts.
Import ToolCategories Registration.


Section RegistrationFacts.
Context {Srv : Type}.
Variable mcp : McpServer Srv.
Variable RegExp_i : string -> exn + (string -> bool).
Variable api_endpoints : list Endpoint.
Variable endpointsData : list EndpointConfig.

Lemma register_tool_step (readOnly orgMode : bool)
    (regex : option (string -> bool)) (p : Progress Srv) (tool : Endpoint) :
  let p' := register_tool mcp endpointsData readOnly orgMode regex p tool in
  if enabled endpointsData readOnly orgMode regex tool
  then offered p' =
         offered p ++
         [registration tool (find_endpointConfig endpointsData tool)] /\
       skippedCount p' = skippedCount p /\
       (registeredCount p' + failedCount p' =
        S (registeredCount p + failedCount p))%nat /\
       (length (errors p') - failedCount p' =
        length (errors p) - failedCount p)%nat /\
       (failedCount p <= length (errors p) ->
        failedCount p' <= length (errors p'))%nat
  else offered p' = offered p /\
       skippedCount p' = S (skippedCount p) /\
       registeredCount p' = registeredCount p /\
       failedCount p' = failedCount p /\
       errors p' = errors p.
Proof.
  unfold register_tool, enabled, admitted. cbv zeta.
  destruct (negb orgMode &&
            workAccountOnly (find_endpointConfig endpointsData tool));
    [done|].
  destruct (readOnly &&
            negb (String.eqb (toUpperCase (tool_method tool)) "GET"));
    [done|].
  cbn [negb andb].
  destruct regex as [test|].
  - destruct (test (tool_alias tool)); cbn [negb]; [|done].
    destruct (server_tool mcp _ (server p)) as [[e|[]] srv];
      cbn [offered skippedCount registeredCount failedCount errors];
      rewrite ?length_app; simpl; split_and!; try done; lia.
  - destruct (server_tool mcp _ (server p)) as [[e|[]] srv];
      cbn [offered skippedCount registeredCount failedCount errors];
      rewrite ?length_app; simpl; split_and!; try done; lia.
Qed.

Lemma register_fold (readOnly orgMode : bool)
    (regex : option (string -> bool)) (tools : list Endpoint) :
  forall p : Progress Srv,
    let p' :=
      fold_left (register_tool mcp endpointsData readOnly orgMode regex)
        tools p in
    let taken :=
      List.filter (enabled endpointsData readOnly orgMode regex) tools in
    offered p' =
      offered p ++
      map (fun tool =>
             registration tool (find_endpointConfig endpointsData tool))
        taken /\
    (skippedCount p' + length taken = skippedCount p + length tools)%nat /\
    (registeredCount p' + failedCount p' =
     registeredCount p + failedCount p + length taken)%nat /\
    (length (errors p') - failedCount p' =
     length (errors p) - failedCount p)%nat /\
    (failedCount p <= length (errors p) ->
     failedCount p' <= length (errors p'))%nat.
Proof.
  induction tools as [|tool tools IH]; intros p.
  - simpl. rewrite app_nil_r. split_and!; try done; lia.
  - cbn [fold_left List.filter]. cbv zeta.
    pose proof (register_tool_step readOnly orgMode regex p tool) as Hstep.
    cbv zeta in Hstep.
    destruct (IH (register_tool mcp endpointsData readOnly orgMode regex p
                    tool)) as (Hoff & Hskip & Hreg & Herr & Hle).
    destruct (enabled endpointsData readOnly orgMode regex tool).
    + destruct Hstep as (Hoff1 & Hskip1 & Hreg1 & Herr1 & Hle1).
      rewrite Hoff, Hoff1, <- app_assoc. cbn [map length app].
      split_and!; first [done | lia | intros; apply Hle; by apply Hle1].
    + destruct Hstep as (Hoff1 & Hskip1 & Hreg1 & Hfail1 & Herr1).
      rewrite Hoff, Hoff1. cbn [length].
      split_and!;
        first [ done | lia
              | by rewrite Herr, Herr1, Hfail1
              | intros; apply Hle; by rewrite Herr1, Hfail1 ].
Qed.

Lemma register_fold_errors (readOnly orgMode : bool)
    (regex : option (string -> bool)) (tools : list Endpoint) :
  forall p : Progress Srv,
    exists more,
      errors (fold_left (register_tool mcp endpointsData readOnly orgMode regex)
                tools p) = errors p ++ more.
Proof.
  induction tools as [|tool tools IH]; intros p.
  - exists []. simpl. by rewrite app_nil_r.
  - cbn [fold_left].
    destruct (IH (register_tool mcp endpointsData readOnly orgMode regex p
                    tool)) as (more & ->).
    unfold register_tool. cbv zeta.
    destruct (negb orgMode &&
              workAccountOnly (find_endpointConfig endpointsData tool));
      [by exists more|].
    destruct (readOnly &&
              negb (String.eqb (toUpperCase (tool_method tool)) "GET"));
      [by exists more|].
    destruct (match regex with
              | Some regex0 => negb (regex0 (tool_alias tool))
              | None => false
              end); [by exists more|].
    destruct (server_tool mcp _ (server p)) as [[e|[]] srv]; cbn [errors].
    + rewrite <- app_assoc. by eexists.
    + by exists more.
Qed.

Lemma registerGraphTools_fold (srv : Srv) (readOnly : bool)
    (enabledToolsPattern : option string) (orgMode : bool) :
  exists errs,
    (length errs <= 1)%nat /\
    (forall pattern regex,
       enabledToolsPattern = Some pattern -> RegExp_i pattern = inr regex ->
       errs = []) /\
    (enabledToolsPattern = None -> errs = []) /\
    registerGraphTools mcp RegExp_i api_endpoints endpointsData srv readOnly
      enabledToolsPattern orgMode =
    fold_left
      (register_tool mcp endpointsData readOnly orgMode
         (compiled RegExp_i enabledToolsPattern))
      api_endpoints
      {| server := srv;
         registeredCount := 0;
         skippedCount := 0;
         failedCount := 0;
         offered := [];
         errors := errs |}.
Proof.
  unfold registerGraphTools, compiled.
  destruct enabledToolsPattern as [pattern|];
    [|exists []; split_and!; [simpl; lia|done..]].
  destruct (String.eqb pattern "");
    [exists []; split_and!; [simpl; lia|done..]|].
  destruct (RegExp_i pattern) as [e|regex] eqn:Hre.
  - eexists [_].
    split_and!; [simpl; lia|intros ? ? [= <-] ?; congruence|done|done].
  - exists []. split_and!; [simpl; lia|done..].
Qed.

(** X21.  Every endpoint is counted once: when the registration is over, the
    registered, skipped and failed counts add up to the number of endpoints,
    whatever the server does with a registration.  The server was offered
    one registration for each endpoint that is registered or failed, and an
    error line was logged for each failure. *)
Theorem registration_counts_add_up (srv : Srv) (readOnly : bool)
    (enabledToolsPattern : option string) (orgMode : bool) :
  let p := registerGraphTools mcp RegExp_i api_endpoints endpointsData srv
             readOnly enabledToolsPattern orgMode in
  (registeredCount p + skippedCount p + failedCount p =
   length api_endpoints)%nat /\
  length (offered p) = (registeredCount p + failedCount p)%nat /\
  (failedCount p <= length (errors p) <= S (failedCount p))%nat.
Proof.
  cbv zeta.
  destruct (registerGraphTools_fold srv readOnly enabledToolsPattern orgMode)
    as (errs & Herrs & _ & _ & ->).
  match goal with
  | |- context [fold_left (register_tool _ _ ?ro ?om ?regex) _ ?p0] =>
      destruct (register_fold ro om regex api_endpoints p0)
        as (Hoff & Hskip & Hreg & Herr & Hle)
  end.
  cbv zeta in *. cbn [offered skippedCount registeredCount failedCount errors
    app] in *.
  rewrite Hoff, length_map.
  assert (Hle' := Hle ltac:(lia)).
  pose proof (List.filter_length_le
                (enabled endpointsData readOnly orgMode
                   (compiled RegExp_i enabledToolsPattern)) api_endpoints).
  split_and!; lia.
Qed.

(** X22.  What the server is offered: one registration for each endpoint
    that passed the two tests and whose alias the filter accepts, in the
    order of [api.endpoints].  A pattern that is left out, empty or
    ill-formed filters nothing; the ill-formed one costs an error line and
    no more. *)
Theorem registration_offers_enabled_tools (srv : Srv) (readOnly : bool)
    (enabledToolsPattern : option string) (orgMode : bool) :
  let p := registerGraphTools mcp RegExp_i api_endpoints endpointsData srv
             readOnly enabledToolsPattern orgMode in
  offered p =
    map (fun tool =>
           registration tool (find_endpointConfig endpointsData tool))
      (List.filter
         (enabled endpointsData readOnly orgMode
            (compiled RegExp_i enabledToolsPattern))
         api_endpoints) /\
  (forall pattern e,
     enabledToolsPattern = Some pattern -> pattern <> "" ->
     RegExp_i pattern = inl e ->
     offered p =
       offered (registerGraphTools mcp RegExp_i api_endpoints endpointsData
                  srv readOnly None orgMode) /\
     hd_error (errors p) =
       Some ("Invalid tool filter regex pattern: " +:+ pattern +:+
             ". Ignoring filter.")).
Proof.
  cbv zeta.
  assert (Hoffered : forall pattern,
    offered (registerGraphTools mcp RegExp_i api_endpoints endpointsData srv
               readOnly pattern orgMode) =
    map (fun tool =>
           registration tool (find_endpointConfig endpointsData tool))
      (List.filter
         (enabled endpointsData readOnly orgMode (compiled RegExp_i pattern))
         api_endpoints)).
  { intros pattern.
    destruct (registerGraphTools_fold srv readOnly pattern orgMode)
      as (errs & _ & _ & _ & ->).
    match goal with
    | |- context [fold_left (register_tool _ _ ?ro ?om ?regex) _ ?p0] =>
        destruct (register_fold ro om regex api_endpoints p0) as (Hoff & _)
    end.
    by rewrite Hoff. }
  split; [apply Hoffered|].
  intros pattern e -> Hne Hre. split.
  - rewrite !Hoffered. unfold compiled. rewrite Hre.
    by destruct (String.eqb pattern "").
  - unfold registerGraphTools. rewrite Hre.
    destruct (String.eqb_spec pattern ""); [done|]. cbn [fst snd].
    match goal with
    | |- context [fold_left (register_tool _ _ ?ro ?om ?regex) _ ?p0] =>
        destruct (register_fold_errors ro om regex api_endpoints p0)
          as (more & ->)
    end.
    done.
Qed.

Lemma upper_method_hints (method : string) :
  String.eqb (toUpperCase method) "GET" &&
  string_in (toUpperCase method) ["POST"; "PATCH"; "DELETE"] = false.
Proof. by destruct (String.eqb_spec (toUpperCase method) "GET") as [->|]. Qed.

(** X23.  The hints of a registration never contradict each other, and in
    read-only mode every tool offered to the server is hinted read-only and
    not destructive. *)
Theorem read_only_registrations_are_hinted (srv : Srv) (readOnly : bool)
    (enabledToolsPattern : option string) (orgMode : bool) :
  let p := registerGraphTools mcp RegExp_i api_endpoints endpointsData srv
             readOnly enabledToolsPattern orgMode in
  Forall (fun reg =>
            readOnlyHint (reg_annotations reg) &&
            destructiveHint (reg_annotations reg) = false /\
            openWorldHint (reg_annotations reg) = true /\
            title (reg_annotations reg) = reg_name reg /\
            (readOnly = true ->
             readOnlyHint (reg_annotations reg) = true /\
             destructiveHint (reg_annotations reg) = false /\
             toUpperCase (tool_method (fst (reg_handler reg))) = "GET"))
    (offered p).
Proof.
  cbv zeta.
  destruct (registerGraphTools_fold srv readOnly enabledToolsPattern orgMode)
    as (errs & _ & _ & _ & ->).
  match goal with
  | |- context [fold_left (register_tool _ _ ?ro ?om ?regex) _ ?p0] =>
      destruct (register_fold ro om regex api_endpoints p0) as (-> & _)
  end.
  cbn [offered app]. apply List.Forall_forall. intros reg Hin.
  apply in_map_iff in Hin as (tool & <- & Hin).
  apply List.filter_In in Hin as [_ Hen].
  cbn [registration reg_annotations readOnlyHint destructiveHint openWorldHint
       title reg_name reg_handler fst].
  split_and!; [apply upper_method_hints|done..|].
  intros ->. unfold enabled, admitted in Hen.
  apply andb_true_iff in Hen as [Hen _].
  apply andb_true_iff in Hen as [_ Hget]. cbn [andb] in Hget.
  rewrite negb_involutive in Hget. rewrite Hget.
  apply String.eqb_eq in Hget. by rewrite Hget.
Qed.

Lemma registry_holds_admitted readOnly orgMode (tool : Endpoint) :
  In tool api_endpoints ->
  admitted endpointsData readOnly orgMode tool = true ->
  buildToolsRegistry api_endpoints endpointsData readOnly orgMode
    !! tool_alias tool <> None.
Proof.
  clear mcp RegExp_i.
  induction api_endpoints as [|last api IH] using rev_ind; [done|].
  intros Hin Hadm. rewrite buildToolsRegistry_snoc. cbv zeta.
  apply in_app_or in Hin as [Hin|[->|[]]].
  - destruct (admitted endpointsData readOnly orgMode last); [|by apply IH].
    destruct (String.eqb_spec (tool_alias last) (tool_alias tool)) as [->|Hne].
    + by rewrite lookup_insert_eq.
    + rewrite lookup_insert_ne by done. by apply IH.
  - rewrite Hadm. by rewrite lookup_insert_eq.
Qed.

(** X24.  The two modes expose the same tools.  Without a filter pattern,
    the names that [registerGraphTools] offers to the server are the names
    that the registry of discovery mode holds, and the endpoint and
    configuration that the registry holds under a name are those of a
    registration offered under that name. *)
Theorem both_modes_expose_same_tools (srv : Srv) (readOnly orgMode : bool)
    (name : string) :
  let p := registerGraphTools mcp RegExp_i api_endpoints endpointsData srv
             readOnly None orgMode in
  (In name (map reg_name (offered p)) <->
   buildToolsRegistry api_endpoints endpointsData readOnly orgMode !! name
   <> None) /\
  (forall tool config,
     buildToolsRegistry api_endpoints endpointsData readOnly orgMode !! name =
       Some (tool, config) ->
     In (registration tool config) (offered p) /\
     reg_name (registration tool config) = name /\
     reg_handler (registration tool config) = (tool, config)).
Proof.
  cbv zeta.
  assert (Hoff :
    offered (registerGraphTools mcp RegExp_i api_endpoints endpointsData srv
               readOnly None orgMode) =
    map (fun tool =>
           registration tool (find_endpointConfig endpointsData tool))
      (List.filter (admitted endpointsData readOnly orgMode) api_endpoints)).
  { destruct (registerGraphTools_fold srv readOnly None orgMode)
      as (errs & _ & _ & _ & ->).
    match goal with
    | |- context [fold_left (register_tool _ _ ?ro ?om ?regex) _ ?p0] =>
        destruct (register_fold ro om regex api_endpoints p0) as (-> & _)
    end.
    cbn [offered app]. f_equal. apply List.filter_ext. intros tool.
    unfold enabled. cbn [compiled]. by rewrite andb_true_r. }
  rewrite Hoff. split.
  - rewrite map_map. cbn [registration reg_name]. split.
    + intros Hin. apply in_map_iff in Hin as (tool & <- & Hin).
      apply List.filter_In in Hin as [Hin Hadm].
      by apply registry_holds_admitted.
    + intros Hsome.
      destruct (buildToolsRegistry api_endpoints endpointsData readOnly
                  orgMode !! name) as [[tool config]|] eqn:Hlook; [|done].
      apply registry_entry_admitted in Hlook as (Hin & <- & _ & Hadm).
      apply in_map_iff. exists tool. split; [done|].
      by apply List.filter_In.
  - intros tool config Hlook.
    apply registry_entry_admitted in Hlook as (Hin & <- & -> & Hadm).
    split_and!; [|done..].
    apply in_map_iff. exists tool. split; [done|]. by apply List.filter_In.
Qed.

End RegistrationFacts.

Lemma own_schema_entries (all parameters : list ParameterDefinition) :
  forall (schema : list (string * Schema)),
    (forall param, In param parameters -> In param all) ->
    NoDup (map fst schema) ->
    (forall k s, entries_get k schema = Some s ->
       exists param,
         In param all /\ def_name param = k /\
         s = OfParameter (def_schema param)) ->
    let schema' :=
      fold_left
        (fun schema param =>
           entries_set (def_name param) (OfParameter (def_schema param))
             schema)
        parameters schema in
    NoDup (map fst schema') /\
    (forall k s, entries_get k schema' = Some s ->
       exists param,
         In param all /\ def_name param = k /\
         s = OfParameter (def_schema param)) /\
    (forall param, In param parameters ->
       entries_get (def_name param) schema' <> None) /\
    (forall k, entries_get k schema <> None -> entries_get k schema' <> None).
Proof.
  induction parameters as [|param parameters IH]; intros schema Hsub Hnd Hall.
  - cbn. split_and!; try done.
  - cbn [fold_left]. cbv zeta.
    destruct (IH (entries_set (def_name param) (OfParameter (def_schema param))
                    schema)) as (Hnd' & Hall' & Hin' & Hkeep').
    + intros p Hp. apply Hsub. by right.
    + by apply entries_set_NoDup.
    + intros k s. destruct (String.eqb_spec k (def_name param)) as [->|Hne].
      * rewrite entries_get_set_same. intros [= <-]. exists param.
        split_and!; try done. apply Hsub. by left.
      * rewrite entries_get_set_other by done. apply Hall.
    + split_and!; try done.
      * intros param' [<-|Hin]; [|by apply Hin'].
        apply Hkeep'. by rewrite entries_get_set_same.
      * intros k Hk. apply Hkeep'.
        destruct (String.eqb_spec k (def_name param)) as [->|Hne].
        -- by rewrite entries_get_set_same.
        -- by rewrite entries_get_set_other.
Qed.

Lemma entries_get_set_is_Some {A} (k k' : string) (v : A)
    (l : list (string * A)) :
  entries_get k l <> None -> entries_get k (entries_set k' v l) <> None.
Proof.
  destruct (String.eqb_spec k k') as [->|Hne].
  - by rewrite entries_get_set_same.
  - by rewrite entries_get_set_other.
Qed.

(** X25.  The schema of a registration.  Every tool accepts [includeHeaders]
    and [excludeResponse] as optional booleans; [fetchAllPages] is offered
    as an optional boolean exactly on [GET] tools whose path has a slash,
    and [timezone] as an optional string exactly on endpoints that support
    it.  These entries take the place of a parameter of the same name.
    Every other key is a parameter of the endpoint with that parameter's
    schema, every parameter has its key, and no key occurs twice. *)
Theorem schema_control_entries (tool : Endpoint)
    (endpointConfig : option EndpointConfig) :
  let schema := paramSchema tool endpointConfig in
  NoDup (map fst schema) /\
  (exists d, entries_get "includeHeaders" schema = Some (OptionalBoolean d)) /\
  (exists d, entries_get "excludeResponse" schema = Some (OptionalBoolean d))
  /\
  ((exists d, entries_get "fetchAllPages" schema = Some (OptionalBoolean d))
   <->
   String.eqb (toUpperCase (tool_method tool)) "GET" &&
   includes (tool_path tool) "/" = true) /\
  ((exists d, entries_get "timezone" schema = Some (OptionalString d)) <->
   config_flag endpointConfig cfg_supportsTimezone = true) /\
  (forall k s,
     string_in k controlParams = false ->
     entries_get k schema = Some s ->
     exists param,
       In param (parameterDefinitions_of tool) /\ def_name param = k /\
       s = OfParameter (def_schema param)) /\
  (forall param,
     In param (parameterDefinitions_of tool) ->
     entries_get (def_name param) schema <> None).
Proof.
  cbv zeta. unfold paramSchema.
  set (own := match tool_parameters tool with
              | Some parameters =>
                  if (0 <? length parameters)%nat
                  then fold_left _ parameters []
                  else []
              | None => []
              end).
  assert (Hown : own =
    fold_left
      (fun schema param =>
         entries_set (def_name param) (OfParameter (def_schema param)) schema)
      (parameterDefinitions_of tool) []).
  { subst own. unfold parameterDefinitions_of.
    destruct (tool_parameters tool) as [[|param l]|]; done. }
  destruct (own_schema_entries (parameterDefinitions_of tool)
              (parameterDefinitions_of tool) [])
    as (Hnd & Hall & Hin & _); [done|constructor|done|].
  cbv zeta in Hnd, Hall, Hin. rewrite <- Hown in Hnd, Hall, Hin.
  clearbody own. clear Hown.
  assert (Hnot : forall k d, entries_get k own <> Some (OptionalBoolean d) /\
                             entries_get k own <> Some (OptionalString d)).
  { intros k d. split; intros Hk; by apply Hall in Hk as (? & _ & _ & ?). }
  destruct (String.eqb (toUpperCase (tool_method tool)) "GET" &&
            includes (tool_path tool) "/");
    destruct (config_flag endpointConfig cfg_supportsTimezone);
    (split_and!;
     [ by repeat apply entries_set_NoDup
     | eexists;
       by rewrite ?(entries_get_set_other "includeHeaders" "timezone"),
         ?(entries_get_set_other "includeHeaders" "excludeResponse"),
         entries_get_set_same by done
     | eexists;
       by rewrite ?(entries_get_set_other "excludeResponse" "timezone"),
         entries_get_set_same by done
     | rewrite ?(entries_get_set_other "fetchAllPages" "timezone"),
         ?(entries_get_set_other "fetchAllPages" "excludeResponse"),
         ?(entries_get_set_other "fetchAllPages" "includeHeaders"),
         ?entries_get_set_same by done;
       split; [try done|first [by intros [=]|intros _; by eexists]];
       try (intros [d Hd]; by apply Hnot in Hd)
     | rewrite ?entries_get_set_same,
         ?(entries_get_set_other "timezone" "excludeResponse"),
         ?(entries_get_set_other "timezone" "includeHeaders"),
         ?(entries_get_set_other "timezone" "fetchAllPages") by done;
       split; [try done|first [by intros [=]|intros _; by eexists]];
       try (intros [d Hd]; by apply Hnot in Hd)
     | intros k s Hk;
       assert (k <> "fetchAllPages" /\ k <> "includeHeaders" /\
               k <> "excludeResponse" /\ k <> "timezone")
         as (? & ? & ? & ?)
         by (split_and!; intros ->; discriminate);
       rewrite ?entries_get_set_other by done; apply Hall
     | intros param Hp; repeat apply entries_get_set_is_Some; by apply Hin ]).
Qed.

End RegisterFacts.

(** ** The HTTP option of the server *)

Section HttpOptionFacts.
Import Server.


Lemma split_head (sep : ascii) (s : string) :
  exists part parts,
    split sep s = part :: parts /\
    includes part (String sep EmptyString) = false /\
    is_prefix part s = true /\
    (includes s (String sep EmptyString) = false -> part = s).
Proof.
  induction s as [|c s (part & parts & Hsplit & Hno & Hpre & Hsame)].
  - exists EmptyString, []. by split_and!.
  - cbn [split]. destruct (Ascii.eqb_spec c sep) as [->|Hne].
    + exists EmptyString, (split sep s). split_and!; try done.
      cbn. by rewrite Ascii.eqb_refl.
    + rewrite Hsplit. exists (String c part), parts.
      assert (Hc : Ascii.eqb sep c = false).
      { destruct (Ascii.eqb_spec sep c); congruence. }
      split_and!; try done.
      * cbn [includes is_prefix]. rewrite Hc. cbn [andb orb]. exact Hno.
      * cbn [is_prefix]. by rewrite Ascii.eqb_refl.
      * cbn [includes is_prefix]. rewrite Hc. cbn [andb orb].
        intros H. by rewrite Hsame.
Qed.

Lemma port_or_default_nonzero (s : option string) :
  port_or_default s <> NaN /\
  forall q, port_or_default s = Finite q -> ~ (q == inject_Z 0)%Q.
Proof.
  assert (Hdefault : forall q, Finite (inject_Z 3000) = Finite q ->
                               ~ (q == inject_Z 0)%Q).
  { intros q [= <-] Hzero. by vm_compute in Hzero. }
  unfold port_or_default. destruct s as [t|]; [|by split].
  destruct (parseInt t) as [|q|negative]; cbn [number_or];
    [by split| |by split].
  destruct (Qeq_bool q (inject_Z 0)) eqn:Hq; [by split|].
  split; [done|]. intros q' [= <-] Hzero.
  apply Qeq_bool_iff in Hzero. congruence.
Qed.

(** X26.  What [parseHttpOption] never returns: the port is never 0 and
    never [NaN] (a missing, unreadable or zero port becomes 3000), and the
    host is never the empty string.  A host, when there is one, is the
    beginning of the trimmed option and holds no colon. *)
Theorem http_option_is_never_degenerate (httpOption : string + bool) :
  port (parseHttpOption httpOption) <> NaN /\
  (forall q, port (parseHttpOption httpOption) = Finite q ->
             ~ (q == inject_Z 0)%Q) /\
  host (parseHttpOption httpOption) <> Some "" /\
  (forall h,
     host (parseHttpOption httpOption) = Some h ->
     includes h ":" = false /\
     exists text,
       httpOption = inl text /\ startsWith (trim text) h = true) /\
  (forall b,
     parseHttpOption (inr b) =
     {| host := None; port := Finite (inject_Z 3000) |}).
Proof.
  destruct httpOption as [text|b].
  2:{ split_and!; try done. intros q [= <-] Hzero. by vm_compute in Hzero. }
  unfold parseHttpOption.
  destruct (split_head ":" (trim text))
    as (part & parts & Hsplit & Hno & Hpre & _).
  destruct (includes (trim text) ":"); cbn [host port].
  - rewrite Hsplit. cbn [nth_error].
    split_and!; try done.
    + apply port_or_default_nonzero.
    + apply port_or_default_nonzero.
    + destruct (String.eqb_spec part ""); congruence.
    + intros h. destruct (String.eqb_spec part ""); [done|].
      intros [= <-]. split; [done|]. by exists text.
  - split_and!; try done; apply port_or_default_nonzero.
Qed.

(** The double for a whole number up to [2^53] is that number. *)
Lemma double_of_Z_exact (n : Z) :
  (0 < n <= 9007199254740992)%Z -> double_of_Z n = Finite (inject_Z n).
Proof.
  intros [Hpos Hle].
  destruct (Z.eq_dec n 9007199254740992%Z) as [->|Hne]; [by vm_compute|].
  assert (Hlog : (Z.log2 n < 53)%Z) by (apply Z.log2_lt_pow2; lia).
  unfold double_of_Z. rewrite Z.abs_eq by lia.
  destruct (Z.leb_spec (Z.log2 n - 52) 0); [|lia].
  rewrite Z.shiftl_1_l.
  destruct (Z.leb_spec (2 ^ 1024) n) as [Hbig|_].
  - assert (9007199254740992 < 2 ^ 1024)%Z by (by vm_compute). lia.
  - rewrite Z.sgn_pos by lia. do 2 f_equal. lia.
Qed.

(** The double for a positive whole number is not zero. *)
Lemma double_of_Z_truthy (n : Z) (d : number) :
  (0 < n)%Z -> number_or (double_of_Z n) d = double_of_Z n.
Proof.
  intros Hpos. unfold double_of_Z. rewrite Z.abs_eq by lia.
  set (dropped := (Z.log2 n - 52)%Z).
  set (rounded := if (dropped <=? 0)%Z then n else _).
  assert (Hrounded : (0 < rounded)%Z).
  { subst rounded. destruct (Z.leb_spec dropped 0) as [|Hdrop]; [done|].
    rewrite Z.shiftl_mul_pow2 by lia.
    assert (0 < Z.shiftr n dropped)%Z.
    { rewrite Z.shiftr_div_pow2 by lia.
      apply Z.div_str_pos. split; [apply Z.pow_pos_nonneg; lia|].
      transitivity (2 ^ Z.log2 n)%Z.
      - apply Z.pow_le_mono_r; lia.
      - by apply Z.log2_spec. }
    apply Z.mul_pos_pos; [|apply Z.pow_pos_nonneg; lia].
    destruct (_ || _); lia. }
  clearbody rounded.
  destruct (Z.shiftl 1 1024 <=? rounded)%Z; [done|].
  rewrite Z.sgn_pos by lia. cbn [number_or]. unfold Qeq_bool, inject_Z.
  cbn [Qnum Qden]. by destruct (Z.eqb_spec (1 * rounded * 1) (0 * 1)); [lia|].
Qed.

Lemma digits_more (d : Decimal.uint) (acc : positive) :
  digits 10 (NilEmpty.string_of_uint d) (Some (Z.pos acc)) =
  Some (Z.pos (Pos.of_uint_acc d acc)).
Proof.
  revert acc.
  induction d as [|d IH|d IH|d IH|d IH|d IH|d IH|d IH|d IH|d IH|d IH];
    intros acc; [done|..];
    cbn [NilEmpty.string_of_uint digits Pos.of_uint_acc];
    match goal with
    | |- context [digit 10 ?c] =>
        let v := eval vm_compute in (digit 10 c) in
        change (digit 10 c) with v
    end;
    cbv beta iota;
    match goal with
    | |- digits _ _ (Some ?n) = Some (Z.pos (Pos.of_uint_acc _ ?a)) =>
        replace n with (Z.pos a) by lia
    end;
    apply IH.
Qed.

Lemma uint_chars (d : Decimal.uint) :
  trimEnd (NilEmpty.string_of_uint d) = NilEmpty.string_of_uint d /\
  includes (NilEmpty.string_of_uint d) ":" = false.
Proof.
  induction d as [|d [IH1 IH2]|d [IH1 IH2]|d [IH1 IH2]|d [IH1 IH2]|d [IH1 IH2]
                  |d [IH1 IH2]|d [IH1 IH2]|d [IH1 IH2]|d [IH1 IH2]|d [IH1 IH2]];
    [done|..];
    cbn [NilEmpty.string_of_uint trimEnd includes]; rewrite IH1, IH2; done.
Qed.

Lemma to_uint_leading (q : positive) :
  match Pos.to_uint q with
  | Decimal.Nil | Decimal.D0 _ => False
  | _ => True
  end.
Proof.
  pose proof (Unsigned.to_uint_nonnil q) as Hnil.
  pose proof (Unsigned.to_uint_nonzero q) as Hzero.
  pose proof (DecimalPos.Unsigned.to_of (Pos.to_uint q)) as Hnorm.
  rewrite DecimalPos.Unsigned.of_to in Hnorm. cbn [N.to_uint] in Hnorm.
  destruct (Pos.to_uint q) as [|u| | | | | | | | |]; try done.
  rewrite unorm_D0 in Hnorm.
  assert (Hu : forall v w, Decimal.unorm v = Decimal.D0 w -> w = Decimal.Nil).
  { clear. induction v as [|v IH| | | | | | | | |]; simpl; intros w H;
      [by injection H|by eapply IH|discriminate..]. }
  symmetry in Hnorm. apply Hu in Hnorm. congruence.
Qed.

Lemma string_of_nat_digits (p : nat) :
  (0 < p)%nat ->
  exists c rest,
    string_of_nat p = String c rest /\
    isWhiteSpace c = false /\
    trimEnd (string_of_nat p) = string_of_nat p /\
    includes (string_of_nat p) ":" = false /\
    parseInt (string_of_nat p) = double_of_Z (Z.of_nat p).
Proof.
  intros Hp. destruct p as [|n]; [lia|].
  unfold string_of_nat, string_of_Z.
  change (Z.of_nat (S n)) with (Z.pos (Pos.of_succ_nat n)).
  cbn [Z.to_int NilZero.string_of_int].
  set (q := Pos.of_succ_nat n).
  pose proof (to_uint_leading q) as Hlead.
  pose proof (DecimalPos.Unsigned.of_to q) as Hof.
  pose proof (uint_chars (Pos.to_uint q)) as [Htrim Hcolon].
  destruct (Pos.to_uint q) as [|d|d|d|d|d|d|d|d|d|d] eqn:Hd; try done;
    cbn [NilZero.string_of_uint];
    eexists _, _; (split; [reflexivity|]); (split; [done|]);
    (split; [exact Htrim|]); (split; [exact Hcolon|]);
    unfold parseInt;
    cbn [NilEmpty.string_of_uint trimStart isWhiteSpace];
    cbn [Pos.of_uint] in Hof; injection Hof as Hof;
    repeat match goal with
           | |- context [isWhiteSpace ?c] => change (isWhiteSpace c) with false
           end;
    cbv beta iota;
    cbn [startsWith is_prefix Ascii.eqb Bool.eqb andb orb digits];
    match goal with
    | |- context [digit 10 ?c] =>
        let v := eval vm_compute in (digit 10 c) in
        change (digit 10 c) with v
    end;
    cbv beta iota;
    match goal with
    | |- context [digits 10 _ (Some ?n)] =>
        let v := eval vm_compute in n in change n with v
    end;
    rewrite digits_more, Hof; f_equal; lia.
Qed.

Lemma trimEnd_append (a b : string) :
  b <> "" -> trimEnd b = b -> trimEnd (a +:+ b) = a +:+ b.
Proof.
  intros Hb Htrim. induction a as [|c a IH]; [done|].
  change (String c a +:+ b) with (String c (a +:+ b)).
  cbn [trimEnd]. rewrite IH.
  destruct (String.eqb_spec (a +:+ b) "") as [Hempty|_].
  - destruct a; [done|discriminate].
  - by rewrite andb_false_r.
Qed.

Lemma includes_colon (a b : string) : includes (a +:+ ":" +:+ b) ":" = true.
Proof.
  induction a as [|c a IH]; [done|].
  change (String c a +:+ ":" +:+ b) with (String c (a +:+ ":" +:+ b)).
  cbn [includes]. rewrite IH. apply orb_true_r.
Qed.

Lemma split_at_colon (a b : string) :
  includes a ":" = false ->
  split ":" (a +:+ ":" +:+ b) = a :: split ":" b.
Proof.
  induction a as [|c a IH]; [done|].
  change (String c a +:+ ":" +:+ b) with (String c (a +:+ ":" +:+ b)).
  cbn [includes is_prefix split]. intros Hno.
  apply orb_false_iff in Hno as [Hc Hno].
  rewrite andb_true_r in Hc. rewrite Ascii.eqb_sym, Hc, IH by done. done.
Qed.

(** X27.  Reading back a port.  A positive port written in decimal is read
    as the double for it, alone or after a colon, and up to [2^53] that is
    the port itself; what stands before the colon, when it holds no colon
    and does not begin with white space, is the host, the empty text
    standing for none. *)
Theorem http_option_reads_decimal_port (h : string) (p : nat) :
  (0 < p)%nat ->
  includes h ":" = false ->
  (forall c rest, h = String c rest -> isWhiteSpace c = false) ->
  parseHttpOption (inl (string_of_nat p)) =
    {| host := None; port := double_of_Z (Z.of_nat p) |} /\
  parseHttpOption (inl (h +:+ ":" +:+ string_of_nat p)) =
    {| host := if String.eqb h "" then None else Some h;
       port := double_of_Z (Z.of_nat p) |} /\
  ((Z.of_nat p <= 9007199254740992)%Z ->
   double_of_Z (Z.of_nat p) = Finite (inject_Z (Z.of_nat p))).
Proof.
  intros Hp Hh Hstart.
  destruct (string_of_nat_digits p Hp)
    as (c & rest & Hdigits & Hc & Htrim & Hcolon & Hparse).
  assert (Hne : string_of_nat p <> "") by (rewrite Hdigits; discriminate).
  split.
  - unfold parseHttpOption, trim.
    replace (trimStart (string_of_nat p)) with (string_of_nat p)
      by (rewrite Hdigits; cbn [trimStart]; by rewrite Hc).
    rewrite Htrim, Hcolon. unfold port_or_default. rewrite Hparse.
    by rewrite double_of_Z_truthy by lia.
  - split; [|intros Hle; apply double_of_Z_exact; lia].
    unfold parseHttpOption, trim.
    assert (Hts : trimStart (h +:+ ":" +:+ string_of_nat p) =
                  h +:+ ":" +:+ string_of_nat p).
    { destruct h as [|c' h']; [done|].
      change (String c' h' +:+ ":" +:+ string_of_nat p)
        with (String c' (h' +:+ ":" +:+ string_of_nat p)).
      cbn [trimStart]. by rewrite (Hstart c' h' eq_refl). }
    rewrite Hts.
    assert (Hte : trimEnd (h +:+ ":" +:+ string_of_nat p) =
                  h +:+ ":" +:+ string_of_nat p).
    { rewrite <- append_assoc. by apply trimEnd_append. }
    rewrite Hte, includes_colon, split_at_colon by done.
    destruct (split_head ":" (string_of_nat p))
      as (part & parts & -> & _ & _ & Hsame).
    rewrite (Hsame Hcolon). cbn [nth_error].
    unfold port_or_default. rewrite Hparse.
    by rewrite double_of_Z_truthy by lia.
Qed.

(** Beyond [2^53] a port is read as the double nearest to it. *)
Example port_beyond_exact_range :
  parseHttpOption (inl "localhost:9007199254740993") =
  {| host := Some "localhost";
     port := Finite (inject_Z 9007199254740992) |}.
Proof. by vm_compute. Qed.

End HttpOptionFacts.

(** ** The further properties at work on concrete runs *)

Section Examples.
Import Samples.

(** [$top] and then [top]: one [$top] entry, holding the later value. *)
Lemma later_query_value_witness :
  b_queryParams
    (bind_params rt0 listMessages [("$top", JNum 5); ("top", JNum 7)]) =
  [("$top", "7")] /\
  entries_get (fixedParamName "top")
    (b_queryParams
       (bind_params rt0 listMessages ([("$top", JNum 5)] ++ [("top", JNum 7)])))
  = Some (ToString (JNum 7)).
Proof.
  destruct (later_query_value_replaces rt0 listMessages [("$top", JNum 5)]
              "top" (JNum 7)
              {| def_name := "top"; def_type := Query; def_schema := None |}
              eq_refl eq_refl eq_refl) as (_ & Hget & _).
  split; [reflexivity|exact Hget].
Defined.

(** A calendar endpoint with a time zone: the [Prefer] header bound from a
    parameter gives way to the one of the time zone. *)
Lemma timezone_witness :
  entries_get "Prefer"
    (opt_headers
       (snd (build_request rt0 calendarView (Some calendarViewConfig)
               [("Prefer", JStr "odata.maxpagesize=5");
                ("timezone", JStr "Europe/Paris")]))) =
  Some ("outlook.timezone=" +:+ dquote +:+ "Europe/Paris" +:+ dquote) /\
  build_request rt0 listMessages None [("timezone", JStr "Europe/Paris")] =
  build_request rt0 listMessages None [].
Proof.
  split.
  - apply (timezone_needs_endpoint_support rt0 calendarView
             (Some calendarViewConfig)); reflexivity.
  - apply (timezone_needs_endpoint_support rt0 listMessages None
             [("timezone", JStr "Europe/Paris")]). reflexivity.
Defined.

(** A download of file content with [returnDownloadUrl]: the request goes
    to the item itself. *)
Lemma content_path_witness :
  fst (build_request rt0 downloadItem (Some downloadItemConfig)
         [("driveId", JStr "b!x"); ("itemId", JStr "42")]) =
  "/drives/b!x/items/42" /\
  opt_rawResponse
    (snd (build_request rt0 downloadItem (Some downloadItemConfig)
            [("driveId", JStr "b!x"); ("itemId", JStr "42")])) = None.
Proof.
  exact (content_path_download_or_raw rt0 downloadItem
           (Some downloadItemConfig)
           [("driveId", JStr "b!x"); ("itemId", JStr "42")]
           "/drives/b!x/items/42" eq_refl).
Defined.

(** A client that refuses the first request of a paginated listing. *)
Lemma first_request_failure_witness :
  fst (executeGraphTool rt0 scripted listMessages None fetchAll
         (start [inl forbidden] [])) =
  Ok {| content :=
          [TextContent
             (stringify
                (JObj [("error",
                        JStr "Error in tool list-mail-messages: 403 Forbidden")]))];
        _meta := None;
        isError := Some true |}.
Proof.
  destruct (first_request_failure_is_reported rt0 scripted listMessages None
              fetchAll (start [inl forbidden] []) forbidden
              {| graph_answers := []; make_answers := [] |} eq_refl)
    as (Hrun & _).
  rewrite Hrun. reflexivity.
Defined.

(** A flagged answer of two blocks goes through an aggregation with its
    metadata, its flag and its second block. *)
Lemma executor_keeps_envelope_witness :
  exists r w' rest,
    executeGraphTool rt0 scripted listMessages None fetchAll
      (start [inr flagged] []) = (Ok r, w') /\
    trace w' =
      trace (start [inr flagged] []) ++
      EvGraphRequest (fst (build_request rt0 listMessages None fetchAll))
        (snd (build_request rt0 listMessages None fetchAll)) (inr flagged)
      :: rest /\
    _meta r = Some (JObj [("etag", JStr "W/1")]) /\
    isError r = Some true /\
    length (content r) = 2%nat /\
    tl (content r) = [TextContent "second block"].
Proof.
  destruct (executor_keeps_envelope rt0 scripted listMessages None fetchAll
              (start [inr flagged] []) flagged
              {| graph_answers := []; make_answers := [] |} eq_refl)
    as (r & w' & rest & Hrun & Htr & Hmeta & Herr & Hlen & Htl & _).
  exists r, w', rest. by split_and!.
Defined.

(** The first page of the example rewritten with two items. *)
Lemma rewritten_page_witness :
  exists members,
    fst (finishPagination rt0 (page_response page1) page1
           {| allItems := JArr [JStr "a"; JStr "b"];
              nextLink := None;
              pageCount := 2 |} threePages) =
      Ok (set_first_text (page_response page1) (stringify (JObj members))) /\
    entries_get "value" members = Some (JArr [JStr "a"; JStr "b"]) /\
    entries_get "@odata.nextLink" members = None /\
    entries_get "@odata.count" members = Some (JNum 2).
Proof.
  destruct (rewritten_page_members rt0 (page_response page1)
              [("@odata.count", JNum 3); ("value", JArr [JStr "a"]);
               ("@odata.nextLink", JStr cursor2)]
              {| allItems := JArr [JStr "a"; JStr "b"];
                 nextLink := None;
                 pageCount := 2 |}
              [JStr "a"; JStr "b"] threePages eq_refl)
    as (members & Hrun & Hvalue & Hlink & Hcount & _).
  exists members. by split_and!.
Defined.

(** A read-only registry over the examples does not hold the operation
    that posts a message. *)
Lemma registry_lookup_witness :
  buildToolsRegistry endpoints endpointsData true true !! "send-chat-message"
  = None /\
  buildToolsRegistry endpoints endpointsData true true !! "list-joined-teams"
  = Some (listTeams, Some listTeamsConfig) /\
  buildToolsRegistry endpoints endpointsData true false !! "list-joined-teams"
  = None.
Proof.
  rewrite !registry_lookup. by split_and!.
Defined.

(** The stand-up is the second event of the day; the request for details
    names it. *)
Lemma first_matching_meeting_witness :
  exists r w' answer rest,
    getTranscriptByMeeting rt0 scripted searchStandup detailsRefused =
      (Ok r, w') /\
    trace w' =
      trace detailsRefused ++
      EvMakeRequest (calendarPath rt0 searchStandup)
        (calendarOptions searchStandup) (inr calendarDay) ::
      EvMakeRequest
        ("/me/events/" +:+ ToString_opt (get_prop standup "id") +:+
         "?$select=subject,onlineMeeting,onlineMeetingUrl,isOnlineMeeting")
        None answer :: rest.
Proof.
  apply (first_matching_meeting_is_used rt0 scripted searchStandup
           detailsRefused calendarDay
           {| graph_answers := []; make_answers := [inl forbidden] |}
           [planning] standup []).
  - reflexivity.
  - reflexivity.
  - repeat constructor.
  - reflexivity.
Defined.

(** Of two meetings that match apart from the case of an accented letter,
    the first is found. *)
Example accented_first_match :
  find_event cafeSearch [planning; cafeSync; cafeReview] =
  inr (Some cafeSync).
Proof. by vm_compute. Qed.

(** The details of the event are refused: the workflow stops there with the
    failure of the second step. *)
Lemma failed_step_witness :
  fst (getTranscriptByMeeting rt0 scripted searchStandup detailsRefused) =
  Ok (failure ("Failed to get event details: " +:+ exn_message forbidden)).
Proof.
  destruct (failed_step_ends_workflow rt0 scripted searchStandup
              detailsRefused) as (r & w' & evs & Hrun & Htr & Hfail).
  rewrite Hrun. cbn [fst]. f_equal.
  assert (Htrace : trace w' =
            trace (snd (getTranscriptByMeeting rt0 scripted searchStandup
                          detailsRefused))) by (by rewrite Hrun).
  rewrite Htr in Htrace. vm_compute in Htrace.
  destruct (Hfail [EvMakeRequest (calendarPath rt0 searchStandup)
                     (calendarOptions searchStandup) (inr calendarDay)]
              "/me/events/Standup?$select=subject,onlineMeeting,onlineMeetingUrl,isOnlineMeeting"
              None forbidden [] Htrace) as (_ & _ & _ & ->).
  reflexivity.
Defined.

(** A day without events. *)
Lemma empty_calendar_witness :
  fst (getTranscriptByMeeting rt0 scripted searchStandup emptyDay) =
  Ok (failure "No meetings found on 2026-01-16").
Proof.
  rewrite (empty_calendar_is_reported rt0 scripted searchStandup emptyDay
             (JObj [("value", JArr [])])
             {| graph_answers := []; make_answers := [] |});
    [reflexivity|reflexivity|discriminate|reflexivity].
Defined.

(** A run that finds the transcript of the stand-up. *)
Lemma successful_transcript_witness :
  exists r,
    fst (getTranscriptByMeeting rt0 scripted searchStandup transcriptFound) =
      Ok r /\
    isError r = None /\
    exists meeting transcript vtt,
      content r =
        [TextContent
           (JSON_stringify_pretty rt0
              (JObj [("meeting", JObj meeting);
                     ("transcript", JObj transcript);
                     ("content", vtt)]))] /\
      truthy vtt = true /\
      truthy_opt (entries_get "organizer" meeting) = true.
Proof.
  destruct (successful_transcript_is_complete rt0 scripted searchStandup
              transcriptFound) as (r & w' & Hrun & Hshape).
  assert (Hok : isError r = None).
  { assert (Hr : Ok r = fst (getTranscriptByMeeting rt0 scripted searchStandup
                               transcriptFound)) by (by rewrite Hrun).
    vm_compute in Hr. by injection Hr as ->. }
  exists r. rewrite Hrun. split_and!; [done|done|by apply Hshape].
Defined.

(** A limit of 1.5: two of the tools whose text holds [me] are
    reported. *)
Lemma search_first_matches_witness :
  Registration.search_tools rt0 registry (Some "ME") None
    (Some (Finite (3 # 2))) =
  inr {| content :=
           [TextContent
              (stringify
                 (JObj [("found", JNum 2);
                        ("total", JNum 5);
                        ("tools",
                         JArr [Registration.summary "list-mail-messages"
                                 listMessages;
                               Registration.summary "send-chat-message"
                                 sendChatMessage]);
                        ("tip", JStr Registration.searchTip)]))];
         _meta := None;
         isError := None |}.
Proof.
  rewrite (search_returns_first_matches rt0 registry (Some "ME") None
             (Some (Finite (3 # 2)))); [reflexivity|discriminate].
Defined.

(** A limit of zero still reports the first match. *)
Lemma search_limit_witness :
  exists r tools,
    Registration.search_tools rt0 registry (Some "ME") None
      (Some (Finite (inject_Z 0))) = inr r /\
    content r =
      [TextContent
         (stringify
            (JObj [("found", JNum (Z.of_nat (length tools)));
                   ("total", JNum 5);
                   ("tools", JArr tools);
                   ("tip", JStr Registration.searchTip)]))] /\
    (1 <= length tools <= 50)%nat.
Proof.
  eexists.
  destruct (search_limit_bounds rt0 registry (Some "ME") None
              (Some (Finite (inject_Z 0))) _ eq_refl)
    as (tools & Hcontent & _ & H50 & _ & _ & _ & Hone).
  exists tools. split_and!; [reflexivity|exact Hcontent| |].
  - apply Hone. discriminate.
  - apply H50. discriminate.
Defined.

(** An unknown category and an inherited name. *)
Lemma category_outside_table_witness :
  Registration.search_tools rt0 registry None (Some "finance") None =
  Registration.search_tools rt0 registry None None None /\
  Registration.search_tools rt0 registry None (Some "constructor") None =
  inl (TypeError "Cannot read properties of undefined (reading 'test')").
Proof.
  split.
  - exact (category_outside_table rt0 registry None "finance" None eq_refl).
  - apply (category_outside_table rt0 registry None "constructor" None eq_refl).
    discriminate.
Defined.

(** Every tool of an answer over the registry of the examples can be
    dispatched. *)
Lemma found_tools_witness :
  exists r tools,
    Registration.search_tools rt0
      (Registration.registryEntries endpoints endpointsData true false)
      (Some "drive") None None = inr r /\
    content r =
      [TextContent
         (stringify
            (JObj [("found", JNum (Z.of_nat (length tools)));
                   ("total", JNum 3);
                   ("tools", JArr tools);
                   ("tip", JStr Registration.searchTip)]))] /\
    Forall (fun found =>
              exists name tool config,
                get_prop found "name" = Some (JStr name) /\
                buildToolsRegistry endpoints endpointsData true false !! name =
                  Some (tool, config))
      tools.
Proof.
  eexists.
  destruct (found_tools_can_be_executed rt0 scripted endpoints endpointsData
              true false (Some "drive") None None _ eq_refl)
    as (tools & Hcontent & Hall).
  exists tools. split_and!; [reflexivity|exact Hcontent|].
  eapply List.Forall_impl; [|exact Hall].
  intros found (name & tool & config & Hname & Hlook & _).
  by exists name, tool, config.
Defined.

(** An ill-formed filter pattern: everything admitted is offered, and the
    first error line says that the filter is ignored. *)
Lemma ill_formed_pattern_witness :
  let p := Registration.registerGraphTools recorder RegExp_literal endpoints
             endpointsData [] true (Some "(") false in
  map Registration.reg_name (Registration.offered p) =
    ["list-mail-messages"; "get-calendar-view";
     "download-onedrive-file-content"] /\
  hd_error (Registration.errors p) =
    Some "Invalid tool filter regex pattern: (. Ignoring filter.".
Proof.
  destruct (registration_offers_enabled_tools recorder RegExp_literal
              endpoints endpointsData [] true (Some "(") false)
    as (Hoff & Hbad).
  destruct (Hbad "(" (Exn "SyntaxError"
                        "Invalid regular expression: /(/: Unterminated group")
              eq_refl) as (_ & Herr); [discriminate|reflexivity|].
  cbv zeta. split; [|exact Herr]. rewrite Hoff. reflexivity.
Defined.

(** A host and a port, and a port alone. *)
Lemma http_option_witness :
  Server.parseHttpOption (inl "443") =
    {| Server.host := None; Server.port := Finite (inject_Z 443) |} /\
  Server.parseHttpOption (inl "localhost:443") =
    {| Server.host := Some "localhost";
       Server.port := Finite (inject_Z 443) |}.
Proof.
  destruct (http_option_reads_decimal_port "localhost" 443)
    as (Hport & Hboth & Hexact).
  - lia.
  - reflexivity.
  - intros c rest [= <- _]. reflexivity.
  - rewrite Hexact in Hport, Hboth by (by vm_compute). by split.
Defined.

(** A parameter the listing does not declare. *)
Lemma undeclared_parameter_witness :
  build_request rt0 listMessages None [("top", JNum 5); ("colour", JStr "red")]
  = build_request rt0 listMessages None [("top", JNum 5)] /\
  executeGraphTool rt0 scripted listMessages None
    [("top", JNum 5); ("colour", JStr "red")] threePages =
  executeGraphTool rt0 scripted listMessages None [("top", JNum 5)] threePages.
Proof.
  apply (undeclared_parameters_are_dropped rt0 scripted listMessages None
           "colour" (JStr "red") [("top", JNum 5)] [] threePages).
  - reflexivity.
  - discriminate.
  - reflexivity.
Defined.

End Examples.
